(** * Acquisition optimisation with the pymoo genetic algorithm (atlas)

    A shallow embedding of
    - [src/atlas/acquisition_optimizers/pymoo_optimizer.py]
      ([PymooProblemWrapper], [gen_initial_population], [PymooGAOptimizer]) and
    - [src/atlas/planners/gp/planner.py] ([BoTorchPlanner.__init__], [_ask]),
    followed by the properties the specification states about them.

    Python values are a small dynamic universe (floats are IEEE binary64,
    ints are unbounded, strings), dictionaries keep insertion order,
    exceptions are an explicit result type, and logging and calls to the
    search backend are recorded in a trace. *)

From Stdlib Require Import Floats ZArith String Bool Arith Lia List.
Import ListNotations.

Local Open Scope Z_scope.
Local Open Scope list_scope.

(** ** Exceptions and the two monads *)

Inductive exn : Type :=
| IndexError
| KeyError
| TypeError
| ValueError
| OverflowError
| RuntimeError
| UnboundLocalError (var : string)
| AttributeError (attr : string)
| NotImplementedError
| FatalError (msg : string).

Inductive result (A : Type) : Type :=
| Ok (a : A)
| Raise (e : exn).
Arguments Ok {A} a.
Arguments Raise {A} e.

Definition rbind {A B} (c : result A) (k : A -> result B) : result B :=
  match c with
  | Ok a => k a
  | Raise e => Raise e
  end.

Declare Scope py_scope.
Delimit Scope py_scope with py.
Notation "x <- c ;; k" := (rbind c (fun x => k))
  (at level 100, c at next level, right associativity) : py_scope.
Local Open Scope py_scope.

Fixpoint mapM {A B} (f : A -> result B) (l : list A) : result (list B) :=
  match l with
  | [] => Ok []
  | a :: l' => b <- f a ;; bs <- mapM f l' ;; Ok (b :: bs)
  end.

(** The double quote character, for messages that contain one. *)
Definition dquote : string := String (Ascii.ascii_of_nat 34) EmptyString.

(** ** Python values *)

Inductive pyval : Type :=
| VFloat (f : float)
| VInt (z : Z)
| VStr (s : string).

(** [int == float] in Python compares the exact mathematical values. *)
Definition int_eq_float (z : Z) (f : float) : bool :=
  match Prim2SF f with
  | S754_zero _ => z =? 0
  | S754_finite s m e =>
      let mz := if s then Z.neg m else Z.pos m in
      if 0 <=? e then z =? mz * 2 ^ e else z * 2 ^ (- e) =? mz
  | S754_infinity _ | S754_nan => false
  end.

(** Python's [==] on values of the universe. *)
Definition py_eq (a b : pyval) : bool :=
  match a, b with
  | VFloat x, VFloat y => PrimFloat.eqb x y
  | VInt x, VInt y => x =? y
  | VStr x, VStr y => String.eqb x y
  | VInt z, VFloat f | VFloat f, VInt z => int_eq_float z f
  | _, _ => false
  end.

(** [float(int)]: correctly rounded, [OverflowError] beyond the double range. *)
Definition float_of_int (z : Z) : result float :=
  let f := SF2Prim (binary_normalize prec emax z 0 false) in
  if PrimFloat.is_infinity f then Raise OverflowError else Ok f.

(** [l[i]] for a Python list: negative indices count from the end. *)
Definition py_getitem {A} (l : list A) (i : pyval) : result A :=
  match i with
  | VInt z =>
      let n := Z.of_nat (length l) in
      let k := if z <? 0 then z + n else z in
      if (0 <=? k) && (k <? n) then
        match nth_error l (Z.to_nat k) with
        | Some a => Ok a
        | None => Raise IndexError
        end
      else Raise IndexError
  | VFloat _ | VStr _ => Raise TypeError
  end.

(** [l.index(x)]: the first position whose item [== x], else [ValueError]. *)
Fixpoint py_index (l : list pyval) (x : pyval) : result Z :=
  match l with
  | [] => Raise ValueError
  | item :: l' => if py_eq item x then Ok 0 else i <- py_index l' x ;; Ok (i + 1)
  end.

(** ** Insertion-ordered dictionaries with string keys *)

Definition dict (V : Type) : Type := list (string * V).

Fixpoint dict_set {V} (d : dict V) (k : string) (v : V) : dict V :=
  match d with
  | [] => [(k, v)]
  | (k', v') :: d' =>
      if String.eqb k' k then (k', v) :: d' else (k', v') :: dict_set d' k v
  end.

Fixpoint dict_get {V} (d : dict V) (k : string) : result V :=
  match d with
  | [] => Raise KeyError
  | (k', v') :: d' => if String.eqb k' k then Ok v' else dict_get d' k
  end.

Definition dict_keys {V} (d : dict V) : list string := map fst d.
Definition dict_values {V} (d : dict V) : list V := map snd d.

(** [dict(pairs)] *)
Definition dict_of_pairs {V} (kvs : list (string * V)) : dict V :=
  fold_left (fun d kv => dict_set d (fst kv) (snd kv)) kvs [].

(** ** Olympus parameters *)

Module Param.
Record t : Type := mk {
  name : string;
  type : string;
  low : float;
  high : float;
  options : list pyval
}.
End Param.

(** [olympus.ParameterVector]: [ParameterVector().from_dict(sample, space)]
    wraps the dictionary; as an array it is the values in order. *)
Record ParameterVector : Type := from_dict { to_dict : dict pyval }.

Definition to_array (pv : ParameterVector) : list pyval :=
  dict_values (to_dict pv).

(** The candidates handed to the problem wrapper: a list of dictionaries
    (mixed-variable GA) or a list of plain rows.  The source inspects
    [samples[0]] only, so the list is homogeneous. *)
Inductive samples : Type :=
| DictSamples (l : list (dict pyval))
| ArraySamples (l : list (list pyval)).

Definition samples_is_empty (X : samples) : bool :=
  match X with
  | DictSamples [] | ArraySamples [] => true
  | _ => false
  end.

(** What [_pymoo_to_olympus] returns, depending on its flags. *)
Inductive olympus_samples : Type :=
| OlympDicts (l : list (dict pyval))
| OlympParamVecs (l : list ParameterVector)
| OlympExpanded (a : list (list float)).

(** Arrays stored in pymoo's [out] dictionary. *)
Inductive ndarray : Type :=
| FloatArray (a : list float)
| IntArray (a : list Z).

(** pymoo decision variables ([pymoo.core.variable]). *)
Inductive pymoo_var : Type :=
| Real (bounds : float * float)
| Integer (bounds : Z * Z)
| Choice (options : list pyval).

(** ** Trace of observable actions, and the monad of effectful code *)

Inductive event : Type :=
| EvLog (message message_type : string)
| EvCall (callee : string)
| EvMinimize
| EvOptimize (kind : string).

Definition M (A : Type) : Type := (list event * result A)%type.

Definition ret {A} (a : A) : M A := ([], Ok a).
Definition emit (e : event) : M unit := ([e], Ok tt).
Definition lift {A} (r : result A) : M A := ([], r).

Definition bind {A B} (c : M A) (k : A -> M B) : M B :=
  match c with
  | (t, Ok a) => let (t', r) := k a in (t ++ t', r)
  | (t, Raise e) => (t, Raise e)
  end.

Notation "x <-- c ;; k" := (bind c (fun x => k))
  (at level 100, c at next level, right associativity) : py_scope.
Notation "c ;;; k" := (bind c (fun _ => k))
  (at level 100, right associativity) : py_scope.

Definition trace {A} (c : M A) : list event := fst c.
Definition outcome {A} (c : M A) : result A := snd c.

(** Modelled from the spec: [atlas.Logger] is not under src/.  Per the error
    handling design a FATAL message is reported and aborts the call; every
    other level is reported and execution continues. *)
Definition Logger_log (message message_type : string) : M unit :=
  emit (EvLog message message_type) ;;;
  if String.eqb message_type "FATAL" then lift (Raise (FatalError message))
  else ret tt.

(** Modelled from the spec: the container of known constraints (its class is
    not under src/) holds the sequence of boolean predicates over the raw
    value array; [is_empty] holds exactly when none is registered. *)
Record KnownConstraints : Type := {
  constraints : list (list pyval -> bool)
}.

Definition is_empty (kc : KnownConstraints) : bool :=
  match constraints kc with
  | [] => true
  | _ :: _ => false
  end.

(** [atlas.params.Parameters] (not under src/): the parameter space and the
    expansion of parameter vectors into the model's numeric features. *)
Record Parameters : Type := {
  param_space : list Param.t;
  has_descriptors : bool;
  param_vectors_to_expanded :
    list ParameterVector -> forall (is_scaled return_scaled : bool), list (list float)
}.

Definition AcquisitionFunction : Type := list (list (list float)) -> list float.

Module PymooProblemWrapper.
Record t : Type := mk {
  (* attributes set by pymoo's Problem.__init__ *)
  vars : dict pymoo_var;
  n_vars : nat;
  n_obj : Z;
  n_constr : Z;
  xl : list pyval;
  xu : list pyval;
  (* attributes set by the wrapper *)
  params_obj : Parameters;
  acqf : AcquisitionFunction;
  batch_size : Z;
  known_constraints : KnownConstraints
}.
End PymooProblemWrapper.

(** [PymooProblemWrapper.__init__] *)
Definition PymooProblemWrapper_init
    (params_obj : Parameters) (pymoo_space : dict pymoo_var)
    (bounds : list pyval * list pyval) (acqf : AcquisitionFunction)
    (batch_size : Z) (known_constraints : KnownConstraints)
  : PymooProblemWrapper.t :=
  let n_constr := if negb (is_empty known_constraints) then 1 else 0 in
  PymooProblemWrapper.mk
    pymoo_space (length (param_space params_obj)) 1 n_constr
    (fst bounds) (snd bounds)
    params_obj acqf batch_size known_constraints.

(** ** [PymooGAOptimizer] *)

Record MixedVariableGA : Type := { ga_pop_size : Z }.

Module PymooGAOptimizer.
Record t : Type := mk {
  params_obj : Parameters;
  acquisition_type : string;
  acqf : AcquisitionFunction;
  batch_size : Z;
  known_constraints : KnownConstraints;
  _params : list (list pyval);
  pop_size : Z;
  repair : bool;
  verbose : bool;
  save_history : bool;
  num_gen : Z;
  eliminate_duplicates : bool;
  kind : string;
  pymoo_space : dict pymoo_var;
  xl : list pyval;
  xu : list pyval;
  pymoo_problem : PymooProblemWrapper.t;
  algorithm : MixedVariableGA
}.
End PymooGAOptimizer.

(** The keyword arguments of [PymooGAOptimizer.__init__]. *)
Record PymooConfig : Type := {
  cfg_pop_size : Z;
  cfg_repair : bool;
  cfg_verbose : bool;
  cfg_save_history : bool;
  cfg_num_gen : Z;
  cfg_eliminate_duplicates : bool
}.

Definition default_config : PymooConfig :=
  {| cfg_pop_size := 200; cfg_repair := false; cfg_verbose := false;
     cfg_save_history := false; cfg_num_gen := 5000;
     cfg_eliminate_duplicates := true |}.

(** What [pymoo.optimize.minimize] returns, as far as it is used. *)
Record MinimizeResult : Type := {
  pop : samples;
  exec_time : float
}.

(** ** [BoTorchPlanner]: attributes *)

Module BoTorchPlanner.
Record t : Type := mk {
  goal : string;
  feas_strategy : string;
  batch_size : Z;
  batched_strategy : string;
  num_init_design : Z;
  acquisition_type : string;
  acquisition_optimizer_kind : string;
  known_constraints : KnownConstraints;
  general_parameters : option (list Z);
  params_obj : Parameters;
  _params : list (list pyval);
  _values : list float;
  param_space : list Param.t;
  problem_type : string;
  has_descriptors : bool
}.
End BoTorchPlanner.

(** The acquisition classes of [atlas.acquisition_functions.acqfs] and of
    botorch that the planner instantiates. *)
Inductive acqf_class : Type :=
| FeasibilityAwareEI
| FeasibilityAwareQEI
| FeasibilityAwareUCB
| FeasibilityAwareLCB
| FeasibilityAwareVarainceBased
| FeasibilityAwareGeneral.

Inductive base_acqf : Type :=
| ExpectedImprovement
| qExpectedImprovement
| UpperConfidenceBound
| LowerConfidenceBound
| MeanSigma
| VarianceBased.

(** The surrogate classes [build_train_regression_gp] chooses from. *)
Inductive gp_model : Type :=
| SingleTaskGP
| CategoricalSingleTaskGP
| MixedSingleTaskGP (cat_dims : list Z).

Inductive acqf_min_max : Type :=
| MinMax (min_ max_ : float)
| MeanSigmaMinMax (mean sigma : float * float).

(** ** A small campaign on which the statements are exercised *)

Module Example.

Definition space : list Param.t :=
  [ Param.mk "x" "continuous" 0%float 1%float [];
    Param.mk "d" "discrete" 1%float 3%float [VFloat 1; VFloat 2; VFloat 3];
    Param.mk "c" "categorical" 0%float 0%float [VStr "a"; VStr "b"] ].

Definition odd_space : list Param.t :=
  [ Param.mk "x" "continuous" 0%float 1%float [];
    Param.mk "t" "ordinal" 0%float 0%float [] ].

(** The features of a point: its numeric values, 0 for a string. *)
Definition features (pv : ParameterVector) : list float :=
  map (fun v => match v with VFloat f => f | _ => 0%float end) (to_array pv).

Definition params_obj_of (sp : list Param.t) : Parameters :=
  {| param_space := sp; has_descriptors := false;
     param_vectors_to_expanded := fun pvs _ _ => map features pvs |}.

Definition params_obj : Parameters := params_obj_of space.

(** An acquisition value: the first feature of the first replica. *)
Definition acqf : AcquisitionFunction :=
  map (fun replicas =>
         match replicas with
         | (f :: _) :: _ => f
         | _ => 0%float
         end).

Definition no_constraints : KnownConstraints := {| constraints := [] |}.

(** One known constraint: the first value is at most 0.75. *)
Definition one_constraint : KnownConstraints :=
  {| constraints :=
       [fun arr => match arr with
                   | VFloat f :: _ => PrimFloat.leb f 0.75%float
                   | _ => false
                   end] |}.

Definition pymoo_space : dict pymoo_var :=
  [ ("x", Real (0%float, 1%float)); ("d", Integer (0, 2));
    ("c", Choice [VStr "a"; VStr "b"]) ]%string.

Definition bounds : list pyval * list pyval :=
  ([VFloat 0; VFloat 1; VInt 0], [VFloat 1; VFloat 3; VInt 1]).

Definition problem (batch_size : Z) (kc : KnownConstraints)
  : PymooProblemWrapper.t :=
  PymooProblemWrapper_init params_obj pymoo_space bounds acqf batch_size kc.

Definition optimizer (batch_size : Z) (measured : list (list pyval))
  : PymooGAOptimizer.t :=
  PymooGAOptimizer.mk params_obj "ucb" acqf batch_size no_constraints measured
    200 false false false 5000 true "pymoo" pymoo_space (fst bounds)
    (snd bounds) (problem batch_size no_constraints) {| ga_pop_size := 200 |}.

(** Two individuals of the pymoo space, and the point the first decodes to. *)
Definition ind1 : dict pyval :=
  [ ("x", VFloat 0.5); ("d", VInt 1); ("c", VStr "b") ]%string.
Definition ind2 : dict pyval :=
  [ ("x", VFloat 0.25); ("d", VInt 0); ("c", VStr "a") ]%string.
Definition point1 : ParameterVector :=
  from_dict [ ("x", VFloat 0.5); ("d", VFloat 2); ("c", VStr "b") ]%string.
Definition point2 : ParameterVector :=
  from_dict [ ("x", VFloat 0.25); ("d", VFloat 1); ("c", VStr "a") ]%string.

(** A valid raw parameter vector. *)
Definition vector : list pyval := [VFloat 0.5; VFloat 2; VStr "b"].

Definition planner (acquisition_type kind : string)
    (general_parameters : option (list Z)) (sp : list Param.t)
  : BoTorchPlanner.t :=
  BoTorchPlanner.mk "minimize" "naive-0" 1 "sequential" 2 acquisition_type kind
    no_constraints general_parameters (params_obj_of sp)
    [[VFloat 0.75; VFloat 3; VStr "a"]; [VFloat 0.25; VFloat 1; VStr "a"]]
    [1%float; 2%float] sp "mixed_cat_disc_cont" false.

(** Stand-ins for the builtins and the external code. *)
Definition float_of_str : string -> option float := fun _ => None.
Definition str_of_float : float -> string := fun _ => "0.0"%string.
Definition str_of_int : Z -> string := fun _ => "0"%string.
Definition float32 : float -> float := fun f => f.
Definition py_round : float -> Z -> float := fun f _ => f.
Definition minimize (problem : PymooProblemWrapper.t) (algorithm : MixedVariableGA)
    (n_evals : Z) (verbose save_history : bool) : MinimizeResult :=
  {| pop := DictSamples [ind1; ind2]; exec_time := 0%float |}.
Definition get_cat_dims : list Param.t -> list Z := fun _ => [2].
Definition gp_train_time : BoTorchPlanner.t -> gp_model -> float :=
  fun _ _ => 0%float.
Definition train_surrogates : BoTorchPlanner.t -> gp_model -> unit :=
  fun _ _ => tt.
Definition initial_design : BoTorchPlanner.t -> list ParameterVector :=
  fun _ => [].
Definition sampled_min_max
  : BoTorchPlanner.t -> unit -> base_acqf -> acqf_min_max :=
  fun _ _ _ => MinMax 0%float 1%float.
Definition feasibility_aware
  : acqf_class -> BoTorchPlanner.t -> unit -> acqf_min_max -> AcquisitionFunction :=
  fun _ _ _ _ => acqf.
Definition other_init
  : BoTorchPlanner.t -> AcquisitionFunction -> unit -> M unit :=
  fun _ _ _ => ret tt.
Definition other_optimize : unit -> M (list ParameterVector) :=
  fun _ => ret [].

(** A space in which two parameters share a name, a space with a parameter
    of an unknown type and an individual of it, an individual that uses a
    negative index, and a second valid raw vector. *)
Definition dup_space : list Param.t :=
  [ Param.mk "x" "continuous" 0%float 1%float [];
    Param.mk "x" "discrete" 1%float 2%float [VFloat 1; VFloat 2] ].

Definition odd_problem : PymooProblemWrapper.t :=
  PymooProblemWrapper_init (params_obj_of odd_space) [] ([], []) acqf 1
    no_constraints.

Definition odd_ind : dict pyval :=
  [ ("x", VFloat 0.5); ("t", VStr "third") ]%string.

Definition ind_last : dict pyval :=
  [ ("x", VFloat 0.75); ("d", VInt (-1)); ("c", VStr "a") ]%string.

Definition vector2 : list pyval := [VFloat 0.25; VFloat 3; VStr "a"].

(** A planner whose problem type no surrogate is implemented for. *)
Definition ordinal_planner (acquisition_type kind : string) : BoTorchPlanner.t :=
  BoTorchPlanner.mk "minimize" "naive-0" 1 "sequential" 2 acquisition_type kind
    no_constraints None (params_obj_of odd_space)
    [[VFloat 0.75; VStr "z"]; [VFloat 0.25; VStr "y"]]
    [1%float; 2%float] odd_space "fully_ordinal" false.

(** A planner with one observation where its initial design asks for five,
    misconfigured in every way. *)
Definition unchecked_planner : BoTorchPlanner.t :=
  BoTorchPlanner.mk "minimize" "naive-0" 1 "sequential" 5 "thompson" "simplex"
    no_constraints None (params_obj_of odd_space) [[VFloat 0.75; VStr "z"]]
    [1%float] odd_space "mixed_cat_disc_cont" false.

(** A planner with a batch of three points, and one without observations. *)
Definition batch_planner (acquisition_type : string) : BoTorchPlanner.t :=
  BoTorchPlanner.mk "minimize" "naive-0" 3 "sequential" 2 acquisition_type
    "gradient" no_constraints None params_obj
    [[VFloat 0.75; VFloat 3; VStr "a"]; [VFloat 0.25; VFloat 1; VStr "a"]]
    [1%float; 2%float] space "mixed_cat_disc_cont" false.

Definition fresh_planner : BoTorchPlanner.t :=
  BoTorchPlanner.mk "minimize" "naive-0" 1 "sequential" 0 "thompson" "simplex"
    no_constraints None params_obj [] [] space "mixed_cat_disc_cont" false.

End Example.

Section Atlas.

(** Builtins and external libraries that are taken as given. *)
Variable float_of_str : string -> option float.   (* float(str), None = ValueError *)
Variable str_of_float : float -> string.          (* str(float) *)
Variable str_of_int : Z -> string.                (* str(int) *)
Variable float32 : float -> float.                (* rounding of torch.FloatTensor *)

(** [float(x)] *)
Definition py_float (x : pyval) : result float :=
  match x with
  | VFloat f => Ok f
  | VInt z => float_of_int z
  | VStr s => match float_of_str s with Some f => Ok f | None => Raise ValueError end
  end.

(** [str(x)] *)
Definition py_str (x : pyval) : string :=
  match x with
  | VStr s => s
  | VFloat f => str_of_float f
  | VInt z => str_of_int z
  end.

(** [PymooProblemWrapper._X_to_list_dicts] *)
Definition _X_to_list_dicts (space : list Param.t) (X : list (list pyval))
  : list (dict pyval) :=
  map (fun X_ => dict_of_pairs (combine (map Param.name space) X_)) X.

(** The samples as a list of dictionaries, after the [isinstance(X[0], dict)]
    test; [X[0]] raises on an empty list. *)
Definition as_list_dicts (space : list Param.t) (X : samples)
  : result (list (dict pyval)) :=
  match X with
  | DictSamples [] | ArraySamples [] => Raise IndexError
  | DictSamples l => Ok l
  | ArraySamples l => Ok (_X_to_list_dicts space l)
  end.

(** Body of the inner loop of [_pymoo_to_olympus]: [elem] is a key of
    [sample], [param] the parameter at the same position. *)
Definition olympus_entry (sample olymp_sample : dict pyval)
    (elem : string) (param : Param.t) : result (dict pyval) :=
  if String.eqb (Param.type param) "discrete" then
    i <- dict_get sample elem ;;
    o <- py_getitem (Param.options param) i ;;
    f <- py_float o ;;
    Ok (dict_set olymp_sample (Param.name param) (VFloat f))
  else if String.eqb (Param.type param) "continuous" then
    v <- dict_get sample elem ;;
    f <- py_float v ;;
    Ok (dict_set olymp_sample (Param.name param) (VFloat f))
  else if String.eqb (Param.type param) "categorical" then
    v <- dict_get sample elem ;;
    Ok (dict_set olymp_sample (Param.name param) v)
  else Ok olymp_sample.

Fixpoint olympus_sample_loop (sample : dict pyval)
    (zipped : list (string * Param.t)) (olymp_sample : dict pyval)
  : result (dict pyval) :=
  match zipped with
  | [] => Ok olymp_sample
  | (elem, param) :: rest =>
      olymp_sample' <- olympus_entry sample olymp_sample elem param ;;
      olympus_sample_loop sample rest olymp_sample'
  end.

Definition olympus_sample (space : list Param.t) (sample : dict pyval)
  : result (dict pyval) :=
  olympus_sample_loop sample (combine (dict_keys sample) space) [].

(** [PymooProblemWrapper._pymoo_to_olympus] *)
Definition _pymoo_to_olympus (self : PymooProblemWrapper.t) (X : samples)
    (forward_transform return_param_vec return_expanded : bool)
  : result olympus_samples :=
  let space := param_space (PymooProblemWrapper.params_obj self) in
  samples <- as_list_dicts space X ;;
  olymp_samples <- mapM (olympus_sample space) samples ;;
  if return_param_vec then
    let param_vecs := map from_dict olymp_samples in
    if return_expanded then
      Ok (OlympExpanded
            (param_vectors_to_expanded (PymooProblemWrapper.params_obj self)
               param_vecs false forward_transform))
    else Ok (OlympParamVecs param_vecs)
  else Ok (OlympDicts olymp_samples).

(** [PymooProblemWrapper._known_constraints_wrapper] *)
Definition _known_constraints_wrapper (self : PymooProblemWrapper.t)
    (X : list (dict pyval)) : list Z :=
  map (fun X_ =>
         let X_arr := dict_values X_ in
         let kc_vals_bool :=
           map (fun kc => kc X_arr)
               (constraints (PymooProblemWrapper.known_constraints self)) in
         if forallb (fun b => b) kc_vals_bool then -2 else 2)
      X.

(** [torch.FloatTensor(a).view(n, 1, d)] followed by
    [torch.tile(_, dims=(1, batch_size, 1))]; a negative repeat count is
    rejected by torch. *)
Definition view_n_1_d (a : list (list float)) : list (list (list float)) :=
  map (fun row => [map float32 row]) a.

Definition tile_1_b_1 (x : list (list (list float))) (b : Z)
  : result (list (list (list float))) :=
  if b <? 0 then Raise RuntimeError
  else Ok (map (fun rows => concat (repeat rows (Z.to_nat b))) x).

Definition expanded_array (o : olympus_samples) : result (list (list float)) :=
  match o with
  | OlympExpanded a => Ok a
  | OlympDicts _ | OlympParamVecs _ => Raise TypeError
  end.

(** [PymooProblemWrapper._evaluate]: [out] is updated in place by the source
    and returned here. *)
Definition _evaluate (self : PymooProblemWrapper.t) (X : samples)
    (out : dict ndarray) : M (dict ndarray) :=
  let space := param_space (PymooProblemWrapper.params_obj self) in
  X <-- lift (as_list_dicts space X) ;;
  X_olymp <-- lift (o <- _pymoo_to_olympus self (DictSamples X) true true true ;;
                    expanded_array o) ;;
  X_torch <-- lift (tile_1_b_1 (view_n_1_d X_olymp)
                               (PymooProblemWrapper.batch_size self)) ;;
  emit (EvCall "acqf") ;;;
  let f := map PrimFloat.opp (PymooProblemWrapper.acqf self X_torch) in
  let out := dict_set out "F" (FloatArray f) in
  if negb (is_empty (PymooProblemWrapper.known_constraints self)) then
    emit (EvCall "_known_constraints_wrapper") ;;;
    let g := _known_constraints_wrapper self X in
    ret (dict_set out "G" (IntArray g))
  else ret out.

(** ** [gen_initial_population]

    [pop_list_dicts.append(pop_dict)] sits inside the loop over the
    parameters, so the list holds several references to the one dictionary
    that is still being filled.  Dictionaries therefore live in a store and
    the list holds references. *)

Definition store : Type := list (dict pyval).

Definition store_get (h : store) (r : nat) : dict pyval := nth r h [].

Fixpoint store_put (h : store) (r : nat) (d : dict pyval) : store :=
  match h, r with
  | [], _ => []
  | _ :: h', O => d :: h'
  | x :: h', S r' => x :: store_put h' r' d
  end.

(** Body of the inner loop: the value stored under [param.name]. *)
Definition pymoo_entry (elem : pyval) (param : Param.t) : result pyval :=
  if String.eqb (Param.type param) "discrete" then
    i <- py_index (Param.options param) elem ;; Ok (VInt i)
  else if String.eqb (Param.type param) "continuous" then
    f <- py_float elem ;; Ok (VFloat f)
  else Ok (VStr (py_str elem)).

Fixpoint population_sample_loop (zipped : list (pyval * Param.t))
    (pop_dict : nat) (h : store) (pop_list_dicts : list nat)
  : result (store * list nat) :=
  match zipped with
  | [] => Ok (h, pop_list_dicts)
  | (elem, param) :: rest =>
      v <- pymoo_entry elem param ;;
      let h := store_put h pop_dict
                 (dict_set (store_get h pop_dict) (Param.name param) v) in
      population_sample_loop rest pop_dict h (pop_list_dicts ++ [pop_dict])
  end.

Fixpoint population_loop (space : list Param.t) (samples_raw : list (list pyval))
    (h : store) (pop_list_dicts : list nat) : result (store * list nat) :=
  match samples_raw with
  | [] => Ok (h, pop_list_dicts)
  | sample :: rest =>
      let pop_dict := length h in
      st <- population_sample_loop (combine sample space) pop_dict
              (h ++ [[]]) pop_list_dicts ;;
      population_loop space rest (fst st) (snd st)
  end.

(** [gen_initial_population]; [samples_raw] is what [propose_randomly]
    (random, not under src/) drew.  [Population.new(X=pop_list_dicts)] reads
    the dictionaries behind the references. *)
Definition gen_initial_population (samples_raw : list (list pyval))
    (space : list Param.t) : result (list (dict pyval)) :=
  st <- population_loop space samples_raw [] [] ;;
  Ok (map (store_get (fst st)) (snd st)).

(** ** [PymooGAOptimizer]: methods *)

(** [PymooGAOptimizer._set_pymoo_param_space]; [np.array] keeps the order. *)
Fixpoint set_pymoo_param_space_loop (space : list Param.t)
    (pymoo_space : dict pymoo_var) (xl xu : list pyval)
  : result (dict pymoo_var * list pyval * list pyval) :=
  match space with
  | [] => Ok (pymoo_space, xl, xu)
  | param :: rest =>
      if String.eqb (Param.type param) "continuous" then
        set_pymoo_param_space_loop rest
          (dict_set pymoo_space (Param.name param)
             (Real (Param.low param, Param.high param)))
          (xl ++ [VFloat (Param.low param)])
          (xu ++ [VFloat (Param.high param)])
      else if String.eqb (Param.type param) "discrete" then
        set_pymoo_param_space_loop rest
          (dict_set pymoo_space (Param.name param)
             (Integer (0, Z.of_nat (length (Param.options param)) - 1)))
          (xl ++ [VFloat (Param.low param)])
          (xu ++ [VFloat (Param.high param)])
      else if String.eqb (Param.type param) "categorical" then
        set_pymoo_param_space_loop rest
          (dict_set pymoo_space (Param.name param)
             (Choice (Param.options param)))
          (xl ++ [VInt 0])
          (xu ++ [VInt (Z.of_nat (length (Param.options param)) - 1)])
      else Raise ValueError
  end.

Definition _set_pymoo_param_space (space : list Param.t)
  : result (dict pymoo_var * list pyval * list pyval) :=
  set_pymoo_param_space_loop space [] [] [].

(** Modelled from the spec: [AcquisitionOptimizer.__init__]
    (base_optimizer.py, not under src/) belongs to the optimizer facade, which
    only records the configuration of the backend. *)
Definition AcquisitionOptimizer_init : M unit := ret tt.

(** [PymooGAOptimizer.__init__] *)
Definition PymooGAOptimizer_init
    (params_obj : Parameters) (acquisition_type : string)
    (acqf : AcquisitionFunction) (known_constraints : KnownConstraints)
    (batch_size : Z) (params : list (list pyval)) (cfg : PymooConfig)
  : M PymooGAOptimizer.t :=
  AcquisitionOptimizer_init ;;;
  (if negb (batch_size <? cfg_pop_size cfg) then
     Logger_log
       "You must use a larger pop_size for pymoo optimizer than the batch_size"
       "FATAL"
   else ret tt) ;;;
  sp <-- lift (_set_pymoo_param_space (param_space params_obj)) ;;
  let '(pymoo_space, xl, xu) := sp in
  let pymoo_problem :=
    PymooProblemWrapper_init params_obj pymoo_space (xl, xu) acqf batch_size
      known_constraints in
  let algorithm := {| ga_pop_size := cfg_pop_size cfg |} in
  ret (PymooGAOptimizer.mk params_obj acquisition_type acqf batch_size
         known_constraints params (cfg_pop_size cfg) (cfg_repair cfg)
         (cfg_verbose cfg) (cfg_save_history cfg) (cfg_num_gen cfg)
         (cfg_eliminate_duplicates cfg) "pymoo" pymoo_space xl xu
         pymoo_problem algorithm).

(** [entry == sample_arr] for an entry of [self._params]: both lists of the
    selector are built with [return_param_vec=True], so [sample_arr] is the
    ParameterVector object itself and not its array; numpy compares every
    entry of the array, a number or a string, with that object, and none is
    equal to it. *)
Definition entry_eq_pvec (entry : pyval) (sample_arr : ParameterVector) : bool :=
  false.

(** [any((self._params[:] == sample_arr).all(1))]: the comparison has the
    shape of the m x d array of measured points; [.all(1)] holds for a row
    when all its entries compare equal, so only for a row without entries. *)
Definition measured (params : list (list pyval)) (sample_arr : ParameterVector)
  : bool :=
  existsb (fun row => forallb (fun entry => entry_eq_pvec entry sample_arr) row)
    params.

Definition param_vecs (o : olympus_samples) : result (list ParameterVector) :=
  match o with
  | OlympParamVecs l => Ok l
  | OlympDicts _ | OlympExpanded _ => Raise TypeError
  end.

(** The loop of [_batch_sample_selector]. *)
Fixpoint batch_sample_loop (params : list (list pyval)) (batch_size : Z)
    (zipped : list (ParameterVector * ParameterVector))
    (batch_samples : list ParameterVector) : list ParameterVector :=
  match zipped with
  | [] => batch_samples
  | (sample_arr, sample_pvec) :: rest =>
      let batch_samples :=
        if negb (measured params sample_arr)
        then batch_samples ++ [sample_pvec]
        else batch_samples in
      if Z.of_nat (length batch_samples) =? batch_size then batch_samples
      else batch_sample_loop params batch_size rest batch_samples
  end.

(** [PymooGAOptimizer._batch_sample_selector]; [final_pop] is given by the
    [X] of its individuals. *)
Definition _batch_sample_selector (self : PymooGAOptimizer.t)
    (final_pop : samples) : result (list ParameterVector) :=
  olymp_samples_arr <-
    (o <- _pymoo_to_olympus (PymooGAOptimizer.pymoo_problem self) final_pop
            false true false ;; param_vecs o) ;;
  olymp_samples_pvec <-
    (o <- _pymoo_to_olympus (PymooGAOptimizer.pymoo_problem self) final_pop
            false true false ;; param_vecs o) ;;
  Ok (batch_sample_loop (PymooGAOptimizer._params self)
        (PymooGAOptimizer.batch_size self)
        (combine olymp_samples_arr olymp_samples_pvec) []).

(** pymoo's [minimize] and Python's [round] are external. *)
Variable minimize :
  PymooProblemWrapper.t -> MixedVariableGA -> forall (n_evals : Z)
    (verbose save_history : bool), MinimizeResult.
Variable py_round : float -> Z -> float.

(** [PymooGAOptimizer._optimize] *)
Definition _optimize (self : PymooGAOptimizer.t) : M (list ParameterVector) :=
  Logger_log "Optimizing acquisition function with pymoo GA..." "INFO" ;;;
  emit EvMinimize ;;;
  let res := minimize (PymooGAOptimizer.pymoo_problem self)
               (PymooGAOptimizer.algorithm self) (PymooGAOptimizer.num_gen self)
               (PymooGAOptimizer.verbose self)
               (PymooGAOptimizer.save_history self) in
  Logger_log
    ("Completed in " ++ str_of_float (py_round (exec_time res) 3) ++ " sec")%string
    "INFO" ;;;
  return_params <-- lift (_batch_sample_selector self (pop res)) ;;
  ret return_params.

(** ** [BoTorchPlanner]: methods *)

Definition set_acquisition_type (self : BoTorchPlanner.t) (v : string)
  : BoTorchPlanner.t :=
  BoTorchPlanner.mk
    (BoTorchPlanner.goal self) (BoTorchPlanner.feas_strategy self)
    (BoTorchPlanner.batch_size self) (BoTorchPlanner.batched_strategy self)
    (BoTorchPlanner.num_init_design self) v
    (BoTorchPlanner.acquisition_optimizer_kind self)
    (BoTorchPlanner.known_constraints self)
    (BoTorchPlanner.general_parameters self)
    (BoTorchPlanner.params_obj self) (BoTorchPlanner._params self)
    (BoTorchPlanner._values self) (BoTorchPlanner.param_space self)
    (BoTorchPlanner.problem_type self) (BoTorchPlanner.has_descriptors self).

(** [BoTorchPlanner.__init__].  The call of the base initialiser
    ([BasePlanner.__init__], not under src/) stores the constructor arguments as
    attributes; [self] is the planner as it leaves that call. *)
Definition BoTorchPlanner_init (self : BoTorchPlanner.t) : M BoTorchPlanner.t :=
  match BoTorchPlanner.general_parameters self with
  | Some _ =>
      if negb (String.eqb (BoTorchPlanner.acquisition_type self) "general") then
        let msg :=
          ("Acquisition type " ++ BoTorchPlanner.acquisition_type self ++
           " requested, but general parameters specified. Overriding to " ++ dquote ++
           "general" ++ dquote ++ "...")%string in
        Logger_log msg "WARNING" ;;;
        ret (set_acquisition_type self "general")
      else ret self
  | None => ret self
  end.

(** [sub in s] for two strings. *)
Fixpoint py_contains (sub s : string) : bool :=
  String.prefix sub s
  || match s with
     | EmptyString => false
     | String _ s' => py_contains sub s'
     end.

(** [BoTorchPlanner.build_train_regression_gp], up to the fit of the model:
    the choice of the model class from [self.problem_type] and
    [self.has_descriptors]; [cat_dims] is [get_cat_dims(self.param_space)]. *)
Definition build_train_regression_gp (problem_type : string)
    (has_descriptors : bool) (cat_dims : list Z) : result gp_model :=
  if existsb (String.eqb problem_type)
       ["fully_continuous"; "fully_discrete"; "mixed_disc_cont"]%string
  then Ok SingleTaskGP
  else if String.eqb problem_type "fully_categorical" then
    if has_descriptors then Ok SingleTaskGP else Ok CategoricalSingleTaskGP
  else if py_contains "mixed_cat_" problem_type then
    if has_descriptors then Ok SingleTaskGP else Ok (MixedSingleTaskGP cat_dims)
  else Raise NotImplementedError.

(** [get_cat_dims] (atlas.utils) and the fit of the model (botorch) are not
    under src/; [gp_train_time] is the time the fit took, in seconds. *)
Variable get_cat_dims : list Param.t -> list Z.
Variable gp_train_time : BoTorchPlanner.t -> gp_model -> float.

(** [self.build_train_regression_gp(...)] as [_ask] calls it: the choice of
    the model class for the attributes of [self], the fit, and the INFO log of
    the time it took. *)
Definition train_regression_gp (self : BoTorchPlanner.t) : M gp_model :=
  model <-- lift (build_train_regression_gp (BoTorchPlanner.problem_type self)
                    (BoTorchPlanner.has_descriptors self)
                    (get_cat_dims (BoTorchPlanner.param_space self))) ;;
  Logger_log
    ("Regression surrogate GP trained in "
     ++ str_of_float (py_round (gp_train_time self model) 3) ++ " sec")%string
    "INFO" ;;;
  ret model.

(** The training data, the classification surrogate, the construction of
    the acquisition functions, the initial design and the two other
    optimizers are not under src/. *)
Variable Surrogates : Type.
Variable train_surrogates : BoTorchPlanner.t -> gp_model -> Surrogates.
Variable initial_design : BoTorchPlanner.t -> list ParameterVector.
Variable sampled_min_max :
  BoTorchPlanner.t -> Surrogates -> base_acqf -> acqf_min_max.
Variable feasibility_aware :
  acqf_class -> BoTorchPlanner.t -> Surrogates -> acqf_min_max ->
  AcquisitionFunction.
Variable GradientOptimizer GeneticOptimizer : Type.
Variable GradientOptimizer_init :
  BoTorchPlanner.t -> AcquisitionFunction -> Surrogates -> M GradientOptimizer.
Variable GeneticOptimizer_init :
  BoTorchPlanner.t -> AcquisitionFunction -> Surrogates -> M GeneticOptimizer.
Variable GradientOptimizer_optimize : GradientOptimizer -> M (list ParameterVector).
Variable GeneticOptimizer_optimize : GeneticOptimizer -> M (list ParameterVector).

Inductive acquisition_optimizer : Type :=
| Gradient (o : GradientOptimizer)
| Genetic (o : GeneticOptimizer)
| Pymoo (o : PymooGAOptimizer.t).

(** Modelled from the spec: [AcquisitionOptimizer.optimize]
    (base_optimizer.py, not under src/) is the single entry point of the
    facade and runs the search of the configured backend. *)
Definition optimize (o : acquisition_optimizer) : M (list ParameterVector) :=
  match o with
  | Gradient g => GradientOptimizer_optimize g
  | Genetic g => GeneticOptimizer_optimize g
  | Pymoo p => _optimize p
  end.

(** [BoTorchPlanner.get_aqcf_min_max]: the local [acqf] stays unbound when no
    branch assigns it; sampling and evaluation are external. *)
Definition get_aqcf_min_max (self : BoTorchPlanner.t) (sur : Surrogates)
  : result acqf_min_max :=
  let t := BoTorchPlanner.acquisition_type self in
  let evaluate (acqf : option base_acqf) :=
    match acqf with
    | Some a => Ok (sampled_min_max self sur a)
    | None => Raise (UnboundLocalError "acqf")
    end in
  let acqf := if String.eqb t "ei" then Some ExpectedImprovement else None in
  if String.eqb t "qei" then evaluate (Some qExpectedImprovement)
  else if String.eqb t "ucb" then evaluate (Some UpperConfidenceBound)
  else if String.eqb t "lcb" then evaluate (Some LowerConfidenceBound)
  else if String.eqb t "ucbv2" then evaluate (Some MeanSigma)
  else if String.eqb t "variance" then evaluate (Some VarianceBased)
  else if String.eqb t "general" then Ok (MinMax 0%float 1%float)
  else evaluate acqf.

(** The choice of [self.acqf] in [_ask]; the attribute stays unset in the
    last branch. *)
Definition select_acqf (self : BoTorchPlanner.t) (sur : Surrogates)
    (mm : acqf_min_max) : M (option AcquisitionFunction) :=
  let t := BoTorchPlanner.acquisition_type self in
  if String.eqb t "ei" then
    (if (1 <? BoTorchPlanner.batch_size self)
        && String.eqb (BoTorchPlanner.batched_strategy self) "sequential"
     then Logger_log
            ("Cannot use " ++ dquote ++ "sequential" ++ dquote ++
             " batched strategy with EI acquisition function")%string
            "FATAL"
     else ret tt) ;;;
    ret (Some (feasibility_aware FeasibilityAwareEI self sur mm))
  else if String.eqb t "qei" then
    (if negb (1 <? BoTorchPlanner.batch_size self)
     then Logger_log
            "QEI acquisition function can only be used if batch size > 1"
            "FATAL"
     else ret tt) ;;;
    ret (Some (feasibility_aware FeasibilityAwareQEI self sur mm))
  else if String.eqb t "ucb" then
    ret (Some (feasibility_aware FeasibilityAwareUCB self sur mm))
  else if String.eqb t "lcb" then
    ret (Some (feasibility_aware FeasibilityAwareLCB self sur mm))
  else if String.eqb t "variance" then
    ret (Some (feasibility_aware FeasibilityAwareVarainceBased self sur mm))
  else if String.eqb t "general" then
    ret (Some (feasibility_aware FeasibilityAwareGeneral self sur mm))
  else
    Logger_log ("Acquisition function type " ++ t ++ " not understood!")%string
      "FATAL" ;;;
    ret None.

Definition getattr_acqf (acqf : option AcquisitionFunction)
  : result AcquisitionFunction :=
  match acqf with
  | Some a => Ok a
  | None => Raise (AttributeError "acqf")
  end.

(** The choice of the optimizer in [_ask]: there is no final [else], the
    local [acquisition_optimizer] stays unbound for any other kind. *)
Definition select_optimizer (self : BoTorchPlanner.t) (sur : Surrogates)
    (acqf : option AcquisitionFunction) : M (option acquisition_optimizer) :=
  let k := BoTorchPlanner.acquisition_optimizer_kind self in
  if String.eqb k "gradient" then
    a <-- lift (getattr_acqf acqf) ;;
    o <-- GradientOptimizer_init self a sur ;;
    ret (Some (Gradient o))
  else if String.eqb k "genetic" then
    a <-- lift (getattr_acqf acqf) ;;
    o <-- GeneticOptimizer_init self a sur ;;
    ret (Some (Genetic o))
  else if String.eqb k "pymoo" then
    a <-- lift (getattr_acqf acqf) ;;
    o <-- PymooGAOptimizer_init (BoTorchPlanner.params_obj self)
            (BoTorchPlanner.acquisition_type self) a
            (BoTorchPlanner.known_constraints self)
            (BoTorchPlanner.batch_size self) (BoTorchPlanner._params self)
            default_config ;;
    ret (Some (Pymoo o))
  else ret None.

(** The test that keeps the planner in its initial design. *)
Definition in_initial_design (self : BoTorchPlanner.t) : bool :=
  (Z.of_nat (length (BoTorchPlanner._values self))
     <? BoTorchPlanner.num_init_design self)
  || forallb PrimFloat.is_nan (BoTorchPlanner._values self).

(** [BoTorchPlanner._ask] *)
Definition _ask (self : BoTorchPlanner.t) : M (list ParameterVector) :=
  if in_initial_design self then ret (initial_design self)
  else
    reg_model <-- train_regression_gp self ;;
    let sur := train_surrogates self reg_model in
    acqf_min_max <-- lift (get_aqcf_min_max self sur) ;;
    acqf <-- select_acqf self sur acqf_min_max ;;
    acquisition_optimizer <-- select_optimizer self sur acqf ;;
    match acquisition_optimizer with
    | None => lift (Raise (UnboundLocalError "acquisition_optimizer"))
    | Some o =>
        emit (EvOptimize (BoTorchPlanner.acquisition_optimizer_kind self)) ;;;
        optimize o
    end.
(** ** Further code: the test drivers *)

(** The acquisition type [run_mixed_cat_disc] (tests) passes to the planner
    for a batch size. *)
Definition run_mixed_cat_disc_acquisition_type (batch_size : Z) : string :=
  if 1 <? batch_size then "qei"%string else "ei"%string.

(** ** Vocabulary of the statements *)

(** The three parameter types the optimizer knows. *)
Definition recognized_type (param : Param.t) : bool :=
  String.eqb (Param.type param) "continuous"
  || String.eqb (Param.type param) "discrete"
  || String.eqb (Param.type param) "categorical".

(** The three things the loop of [_set_pymoo_param_space] writes for one
    parameter of a recognized type. *)
Definition param_variable (param : Param.t) : pymoo_var :=
  if String.eqb (Param.type param) "continuous" then
    Real (Param.low param, Param.high param)
  else if String.eqb (Param.type param) "discrete" then
    Integer (0, Z.of_nat (length (Param.options param)) - 1)
  else Choice (Param.options param).

Definition param_xl (param : Param.t) : pyval :=
  if String.eqb (Param.type param) "continuous" then VFloat (Param.low param)
  else if String.eqb (Param.type param) "discrete" then VFloat (Param.low param)
  else VInt 0.

Definition param_xu (param : Param.t) : pyval :=
  if String.eqb (Param.type param) "continuous" then VFloat (Param.high param)
  else if String.eqb (Param.type param) "discrete" then VFloat (Param.high param)
  else VInt (Z.of_nat (length (Param.options param)) - 1).

(** The message of the check in [PymooGAOptimizer.__init__]. *)
Definition pop_size_message : string :=
  "You must use a larger pop_size for pymoo optimizer than the batch_size".

(** The warning of [BoTorchPlanner.__init__]. *)
Definition override_message (acquisition_type : string) : string :=
  ("Acquisition type " ++ acquisition_type ++
   " requested, but general parameters specified. Overriding to " ++ dquote ++
   "general" ++ dquote ++ "...")%string.

(** The acquisition types and optimizer kinds for which [_ask] has a
    branch. *)
Definition recognized_acquisition (t : string) : bool :=
  existsb (String.eqb t)
    ["ei"; "qei"; "ucb"; "lcb"; "variance"; "general"]%string.

Definition recognized_optimizer (k : string) : bool :=
  existsb (String.eqb k) ["gradient"; "genetic"; "pymoo"]%string.

(** Events that stand for search work. *)
Definition search_event (ev : event) : bool :=
  match ev with
  | EvMinimize | EvOptimize _ => true
  | EvLog _ _ | EvCall _ => false
  end.

Definition no_search (t : list event) : Prop :=
  Forall (fun ev => search_event ev = false) t.

(** The value [_pymoo_to_olympus] stores for a parameter, given the value
    [v] found in the sample; [None] when the type is none of the three. *)
Definition olympus_value (param : Param.t) (v : pyval) : result (option pyval) :=
  if String.eqb (Param.type param) "discrete" then
    o <- py_getitem (Param.options param) v ;;
    f <- py_float o ;;
    Ok (Some (VFloat f))
  else if String.eqb (Param.type param) "continuous" then
    f <- py_float v ;; Ok (Some (VFloat f))
  else if String.eqb (Param.type param) "categorical" then Ok (Some v)
  else Ok None.

(** Distinctness of names, as a test. *)
Fixpoint distinct (l : list string) : bool :=
  match l with
  | [] => true
  | x :: l' => negb (existsb (String.eqb x) l') && distinct l'
  end.

(** Individuals of the pymoo space: a float under a Real variable, an index
    within the bounds under an Integer variable, anything under a Choice. *)
Definition in_variable (param : Param.t) (v : pyval) : bool :=
  if String.eqb (Param.type param) "continuous" then
    match v with VFloat _ => true | _ => false end
  else if String.eqb (Param.type param) "discrete" then
    match v with
    | VInt z => (0 <=? z) && (z <=? Z.of_nat (length (Param.options param)) - 1)
    | _ => false
    end
  else true.

(** A test on two lists of the same length, position by position. *)
Fixpoint forallb2 {A B} (f : A -> B -> bool) (l : list A) (l' : list B) : bool :=
  match l, l' with
  | [], [] => true
  | a :: l, b :: l' => f a b && forallb2 f l l'
  | _, _ => false
  end.

(** The keys are the parameter names, in order, and each value fits its
    variable. *)
Definition individual (space : list Param.t) (sample : dict pyval) : bool :=
  forallb2 String.eqb (dict_keys sample) (map Param.name space)
  && forallb2 in_variable space (dict_values sample).

Definition is_float (v : pyval) : bool :=
  match v with VFloat _ => true | _ => false end.

(** A well-formed space: unique names, recognized types, numeric options for
    the discrete parameters. *)
Definition wf_param (param : Param.t) : bool :=
  recognized_type param
  && (if String.eqb (Param.type param) "discrete"
      then forallb is_float (Param.options param) else true).

Definition wf_space (space : list Param.t) : bool :=
  distinct (map Param.name space) && forallb wf_param space.

(** Equality of a row of the measured array and the array of a point, in
    every dimension. *)
Fixpoint row_eqb (row sample : list pyval) : bool :=
  match row, sample with
  | [], [] => true
  | a :: row', b :: sample' => py_eq a b && row_eqb row' sample'
  | _, _ => false
  end.

(** The test of the selector, as a filter. *)
Definition unmeasured (params : list (list pyval)) (pv : ParameterVector) : bool :=
  negb (measured params pv).

(** Equality of two proposed points, dimension by dimension. *)
Definition pv_eqb (p q : ParameterVector) : bool :=
  row_eqb (to_array p) (to_array q).

(** No two entries at different positions are equal. *)
Definition pairwise_distinct (l : list ParameterVector) : Prop :=
  ForallOrdPairs (fun p q => pv_eqb p q = false) l.

(** [x in l] *)
Definition py_in (x : pyval) (l : list pyval) : bool :=
  existsb (fun item => py_eq item x) l.

(** The declared domain of a parameter: a float within [low, high], a float
    among the options, a string among the options. *)
Definition in_domain (param : Param.t) (x : pyval) : bool :=
  if String.eqb (Param.type param) "continuous" then
    match x with
    | VFloat f => PrimFloat.leb (Param.low param) f
                  && PrimFloat.leb f (Param.high param)
    | _ => false
    end
  else if String.eqb (Param.type param) "discrete" then
    is_float x && py_in x (Param.options param)
  else if String.eqb (Param.type param) "categorical" then
    match x with
    | VStr _ => py_in x (Param.options param)
    | _ => false
    end
  else false.

(** A raw parameter vector with one value of the domain per parameter. *)
Definition valid_vector (space : list Param.t) (v : list pyval) : bool :=
  forallb2 in_domain space v.


(** The acquisition types [get_aqcf_min_max] has a branch for. *)
Definition min_max_acquisition (t : string) : bool :=
  existsb (String.eqb t)
    ["ei"; "qei"; "ucb"; "lcb"; "ucbv2"; "variance"; "general"]%string.

(** The two tests [_ask] makes on the batch size: EI excludes a sequential
    batch of more than one point, QEI needs more than one point. *)
Definition batch_checks_pass (self : BoTorchPlanner.t) : bool :=
  let t := BoTorchPlanner.acquisition_type self in
  if String.eqb t "ei" then
    negb ((1 <? BoTorchPlanner.batch_size self)
          && String.eqb (BoTorchPlanner.batched_strategy self) "sequential")
  else if String.eqb t "qei" then 1 <? BoTorchPlanner.batch_size self
  else true.

(** The class of acquisition function [_ask] builds for a type. *)
Definition acqf_class_of (t : string) : acqf_class :=
  if String.eqb t "ei" then FeasibilityAwareEI
  else if String.eqb t "qei" then FeasibilityAwareQEI
  else if String.eqb t "ucb" then FeasibilityAwareUCB
  else if String.eqb t "lcb" then FeasibilityAwareLCB
  else if String.eqb t "variance" then FeasibilityAwareVarainceBased
  else FeasibilityAwareGeneral.

Definition sequential_message : string :=
  ("Cannot use " ++ dquote ++ "sequential" ++ dquote ++
   " batched strategy with EI acquisition function")%string.

Definition qei_message : string :=
  "QEI acquisition function can only be used if batch size > 1".

(** A float under a continuous parameter, an int under a discrete one. *)
Definition typed_value (param : Param.t) (v : pyval) : bool :=
  if String.eqb (Param.type param) "continuous" then is_float v
  else if String.eqb (Param.type param) "discrete" then
    match v with VInt _ => true | _ => false end
  else true.

(** The indices Python accepts for the options of a discrete parameter:
    from -n to n - 1 for n options. *)
Definition index_in_range (param : Param.t) (v : pyval) : bool :=
  if String.eqb (Param.type param) "discrete" then
    match v with
    | VInt z =>
        (- Z.of_nat (length (Param.options param)) <=? z)
        && (z <? Z.of_nat (length (Param.options param)))
    | _ => false
    end
  else true.

Definition typed_sample (space : list Param.t) (sample : dict pyval) : bool :=
  forallb2 String.eqb (dict_keys sample) (map Param.name space)
  && forallb2 typed_value space (dict_values sample).

Definition indices_in_range (space : list Param.t) (sample : dict pyval) : bool :=
  forallb2 index_in_range space (dict_values sample).

(** The model class [build_train_regression_gp] chooses for a planner. *)
Definition regression_gp_class (self : BoTorchPlanner.t) : result gp_model :=
  build_train_regression_gp (BoTorchPlanner.problem_type self)
    (BoTorchPlanner.has_descriptors self)
    (get_cat_dims (BoTorchPlanner.param_space self)).

(** The event [build_train_regression_gp] records once the model is fitted. *)
Definition regression_log (self : BoTorchPlanner.t) (model : gp_model) : event :=
  EvLog ("Regression surrogate GP trained in "
         ++ str_of_float (py_round (gp_train_time self model) 3) ++ " sec")%string
        "INFO".

(** The FATAL message of [_ask] for an acquisition type it has no branch
    for. *)
Definition not_understood_message (acquisition_type : string) : string :=
  ("Acquisition function type " ++ acquisition_type ++ " not understood!")%string.

(** [_ask] past the initial design, once the regression surrogate is
    there. *)
Definition ask_with_model (self : BoTorchPlanner.t) (reg_model : gp_model)
  : M (list ParameterVector) :=
  let sur := train_surrogates self reg_model in
  acqf_min_max <-- lift (get_aqcf_min_max self sur) ;;
  acqf <-- select_acqf self sur acqf_min_max ;;
  acquisition_optimizer <-- select_optimizer self sur acqf ;;
  match acquisition_optimizer with
  | None => lift (Raise (UnboundLocalError "acquisition_optimizer"))
  | Some o =>
      emit (EvOptimize (BoTorchPlanner.acquisition_optimizer_kind self)) ;;;
      optimize o
  end.


(** ** Basic facts about the monads, dictionaries and tiling *)

Lemma rbind_ok {A B} (c : result A) (k : A -> result B) (b : B) :
  rbind c k = Ok b -> exists a, c = Ok a /\ k a = Ok b.
Proof.
  destruct c as [a | e]; simpl; intros H; [eauto | discriminate].
Qed.

Lemma bind_ok {A B} (c : M A) (k : A -> M B) (t : list event) (b : B) :
  bind c k = (t, Ok b) ->
  exists t1 a t2, c = (t1, Ok a) /\ k a = (t2, Ok b) /\ t = t1 ++ t2.
Proof.
  destruct c as [t1 [a | e]]; simpl; [| discriminate].
  destruct (k a) as [t2 r] eqn:K. intros H. inversion H; subst.
  exists t1, a, t2. auto.
Qed.

Lemma bind_lift_ok {A B} (a : A) (k : A -> M B) : bind (lift (Ok a)) k = k a.
Proof. unfold bind, lift. destruct (k a). reflexivity. Qed.

Lemma bind_lift_raise {A B} (e : exn) (k : A -> M B) :
  bind (lift (Raise e)) k = ([], Raise e).
Proof. reflexivity. Qed.

Lemma bind_returned {A B} (t : list event) (a : A) (k : A -> M B) :
  bind (t, Ok a) k = (t ++ trace (k a), outcome (k a)).
Proof. unfold bind. destruct (k a). reflexivity. Qed.

Lemma bind_raised {A B} (t : list event) (e : exn) (k : A -> M B) :
  bind (t, Raise e) k = (t, Raise e).
Proof. reflexivity. Qed.

Lemma lift_ok {A} (r : result A) (t : list event) (a : A) :
  lift r = (t, Ok a) -> r = Ok a /\ t = [].
Proof. unfold lift. intros H. inversion H; subst. auto. Qed.

Lemma mapM_length {A B} (f : A -> result B) (l : list A) (l' : list B) :
  mapM f l = Ok l' -> length l' = length l.
Proof.
  revert l'. induction l as [| a l IH]; simpl; intros l' H.
  - inversion H. reflexivity.
  - destruct (f a) as [b |]; simpl in H; [| discriminate].
    destruct (mapM f l) as [bs |]; simpl in H; [| discriminate].
    inversion H. simpl. f_equal. auto.
Qed.

Lemma mapM_Forall2 {A B} (f : A -> result B) (l : list A) (l' : list B) :
  mapM f l = Ok l' -> Forall2 (fun a b => f a = Ok b) l l'.
Proof.
  revert l'. induction l as [| a l IH]; simpl; intros l' H.
  - inversion H. constructor.
  - destruct (f a) as [b |] eqn:F; simpl in H; [| discriminate].
    destruct (mapM f l) as [bs |]; simpl in H; [| discriminate].
    inversion H. constructor; auto.
Qed.

Lemma mapM_total {A B} (f : A -> result B) (l : list A) :
  Forall (fun a => exists b, f a = Ok b) l -> exists l', mapM f l = Ok l'.
Proof.
  induction 1 as [| a l [b Hb] _ [l' IH]]; simpl.
  - eauto.
  - rewrite Hb, IH. simpl. eauto.
Qed.

Lemma concat_repeat_singleton {A} (x : A) (n : nat) :
  concat (repeat [x] n) = repeat x n.
Proof. induction n as [| n IH]; simpl; [| rewrite IH]; reflexivity. Qed.

Lemma dict_get_set_same {V} (d : dict V) (k : string) (v : V) :
  dict_get (dict_set d k v) k = Ok v.
Proof.
  induction d as [| [k' v'] d IH]; simpl.
  - rewrite String.eqb_refl. reflexivity.
  - destruct (String.eqb k' k) eqn:E; simpl; rewrite E; auto.
Qed.

Lemma dict_get_set_other {V} (d : dict V) (k k0 : string) (v : V) :
  k <> k0 -> dict_get (dict_set d k v) k0 = dict_get d k0.
Proof.
  intros Hne. induction d as [| [k' v'] d IH]; simpl.
  - destruct (String.eqb k k0) eqn:E; [| reflexivity].
    apply String.eqb_eq in E. contradiction.
  - destruct (String.eqb k' k) eqn:E; simpl.
    + apply String.eqb_eq in E. subst k'.
      destruct (String.eqb k k0) eqn:E0; [| reflexivity].
      apply String.eqb_eq in E0. contradiction.
    + destruct (String.eqb k' k0); auto.
Qed.

(** Setting a key that is not yet present appends the entry. *)
Lemma dict_set_fresh {V} (d : dict V) (k : string) (v : V) :
  ~ In k (dict_keys d) -> dict_set d k v = d ++ [(k, v)].
Proof.
  induction d as [| [k' v'] d IH]; simpl; intros Hn; [reflexivity |].
  destruct (String.eqb k' k) eqn:E.
  - apply String.eqb_eq in E. exfalso. apply Hn. left. exact E.
  - f_equal. apply IH. intros Hin. apply Hn. right. exact Hin.
Qed.

Lemma in_firstn {A} (k : nat) (l : list A) (x : A) :
  In x (firstn k l) -> In x l.
Proof.
  revert l. induction k as [| k IH]; intros [| a l]; simpl; auto.
  - intros [].
  - intros [H | H]; auto.
Qed.

Lemma Forall2_In_r {A B} (R : A -> B -> Prop) (l : list A) (l' : list B) (b : B) :
  Forall2 R l l' -> In b l' -> exists a, In a l /\ R a b.
Proof.
  induction 1 as [| a b' l l' Hab _ IH]; simpl; [intros [] |].
  intros [-> | Hin]; [eauto |].
  destruct (IH Hin) as (a' & Ha' & HR). eauto.
Qed.

(** ** The known-constraint margin (C4) *)

Lemma forallb_id_map {A} (f : A -> bool) (l : list A) :
  forallb (fun b => b) (map f l) = true <-> Forall (fun a => f a = true) l.
Proof.
  induction l as [| a l IH]; simpl.
  - split; auto.
  - rewrite andb_true_iff, IH. split.
    + intros [Ha Hl]. constructor; assumption.
    + intros H. inversion H; subst. auto.
Qed.

(** C4: the margin of a point is at most the negative threshold -2 exactly
    when every known constraint returns True on the point's raw value array
    (the predicates are combined by a logical AND), and it is strictly
    positive otherwise; one margin is produced per point. *)
Theorem known_constraints_margin
    (self : PymooProblemWrapper.t) (X : list (dict pyval)) (i : nat)
    (X_ : dict pyval) :
  nth_error X i = Some X_ ->
  let feasible :=
    Forall (fun kc => kc (dict_values X_) = true)
           (constraints (PymooProblemWrapper.known_constraints self)) in
  length (_known_constraints_wrapper self X) = length X /\
  exists g, nth_error (_known_constraints_wrapper self X) i = Some g /\
    (g <= -2 <-> feasible) /\
    (~ feasible -> 0 < g) /\
    (g = -2 \/ g = 2).
Proof.
  intros Hi feasible. unfold _known_constraints_wrapper.
  split; [apply length_map |].
  rewrite nth_error_map, Hi. simpl.
  eexists; split; [reflexivity |].
  destruct (forallb _ _) eqn:E.
  - apply forallb_id_map in E. repeat split; auto; try lia.
    intros Hn. contradiction.
  - assert (Hn : ~ feasible).
    { intros F. apply forallb_id_map in F. congruence. }
    repeat split; auto; try lia. intros Hf. contradiction.
Qed.

(** ** The objective and the constraint output of [_evaluate] (C6, C9) *)

(** What a completed call of [_evaluate] has computed. *)
Lemma _evaluate_inv (self : PymooProblemWrapper.t) (X : samples)
    (out out' : dict ndarray) (tr : list event) :
  _evaluate self X out = (tr, Ok out') ->
  exists Xd os,
    as_list_dicts (param_space (PymooProblemWrapper.params_obj self)) X = Ok Xd /\
    mapM (olympus_sample (param_space (PymooProblemWrapper.params_obj self))) Xd
      = Ok os /\
    0 <= PymooProblemWrapper.batch_size self /\
    let expanded :=
      param_vectors_to_expanded (PymooProblemWrapper.params_obj self)
        (map from_dict os) false true in
    let X_torch :=
      map (fun row => repeat (map float32 row)
                        (Z.to_nat (PymooProblemWrapper.batch_size self)))
          expanded in
    let outF :=
      dict_set out "F"
        (FloatArray (map PrimFloat.opp (PymooProblemWrapper.acqf self X_torch))) in
    if is_empty (PymooProblemWrapper.known_constraints self) then
      out' = outF /\ tr = [EvCall "acqf"]
    else
      out' = dict_set outF "G" (IntArray (_known_constraints_wrapper self Xd)) /\
      tr = [EvCall "acqf"; EvCall "_known_constraints_wrapper"].
Proof.
  unfold _evaluate. intros H.
  apply bind_ok in H. destruct H as (t1 & Xd & t2 & H1 & H & ->).
  apply lift_ok in H1. destruct H1 as [H1 ->].
  apply bind_ok in H. destruct H as (t1 & E & t3 & H2 & H & ->).
  apply lift_ok in H2. destruct H2 as [H2 ->].
  apply rbind_ok in H2. destruct H2 as (o & H2 & Ho).
  unfold _pymoo_to_olympus in H2.
  apply rbind_ok in H2. destruct H2 as (Xd' & Hd & H2).
  apply rbind_ok in H2. destruct H2 as (os & Hos & H2).
  simpl in H2. inversion H2; subst o. simpl in Ho. inversion Ho; subst E.
  assert (Xd' = Xd) as ->.
  { destruct Xd as [| d Xd]; simpl in Hd; [discriminate |].
    inversion Hd. reflexivity. }
  apply bind_ok in H. destruct H as (t1 & Xt & t4 & H3 & H & ->).
  apply lift_ok in H3. destruct H3 as [H3 ->].
  unfold tile_1_b_1 in H3.
  destruct (PymooProblemWrapper.batch_size self <? 0) eqn:Eb; [discriminate |].
  apply Z.ltb_ge in Eb. inversion H3; subst Xt. clear H3.
  exists Xd, os. repeat split; auto.
  cbv zeta.
  assert (Ht : map (fun rows => concat (repeat rows
                 (Z.to_nat (PymooProblemWrapper.batch_size self))))
               (view_n_1_d
                  (param_vectors_to_expanded (PymooProblemWrapper.params_obj self)
                     (map from_dict os) false true))
             = map (fun row => repeat (map float32 row)
                     (Z.to_nat (PymooProblemWrapper.batch_size self)))
                 (param_vectors_to_expanded (PymooProblemWrapper.params_obj self)
                     (map from_dict os) false true)).
  { unfold view_n_1_d. rewrite map_map. apply map_ext. intros row.
    apply concat_repeat_singleton. }
  rewrite Ht in H. clear Ht.
  destruct (is_empty (PymooProblemWrapper.known_constraints self));
    simpl in H; inversion H; subst; auto.
Qed.

(** A call of [_evaluate] completes when the candidates decode and the batch
    size is not negative. *)
Lemma _evaluate_total (self : PymooProblemWrapper.t) (X : samples)
    (out : dict ndarray) Xd os :
  as_list_dicts (param_space (PymooProblemWrapper.params_obj self)) X = Ok Xd ->
  mapM (olympus_sample (param_space (PymooProblemWrapper.params_obj self))) Xd
    = Ok os ->
  0 <= PymooProblemWrapper.batch_size self ->
  exists out', outcome (_evaluate self X out) = Ok out'.
Proof.
  intros H1 H2 Hb. unfold _evaluate, _pymoo_to_olympus. rewrite H1. simpl.
  destruct Xd as [| d Xd].
  - destruct X as [[|] | [|]]; simpl in H1; try discriminate; inversion H1.
  - cbn [as_list_dicts rbind]. rewrite H2. simpl.
    unfold tile_1_b_1. apply Z.ltb_ge in Hb. rewrite Hb. simpl.
    destruct (is_empty _); simpl; eauto.
Qed.

(** C6: an evaluation completes whenever the candidates decode and the batch
    size is not negative, and a completed evaluation stores under "F" the
    negation of the acquisition value, the acquisition function being
    applied to the candidates with each expanded point repeated batch_size
    times along the batch dimension. *)
Theorem evaluate_negated_batched_acqf
    (self : PymooProblemWrapper.t) (X : samples) (out : dict ndarray) :
  (forall expanded,
     (o <- _pymoo_to_olympus self X true true true ;; expanded_array o)
       = Ok expanded ->
     0 <= PymooProblemWrapper.batch_size self ->
     exists tr out', _evaluate self X out = (tr, Ok out')) /\
  (forall tr out',
     _evaluate self X out = (tr, Ok out') ->
     exists (expanded : list (list float)) (X_torch : list (list (list float))),
       (o <- _pymoo_to_olympus self X true true true ;; expanded_array o)
         = Ok expanded /\
       length X_torch = length expanded /\
       (forall i row, nth_error expanded i = Some row ->
          nth_error X_torch i =
            Some (repeat (map float32 row)
                    (Z.to_nat (PymooProblemWrapper.batch_size self)))) /\
       dict_get out' "F" =
         Ok (FloatArray
               (map PrimFloat.opp (PymooProblemWrapper.acqf self X_torch))) /\
       In (EvCall "acqf") tr).
Proof.
  split.
  - intros expanded Hexp Hb.
    apply rbind_ok in Hexp. destruct Hexp as (o & Ho & _).
    unfold _pymoo_to_olympus in Ho.
    apply rbind_ok in Ho. destruct Ho as (Xd & H1 & Ho).
    apply rbind_ok in Ho. destruct Ho as (os & H2 & _).
    destruct (_evaluate_total self X out Xd os H1 H2 Hb) as [out' Hout].
    destruct (_evaluate self X out) as [tr r]. simpl in Hout. subst r. eauto.
  - intros tr out' H. apply _evaluate_inv in H.
    destruct H as (Xd & os & H1 & H2 & Hb & H). cbv zeta in H.
    eexists. eexists. split; [| split; [| split; [| split]]].
    + unfold _pymoo_to_olympus. rewrite H1. simpl. rewrite H2. simpl.
      reflexivity.
    + apply length_map.
    + intros i row Hi. rewrite nth_error_map, Hi. reflexivity.
    + destruct (is_empty _); destruct H as [-> _].
      * apply dict_get_set_same.
      * rewrite dict_get_set_other by discriminate. apply dict_get_set_same.
    + destruct (is_empty _); destruct H as [_ ->]; simpl; auto.
Qed.

(** C9: with no known constraint the problem is built with n_constr = 0 and
    a completed evaluation neither calls the constraint wrapper nor touches
    "G"; with at least one known constraint the problem declares exactly one
    constraint and every completed evaluation stores the margins under "G". *)
Theorem constraint_output_iff_constraints
    (params_obj : Parameters) (pymoo_space : dict pymoo_var)
    (bounds : list pyval * list pyval) (acqf : AcquisitionFunction)
    (batch_size : Z) (kc : KnownConstraints) :
  let self :=
    PymooProblemWrapper_init params_obj pymoo_space bounds acqf batch_size kc in
  (constraints kc = [] ->
     PymooProblemWrapper.n_constr self = 0 /\
     forall X out tr out', _evaluate self X out = (tr, Ok out') ->
       dict_get out' "G" = dict_get out "G" /\
       dict_keys out' = dict_keys (dict_set out "F" (FloatArray [])) /\
       ~ In (EvCall "_known_constraints_wrapper") tr) /\
  (constraints kc <> [] ->
     PymooProblemWrapper.n_constr self = 1 /\
     forall X out tr out', _evaluate self X out = (tr, Ok out') ->
       exists Xd,
         as_list_dicts (param_space params_obj) X = Ok Xd /\
         dict_get out' "G" = Ok (IntArray (_known_constraints_wrapper self Xd)) /\
         In (EvCall "_known_constraints_wrapper") tr).
Proof.
  intros self. split; intros Hkc.
  - assert (E : is_empty kc = true) by (unfold is_empty; rewrite Hkc; reflexivity).
    split; [unfold self, PymooProblemWrapper_init; simpl; rewrite E; reflexivity |].
    intros X out tr out' H. apply _evaluate_inv in H.
    destruct H as (Xd & os & _ & _ & _ & H). cbv zeta in H.
    change (PymooProblemWrapper.known_constraints self) with kc in H.
    rewrite E in H. destruct H as [-> ->]. split; [| split].
    + apply dict_get_set_other. discriminate.
    + clear. induction out as [| [k v] out IH]; simpl; [reflexivity |].
      destruct (String.eqb k "F"); simpl; [reflexivity | f_equal; exact IH].
    + simpl. intros [H | []]. discriminate.
  - assert (E : is_empty kc = false).
    { unfold is_empty. destruct (constraints kc); [contradiction | reflexivity]. }
    split; [unfold self, PymooProblemWrapper_init; simpl; rewrite E; reflexivity |].
    intros X out tr out' H. apply _evaluate_inv in H.
    destruct H as (Xd & os & H1 & _ & _ & H). cbv zeta in H.
    change (PymooProblemWrapper.known_constraints self) with kc in H.
    rewrite E in H. destruct H as [-> ->]. exists Xd. split; [exact H1 |].
    split; [apply dict_get_set_same | simpl; auto].
Qed.

(** ** The pymoo parameter space (C8) and construction (C3) *)

Lemma set_pymoo_param_space_loop_ok (space : list Param.t) :
  forallb recognized_type space = true ->
  forall pymoo_space xl xu,
    set_pymoo_param_space_loop space pymoo_space xl xu =
      Ok (fold_left
            (fun d param => dict_set d (Param.name param) (param_variable param))
            space pymoo_space,
          xl ++ map param_xl space, xu ++ map param_xu space).
Proof.
  induction space as [| param rest IH]; simpl; intros Hrec ps xl xu.
  - rewrite !app_nil_r. reflexivity.
  - apply andb_true_iff in Hrec. destruct Hrec as [Hp Hrest].
    unfold recognized_type in Hp. unfold param_variable, param_xl, param_xu.
    destruct (String.eqb (Param.type param) "continuous");
      [| destruct (String.eqb (Param.type param) "discrete");
         [| destruct (String.eqb (Param.type param) "categorical");
            [| discriminate]]];
      rewrite (IH Hrest), <- !app_assoc; reflexivity.
Qed.

Lemma set_pymoo_param_space_loop_unrecognized (space : list Param.t) :
  forallb recognized_type space = false ->
  forall pymoo_space xl xu,
    set_pymoo_param_space_loop space pymoo_space xl xu = Raise ValueError.
Proof.
  induction space as [| param rest IH]; simpl; intros Hrec ps xl xu;
    [discriminate |].
  unfold recognized_type in Hrec.
  destruct (String.eqb (Param.type param) "continuous");
    [| destruct (String.eqb (Param.type param) "discrete");
       [| destruct (String.eqb (Param.type param) "categorical");
          [| reflexivity]]];
    simpl in Hrec; apply IH; exact Hrec.
Qed.

(** Building a dictionary from entries with pairwise distinct fresh keys
    lists the entries in order. *)
Lemma dict_build_nodup {A V} (key : A -> string) (val : A -> V) (l : list A) :
  forall d : dict V,
    NoDup (map key l) ->
    (forall a, In a l -> ~ In (key a) (dict_keys d)) ->
    fold_left (fun d a => dict_set d (key a) (val a)) l d
      = d ++ map (fun a => (key a, val a)) l.
Proof.
  induction l as [| a l IH]; simpl; intros d Hnd Hfresh.
  - rewrite app_nil_r. reflexivity.
  - inversion Hnd as [| ? ? Hnotin Hnd']; subst.
    rewrite dict_set_fresh by (apply Hfresh; auto).
    rewrite IH; [rewrite <- app_assoc; reflexivity | exact Hnd' |].
    intros b Hb. unfold dict_keys. rewrite map_app, in_app_iff. simpl.
    intros [Hin | [Heq | []]].
    + apply (Hfresh b); auto.
    + apply Hnotin. rewrite Heq. apply in_map. exact Hb.
Qed.

Lemma dict_get_map_nodup {A V} (key : A -> string) (val : A -> V)
    (l : list A) (a : A) :
  NoDup (map key l) -> In a l ->
  dict_get (map (fun a => (key a, val a)) l) (key a) = Ok (val a).
Proof.
  induction l as [| b l IH]; simpl; intros Hnd Hin; [contradiction |].
  inversion Hnd as [| ? ? Hnotin Hnd']; subst.
  destruct Hin as [-> | Hin].
  - rewrite String.eqb_refl. reflexivity.
  - destruct (String.eqb (key b) (key a)) eqn:E.
    + apply String.eqb_eq in E. exfalso. apply Hnotin. rewrite E.
      apply in_map. exact Hin.
    + apply IH; assumption.
Qed.

(** C8: a continuous parameter becomes a Real variable with bounds
    (low, high), a discrete one an Integer variable with bounds
    (0, number of options - 1), a categorical one a Choice over its literal
    options; the two bound arrays have one entry per parameter, in
    parameter order. *)
Theorem set_pymoo_param_space_encoding (space : list Param.t) :
  NoDup (map Param.name space) ->
  forallb recognized_type space = true ->
  exists pymoo_space xl xu,
    _set_pymoo_param_space space = Ok (pymoo_space, xl, xu) /\
    dict_keys pymoo_space = map Param.name space /\
    length xl = length space /\ length xu = length space /\
    forall i param, nth_error space i = Some param ->
      let n := Z.of_nat (length (Param.options param)) in
      (Param.type param = "continuous"%string ->
         dict_get pymoo_space (Param.name param)
           = Ok (Real (Param.low param, Param.high param)) /\
         nth_error xl i = Some (VFloat (Param.low param)) /\
         nth_error xu i = Some (VFloat (Param.high param))) /\
      (Param.type param = "discrete"%string ->
         dict_get pymoo_space (Param.name param) = Ok (Integer (0, n - 1)) /\
         nth_error xl i = Some (VFloat (Param.low param)) /\
         nth_error xu i = Some (VFloat (Param.high param))) /\
      (Param.type param = "categorical"%string ->
         dict_get pymoo_space (Param.name param)
           = Ok (Choice (Param.options param)) /\
         nth_error xl i = Some (VInt 0) /\
         nth_error xu i = Some (VInt (n - 1))).
Proof.
  intros Hnd Hrec. unfold _set_pymoo_param_space.
  rewrite (set_pymoo_param_space_loop_ok space Hrec).
  rewrite (dict_build_nodup Param.name param_variable space [] Hnd)
    by (intros a _ []).
  do 3 eexists. split; [reflexivity |]. simpl.
  split; [unfold dict_keys; rewrite map_map; reflexivity |].
  split; [apply length_map |]. split; [apply length_map |].
  intros i param Hi. cbv zeta.
  assert (Hin : In param space) by (eapply nth_error_In; eauto).
  pose proof (dict_get_map_nodup Param.name param_variable space param Hnd Hin)
    as Hget.
  rewrite !nth_error_map, Hi. simpl.
  unfold param_variable in Hget. unfold param_xl, param_xu.
  split; [| split]; intros Ht; rewrite Ht in Hget |- *; simpl in Hget |- *;
    repeat split; auto.
Qed.

(** C3: with batch_size >= pop_size the constructor stops at the FATAL
    message, before the parameter space, the problem and the algorithm are
    set up; with batch_size < pop_size the check is silent, no FATAL error is
    raised, and construction completes for every space of recognized
    parameter types. *)
Theorem init_requires_batch_below_pop
    (params_obj : Parameters) (acquisition_type : string)
    (acqf : AcquisitionFunction) (kc : KnownConstraints) (batch_size : Z)
    (params : list (list pyval)) (cfg : PymooConfig) :
  let init :=
    PymooGAOptimizer_init params_obj acquisition_type acqf kc batch_size params
      cfg in
  (cfg_pop_size cfg <= batch_size ->
     init = ([EvLog pop_size_message "FATAL"],
             Raise (FatalError pop_size_message))) /\
  (batch_size < cfg_pop_size cfg ->
     trace init = [] /\
     (forall msg, outcome init <> Raise (FatalError msg)) /\
     (forallb recognized_type (param_space params_obj) = true ->
        exists o, outcome init = Ok o /\
          PymooGAOptimizer.batch_size o = batch_size /\
          PymooGAOptimizer.pop_size o = cfg_pop_size cfg /\
          PymooGAOptimizer._params o = params)).
Proof.
  intros init. unfold init, PymooGAOptimizer_init. split; intros Hb.
  - apply Z.ltb_ge in Hb. rewrite Hb. reflexivity.
  - apply Z.ltb_lt in Hb. rewrite Hb. simpl.
    destruct (forallb recognized_type (param_space params_obj)) eqn:Hrec.
    + unfold _set_pymoo_param_space.
      rewrite (set_pymoo_param_space_loop_ok _ Hrec). simpl.
      repeat split; try discriminate. intros _. eexists. split; [reflexivity |].
      simpl. auto.
    + unfold _set_pymoo_param_space.
      rewrite (set_pymoo_param_space_loop_unrecognized _ Hrec). simpl.
      repeat split; try discriminate.
Qed.

(** ** The planner's constructor (C10) *)

(** C10: when general parameters are given and another acquisition type than
    "general" is requested, the constructor logs a warning and returns the
    planner with the acquisition type set to "general" and every other
    attribute as it was; without general parameters, or when "general" was
    requested, the planner is returned unchanged and nothing is logged. *)
Theorem init_overrides_acquisition_type (self : BoTorchPlanner.t) :
  (BoTorchPlanner.general_parameters self <> None ->
   BoTorchPlanner.acquisition_type self <> "general"%string ->
   BoTorchPlanner_init self =
     ([EvLog (override_message (BoTorchPlanner.acquisition_type self)) "WARNING"],
      Ok (set_acquisition_type self "general")) /\
   BoTorchPlanner.acquisition_type (set_acquisition_type self "general")
     = "general"%string) /\
  (BoTorchPlanner.general_parameters self = None ->
   BoTorchPlanner_init self = ([], Ok self)) /\
  (BoTorchPlanner.acquisition_type self = "general"%string ->
   BoTorchPlanner_init self = ([], Ok self)).
Proof.
  unfold BoTorchPlanner_init. split; [| split].
  - intros Hgen Hacq.
    destruct (BoTorchPlanner.general_parameters self); [| contradiction].
    destruct (String.eqb (BoTorchPlanner.acquisition_type self) "general") eqn:E.
    + apply String.eqb_eq in E. contradiction.
    + split; reflexivity.
  - intros ->. reflexivity.
  - intros ->. destruct (BoTorchPlanner.general_parameters self); reflexivity.
Qed.
(** ** Fatal misconfigurations abort before the search (C5) *)

Ltac select_acqf_case :=
  simpl; split;
  [ unfold no_search; repeat constructor
  | first [ left; eexists; split; reflexivity
          | right; eexists; reflexivity ] ].

Lemma select_acqf_cases (self : BoTorchPlanner.t) (sur : Surrogates)
    (mm : acqf_min_max) :
  no_search (trace (select_acqf self sur mm)) /\
  ((exists a, outcome (select_acqf self sur mm) = Ok (Some a) /\
      recognized_acquisition (BoTorchPlanner.acquisition_type self) = true) \/
   (exists msg, outcome (select_acqf self sur mm) = Raise (FatalError msg))).
Proof.
  unfold select_acqf, recognized_acquisition. simpl existsb.
  destruct (String.eqb (BoTorchPlanner.acquisition_type self) "ei");
    [destruct (_ && _); select_acqf_case |].
  destruct (String.eqb (BoTorchPlanner.acquisition_type self) "qei");
    [destruct (negb _); select_acqf_case |].
  destruct (String.eqb (BoTorchPlanner.acquisition_type self) "ucb");
    [select_acqf_case |].
  destruct (String.eqb (BoTorchPlanner.acquisition_type self) "lcb");
    [select_acqf_case |].
  destruct (String.eqb (BoTorchPlanner.acquisition_type self) "variance");
    [select_acqf_case |].
  destruct (String.eqb (BoTorchPlanner.acquisition_type self) "general");
    select_acqf_case.
Qed.

(** An acquisition type that no branch of [get_aqcf_min_max] knows leaves
    the local [acqf] unbound. *)
Lemma get_aqcf_min_max_unrecognized (self : BoTorchPlanner.t) (sur : Surrogates) :
  recognized_acquisition (BoTorchPlanner.acquisition_type self) = false ->
  String.eqb (BoTorchPlanner.acquisition_type self) "ucbv2" = false ->
  get_aqcf_min_max self sur = Raise (UnboundLocalError "acqf").
Proof.
  unfold get_aqcf_min_max, recognized_acquisition. simpl existsb.
  intros Hrec Hv2. rewrite Hv2.
  destruct (String.eqb (BoTorchPlanner.acquisition_type self) "ei");
    [discriminate |].
  destruct (String.eqb (BoTorchPlanner.acquisition_type self) "qei");
    [discriminate |].
  destruct (String.eqb (BoTorchPlanner.acquisition_type self) "ucb");
    [discriminate |].
  destruct (String.eqb (BoTorchPlanner.acquisition_type self) "lcb");
    [discriminate |].
  destruct (String.eqb (BoTorchPlanner.acquisition_type self) "variance");
    [discriminate |].
  destruct (String.eqb (BoTorchPlanner.acquisition_type self) "general");
    [discriminate |].
  reflexivity.
Qed.

(** The choice of the acquisition function for a type without a branch. *)
Lemma select_acqf_unrecognized (self : BoTorchPlanner.t) (sur : Surrogates)
    (mm : acqf_min_max) :
  recognized_acquisition (BoTorchPlanner.acquisition_type self) = false ->
  let msg := not_understood_message (BoTorchPlanner.acquisition_type self) in
  select_acqf self sur mm = ([EvLog msg "FATAL"], Raise (FatalError msg)).
Proof.
  unfold select_acqf, recognized_acquisition. simpl existsb. intros Hrec.
  destruct (String.eqb (BoTorchPlanner.acquisition_type self) "ei");
    [discriminate |].
  destruct (String.eqb (BoTorchPlanner.acquisition_type self) "qei");
    [discriminate |].
  destruct (String.eqb (BoTorchPlanner.acquisition_type self) "ucb");
    [discriminate |].
  destruct (String.eqb (BoTorchPlanner.acquisition_type self) "lcb");
    [discriminate |].
  destruct (String.eqb (BoTorchPlanner.acquisition_type self) "variance");
    [discriminate |].
  destruct (String.eqb (BoTorchPlanner.acquisition_type self) "general");
    [discriminate |].
  reflexivity.
Qed.

Lemma get_aqcf_min_max_recognized (self : BoTorchPlanner.t) (sur : Surrogates) :
  recognized_acquisition (BoTorchPlanner.acquisition_type self) = true ->
  exists mm, get_aqcf_min_max self sur = Ok mm.
Proof.
  unfold get_aqcf_min_max, recognized_acquisition. simpl existsb. intros H.
  destruct (String.eqb (BoTorchPlanner.acquisition_type self) "qei"); [eauto |].
  destruct (String.eqb (BoTorchPlanner.acquisition_type self) "ucb"); [eauto |].
  destruct (String.eqb (BoTorchPlanner.acquisition_type self) "lcb"); [eauto |].
  destruct (String.eqb (BoTorchPlanner.acquisition_type self) "ucbv2"); [eauto |].
  destruct (String.eqb (BoTorchPlanner.acquisition_type self) "variance");
    [eauto |].
  destruct (String.eqb (BoTorchPlanner.acquisition_type self) "general");
    [eauto |].
  destruct (String.eqb (BoTorchPlanner.acquisition_type self) "ei");
    [eauto | discriminate].
Qed.

Lemma select_acqf_accepted (self : BoTorchPlanner.t) (sur : Surrogates)
    (mm : acqf_min_max) :
  recognized_acquisition (BoTorchPlanner.acquisition_type self) = true ->
  batch_checks_pass self = true ->
  select_acqf self sur mm =
    ([], Ok (Some (feasibility_aware
                     (acqf_class_of (BoTorchPlanner.acquisition_type self))
                     self sur mm))).
Proof.
  unfold select_acqf, recognized_acquisition, batch_checks_pass, acqf_class_of.
  simpl existsb. intros Hrec Hpass.
  destruct (String.eqb (BoTorchPlanner.acquisition_type self) "ei").
  { apply negb_true_iff in Hpass. rewrite Hpass. reflexivity. }
  destruct (String.eqb (BoTorchPlanner.acquisition_type self) "qei").
  { rewrite Hpass. reflexivity. }
  destruct (String.eqb (BoTorchPlanner.acquisition_type self) "ucb");
    [reflexivity |].
  destruct (String.eqb (BoTorchPlanner.acquisition_type self) "lcb");
    [reflexivity |].
  destruct (String.eqb (BoTorchPlanner.acquisition_type self) "variance");
    [reflexivity |].
  destruct (String.eqb (BoTorchPlanner.acquisition_type self) "general");
    [reflexivity | discriminate].
Qed.

Lemma PymooGAOptimizer_init_ok
    (params_obj : Parameters) (acquisition_type : string)
    (acqf : AcquisitionFunction) (kc : KnownConstraints) (batch_size : Z)
    (params : list (list pyval)) (cfg : PymooConfig) :
  batch_size < cfg_pop_size cfg ->
  forallb recognized_type (param_space params_obj) = true ->
  exists o,
    PymooGAOptimizer_init params_obj acquisition_type acqf kc batch_size params
      cfg = ([], Ok o) /\
    PymooGAOptimizer.num_gen o = cfg_num_gen cfg /\
    PymooGAOptimizer.verbose o = cfg_verbose cfg /\
    PymooGAOptimizer.save_history o = cfg_save_history cfg.
Proof.
  intros Hb Hrec. unfold PymooGAOptimizer_init, _set_pymoo_param_space.
  apply Z.ltb_lt in Hb. rewrite Hb.
  rewrite (set_pymoo_param_space_loop_ok _ Hrec). simpl.
  eexists. split; [reflexivity |]. simpl. auto.
Qed.

Lemma _optimize_unfold (self : PymooGAOptimizer.t) :
  let res :=
    minimize (PymooGAOptimizer.pymoo_problem self)
      (PymooGAOptimizer.algorithm self) (PymooGAOptimizer.num_gen self)
      (PymooGAOptimizer.verbose self) (PymooGAOptimizer.save_history self) in
  _optimize self =
    ([EvLog "Optimizing acquisition function with pymoo GA..." "INFO";
      EvMinimize;
      EvLog ("Completed in " ++ str_of_float (py_round (exec_time res) 3)
             ++ " sec")%string "INFO"],
     _batch_sample_selector self (pop res)).
Proof.
  intros res. unfold _optimize. fold res.
  destruct (_batch_sample_selector self (pop res)); reflexivity.
Qed.

Lemma PymooGAOptimizer_init_unrecognized
    (params_obj : Parameters) (acquisition_type : string)
    (acqf : AcquisitionFunction) (kc : KnownConstraints) (batch_size : Z)
    (params : list (list pyval)) (cfg : PymooConfig) :
  forallb recognized_type (param_space params_obj) = false ->
  let init :=
    PymooGAOptimizer_init params_obj acquisition_type acqf kc batch_size params
      cfg in
  no_search (trace init) /\
  (exists e, outcome init = Raise e) /\
  (batch_size < cfg_pop_size cfg -> init = ([], Raise ValueError)).
Proof.
  intros Hrec init. unfold init, PymooGAOptimizer_init, _set_pymoo_param_space.
  rewrite (set_pymoo_param_space_loop_unrecognized _ Hrec).
  destruct (batch_size <? cfg_pop_size cfg) eqn:Hb; simpl.
  - split; [constructor |]. split; [eexists; reflexivity | reflexivity].
  - split; [repeat constructor |]. split; [eexists; reflexivity |].
    apply Z.ltb_ge in Hb. lia.
Qed.

Lemma no_search_app (t1 t2 : list event) :
  no_search t1 -> no_search t2 -> no_search (t1 ++ t2).
Proof. unfold no_search. intros. apply Forall_app. auto. Qed.

(** The call of [build_train_regression_gp]: one INFO log once the model is
    chosen and fitted, nothing when the problem type is not implemented. *)
Lemma train_regression_gp_ok (self : BoTorchPlanner.t) (model : gp_model) :
  regression_gp_class self = Ok model ->
  train_regression_gp self = ([regression_log self model], Ok model).
Proof.
  unfold regression_gp_class, train_regression_gp. intros ->. reflexivity.
Qed.

Lemma train_regression_gp_raise (self : BoTorchPlanner.t) (e : exn) :
  regression_gp_class self = Raise e ->
  train_regression_gp self = ([], Raise e).
Proof.
  unfold regression_gp_class, train_regression_gp. intros ->. reflexivity.
Qed.

Lemma _ask_with_model (self : BoTorchPlanner.t) (model : gp_model) :
  in_initial_design self = false ->
  regression_gp_class self = Ok model ->
  _ask self =
    (regression_log self model :: trace (ask_with_model self model),
     outcome (ask_with_model self model)).
Proof.
  intros Hinit Hmodel. unfold _ask. rewrite Hinit.
  rewrite (train_regression_gp_ok _ _ Hmodel), bind_returned. reflexivity.
Qed.

Lemma _ask_not_implemented (self : BoTorchPlanner.t) (e : exn) :
  in_initial_design self = false ->
  regression_gp_class self = Raise e ->
  _ask self = ([], Raise e).
Proof.
  intros Hinit Hmodel. unfold _ask. rewrite Hinit.
  rewrite (train_regression_gp_raise _ _ Hmodel). reflexivity.
Qed.

(** With the surrogate there, a misconfigured call raises and records no
    search work. *)
Lemma misconfigured_ask_with_model (self : BoTorchPlanner.t) (model : gp_model) :
  recognized_acquisition (BoTorchPlanner.acquisition_type self) = false \/
  recognized_optimizer (BoTorchPlanner.acquisition_optimizer_kind self) = false \/
  (BoTorchPlanner.acquisition_optimizer_kind self = "pymoo"%string /\
   forallb recognized_type (param_space (BoTorchPlanner.params_obj self))
     = false) ->
  (exists e, outcome (ask_with_model self model) = Raise e) /\
  no_search (trace (ask_with_model self model)).
Proof.
  intros Hmis. unfold ask_with_model. cbv zeta.
  set (sur := train_surrogates self model).
  destruct (get_aqcf_min_max self sur) as [mm | e] eqn:G.
  2:{ rewrite bind_lift_raise. split; [eexists; reflexivity | constructor]. }
  rewrite bind_lift_ok.
  destruct (select_acqf_cases self sur mm) as [Hns Hsel].
  destruct (select_acqf self sur mm) as [t1 r1] eqn:S.
  simpl in Hns, Hsel.
  destruct Hsel as [(a & -> & Hrec) | (msg & ->)].
  2:{ rewrite bind_raised. split; [eexists; reflexivity | exact Hns]. }
  rewrite bind_returned.
  destruct Hmis as [Hacq | [Hkind | [Hkind Hspace]]]; [congruence | |].
  - (* no branch binds the optimizer *)
    assert (select_optimizer self sur (Some a) = ret None) as Hopt.
    { unfold select_optimizer, recognized_optimizer in *. simpl existsb in Hkind.
      destruct (String.eqb _ "gradient"); [discriminate |].
      destruct (String.eqb _ "genetic"); [discriminate |].
      destruct (String.eqb _ "pymoo"); [discriminate |]. reflexivity. }
    rewrite Hopt. simpl. split; [eexists; reflexivity |].
    rewrite app_nil_r. exact Hns.
  - (* the pymoo optimizer cannot be constructed *)
    destruct (PymooGAOptimizer_init_unrecognized
                (BoTorchPlanner.params_obj self)
                (BoTorchPlanner.acquisition_type self) a
                (BoTorchPlanner.known_constraints self)
                (BoTorchPlanner.batch_size self) (BoTorchPlanner._params self)
                default_config Hspace) as (Hns2 & (e & He) & _).
    unfold select_optimizer. rewrite Hkind. cbn [String.eqb Ascii.eqb Bool.eqb].
    cbn [getattr_acqf]. rewrite bind_lift_ok.
    destruct (PymooGAOptimizer_init _ _ _ _ _ _ _) as [t2 r2].
    simpl in Hns2, He. subst r2. rewrite !bind_raised. simpl.
    split; [eexists; reflexivity |].
    apply no_search_app; assumption.
Qed.

(** C5 (as the code has it): once the planner is past its initial design, an
    unrecognized acquisition type, an unrecognized optimizer kind, or (for
    the pymoo optimizer) an unrecognized parameter type makes [_ask] raise,
    and nothing recorded up to that point is search work.  Where the
    reports the code provides are reached, they are what is raised: with the
    regression surrogate built, the ValueError of [_set_pymoo_param_space]
    when the pymoo optimizer is constructed for a well-configured
    acquisition, and the FATAL log for an acquisition type that reaches the
    choice of the acquisition function. *)
Theorem misconfiguration_aborts_before_search (self : BoTorchPlanner.t) :
  in_initial_design self = false ->
  recognized_acquisition (BoTorchPlanner.acquisition_type self) = false \/
  recognized_optimizer (BoTorchPlanner.acquisition_optimizer_kind self) = false \/
  (BoTorchPlanner.acquisition_optimizer_kind self = "pymoo"%string /\
   forallb recognized_type (param_space (BoTorchPlanner.params_obj self))
     = false) ->
  (exists e, outcome (_ask self) = Raise e) /\
  no_search (trace (_ask self)) /\
  (forall model,
     regression_gp_class self = Ok model ->
     recognized_acquisition (BoTorchPlanner.acquisition_type self) = true ->
     batch_checks_pass self = true ->
     BoTorchPlanner.acquisition_optimizer_kind self = "pymoo"%string ->
     BoTorchPlanner.batch_size self < cfg_pop_size default_config ->
     forallb recognized_type (param_space (BoTorchPlanner.params_obj self))
       = false ->
     _ask self = ([regression_log self model], Raise ValueError)) /\
  (forall model mm,
     regression_gp_class self = Ok model ->
     get_aqcf_min_max self (train_surrogates self model) = Ok mm ->
     recognized_acquisition (BoTorchPlanner.acquisition_type self) = false ->
     let msg := not_understood_message (BoTorchPlanner.acquisition_type self) in
     _ask self = ([regression_log self model; EvLog msg "FATAL"],
                  Raise (FatalError msg))).
Proof.
  intros Hinit Hmis. split; [| split; [| split]].
  - destruct (regression_gp_class self) as [model | e] eqn:Hmodel.
    + rewrite (_ask_with_model _ _ Hinit Hmodel).
      exact (proj1 (misconfigured_ask_with_model self model Hmis)).
    + rewrite (_ask_not_implemented _ _ Hinit Hmodel). eexists. reflexivity.
  - destruct (regression_gp_class self) as [model | e] eqn:Hmodel.
    + rewrite (_ask_with_model _ _ Hinit Hmodel). constructor; [reflexivity |].
      exact (proj2 (misconfigured_ask_with_model self model Hmis)).
    + rewrite (_ask_not_implemented _ _ Hinit Hmodel). constructor.
  - intros model Hmodel Hrec Hbatch Hkind Hpop Hspace.
    rewrite (_ask_with_model _ _ Hinit Hmodel). unfold ask_with_model. cbv zeta.
    set (sur := train_surrogates self model).
    destruct (get_aqcf_min_max_recognized self sur Hrec) as [mm Hmm].
    rewrite Hmm, bind_lift_ok.
    rewrite (select_acqf_accepted self sur mm Hrec Hbatch), bind_returned.
    unfold select_optimizer. rewrite Hkind. cbn [String.eqb Ascii.eqb Bool.eqb].
    cbn [ret trace outcome getattr_acqf]. rewrite bind_lift_ok.
    destruct (PymooGAOptimizer_init_unrecognized
                (BoTorchPlanner.params_obj self)
                (BoTorchPlanner.acquisition_type self)
                (feasibility_aware
                   (acqf_class_of (BoTorchPlanner.acquisition_type self))
                   self sur mm)
                (BoTorchPlanner.known_constraints self)
                (BoTorchPlanner.batch_size self) (BoTorchPlanner._params self)
                default_config Hspace) as (_ & _ & Hinit').
    rewrite (Hinit' Hpop). reflexivity.
  - intros model mm Hmodel Hmm Hrec msg.
    rewrite (_ask_with_model _ _ Hinit Hmodel). unfold ask_with_model. cbv zeta.
    rewrite Hmm, bind_lift_ok.
    rewrite (select_acqf_unrecognized self _ mm Hrec). reflexivity.
Qed.

(** ** Decoding individuals of the pymoo space *)

Lemma olympus_entry_value (sample olymp_sample : dict pyval) (elem : string)
    (param : Param.t) (v : pyval) (w : pyval) :
  dict_get sample elem = Ok v ->
  olympus_value param v = Ok (Some w) ->
  olympus_entry sample olymp_sample elem param
    = Ok (dict_set olymp_sample (Param.name param) w).
Proof.
  unfold olympus_entry, olympus_value. intros Hget Hval. rewrite Hget.
  destruct (String.eqb (Param.type param) "discrete").
  { simpl in *. destruct (py_getitem _ v) as [o |]; simpl in *; [| discriminate].
    destruct (py_float o); simpl in *; congruence. }
  destruct (String.eqb (Param.type param) "continuous").
  { simpl in *. destruct (py_float v); simpl in *; congruence. }
  destruct (String.eqb (Param.type param) "categorical"); simpl in *; congruence.
Qed.

Lemma distinct_NoDup (l : list string) : distinct l = true -> NoDup l.
Proof.
  induction l as [| x l IH]; simpl; intros H; [constructor |].
  apply andb_true_iff in H. destruct H as [Hx Hl].
  constructor; [| auto].
  intros Hin. apply negb_true_iff in Hx.
  assert (existsb (String.eqb x) l = true); [| congruence].
  apply existsb_exists. exists x. split; [exact Hin | apply String.eqb_refl].
Qed.

Lemma dict_get_combine (names : list string) (vs : list pyval) :
  NoDup names -> length names = length vs ->
  Forall2 (fun k v => dict_get (combine names vs) k = Ok v) names vs.
Proof.
  revert vs. induction names as [| k names IH]; intros [| v vs] Hnd Hlen;
    simpl in *; try discriminate; [constructor |].
  inversion Hnd as [| ? ? Hnotin Hnd']; subst.
  constructor; [rewrite String.eqb_refl; reflexivity |].
  assert (IH' := IH vs Hnd' (eq_add_S _ _ Hlen)).
  clear IH. revert IH'. generalize (combine names vs) as d. intros d IH'.
  assert (Hall : Forall (fun k' => k' <> k) names).
  { apply Forall_forall. intros k' Hin ->. contradiction. }
  clear Hnotin Hnd Hnd' Hlen.
  induction IH' as [| k' v' names' vs' Hk' _ IHf]; [constructor |].
  inversion Hall; subst. constructor; [| auto].
  destruct (String.eqb k k') eqn:E; [| exact Hk'].
  apply String.eqb_eq in E. congruence.
Qed.

(** The loop of [_pymoo_to_olympus] over one sample: every parameter whose
    value decodes contributes one entry, in parameter order. *)
Lemma olympus_sample_loop_ok (sample : dict pyval) :
  forall (space : list Param.t) (vs ws : list pyval) (acc : dict pyval),
    NoDup (map Param.name space) ->
    (forall p, In p space -> ~ In (Param.name p) (dict_keys acc)) ->
    Forall2 (fun p v => dict_get sample (Param.name p) = Ok v) space vs ->
    Forall2 (fun pv w => olympus_value (fst pv) (snd pv) = Ok (Some w))
            (combine space vs) ws ->
    olympus_sample_loop sample (combine (map Param.name space) space) acc
      = Ok (acc ++ combine (map Param.name space) ws).
Proof.
  induction space as [| p space IH]; intros vs ws acc Hnd Hfresh Hget Hval.
  - simpl. rewrite app_nil_r. reflexivity.
  - inversion Hget as [| ? v ? vs' Hv Hget']; subst.
    simpl in Hval. inversion Hval as [| ? w ? ws' Hw Hval']; subst.
    simpl in Hw. inversion Hnd as [| ? ? Hnotin Hnd']; subst.
    simpl. rewrite (olympus_entry_value sample acc _ p v w Hv Hw). simpl.
    rewrite dict_set_fresh by (apply Hfresh; left; reflexivity).
    rewrite (IH vs' ws' _ Hnd'); [rewrite <- app_assoc; reflexivity | | | ]; auto.
    intros q Hq. unfold dict_keys. rewrite map_app, in_app_iff. simpl.
    intros [Hin | [Heq | []]].
    + apply (Hfresh q); [right; exact Hq | exact Hin].
    + apply Hnotin. rewrite Heq. apply in_map. exact Hq.
Qed.

(** Decoding a sample whose keys are the parameter names. *)
Lemma olympus_sample_ok (space : list Param.t) (vs ws : list pyval) :
  NoDup (map Param.name space) ->
  length vs = length space ->
  Forall2 (fun pv w => olympus_value (fst pv) (snd pv) = Ok (Some w))
          (combine space vs) ws ->
  olympus_sample space (combine (map Param.name space) vs)
    = Ok (combine (map Param.name space) ws).
Proof.
  intros Hnd Hlen Hval. unfold olympus_sample, dict_keys.
  assert (Hk : map fst (combine (map Param.name space) vs) = map Param.name space).
  { clear Hval Hnd. revert vs Hlen.
    induction space as [| p space IH]; intros [| v vs] Hlen; simpl in *;
      try discriminate; [reflexivity |]. f_equal. apply IH. lia. }
  rewrite Hk.
  apply (olympus_sample_loop_ok _ space vs ws []); auto.
  pose proof (dict_get_combine (map Param.name space) vs Hnd) as Hg.
  rewrite length_map in Hg. specialize (Hg (eq_sym Hlen)).
  clear - Hg. remember (combine (map Param.name space) vs) as d. clear Heqd.
  revert vs Hg. induction space as [| p space IH]; intros vs Hg;
    inversion Hg; subst; constructor; auto.
Qed.

Lemma forallb2_Forall2 {A B} (f : A -> B -> bool) (l : list A) (l' : list B) :
  forallb2 f l l' = true -> Forall2 (fun a b => f a b = true) l l'.
Proof.
  revert l'. induction l as [| a l IH]; intros [| b l'] H; simpl in H;
    try discriminate; [constructor |].
  apply andb_true_iff in H. destruct H. constructor; auto.
Qed.

Lemma py_getitem_in_range {A} (l : list A) (z : Z) :
  0 <= z < Z.of_nat (length l) ->
  exists a, py_getitem l (VInt z) = Ok a /\ nth_error l (Z.to_nat z) = Some a.
Proof.
  intros Hz. unfold py_getitem.
  replace (z <? 0) with false by (symmetry; apply Z.ltb_ge; lia).
  replace ((0 <=? z) && (z <? Z.of_nat (length l))) with true
    by (symmetry; apply andb_true_iff; split;
        [apply Z.leb_le | apply Z.ltb_lt]; lia).
  destruct (nth_error l (Z.to_nat z)) as [a |] eqn:E; [eauto |].
  apply nth_error_None in E. lia.
Qed.

Lemma olympus_value_individual (param : Param.t) (v : pyval) :
  wf_param param = true -> in_variable param v = true ->
  exists w, olympus_value param v = Ok (Some w).
Proof.
  unfold wf_param, in_variable, olympus_value, recognized_type.
  intros Hwf Hin. apply andb_true_iff in Hwf. destruct Hwf as [Hrec Hopt].
  destruct (String.eqb (Param.type param) "continuous") eqn:Ec.
  - apply String.eqb_eq in Ec. rewrite Ec. simpl.
    destruct v; try discriminate. simpl. eauto.
  - destruct (String.eqb (Param.type param) "discrete") eqn:Ed.
    + destruct v as [| z |]; try discriminate.
      apply andb_true_iff in Hin. destruct Hin as [H0 H1].
      apply Z.leb_le in H0, H1.
      destruct (py_getitem_in_range (Param.options param) z) as (o & -> & Hnth);
        [lia |].
      rewrite forallb_forall in Hopt.
      specialize (Hopt o (nth_error_In _ _ Hnth)).
      destruct o; try discriminate. simpl. eauto.
    + simpl in Hrec. rewrite Hrec. eauto.
Qed.

Lemma keys_values_combine {V} (d : dict V) :
  d = combine (dict_keys d) (dict_values d).
Proof.
  induction d as [| [k v] d IH]; simpl; [reflexivity | f_equal; exact IH].
Qed.

Lemma forallb2_eqb_eq (l l' : list string) :
  forallb2 String.eqb l l' = true -> l = l'.
Proof.
  revert l'. induction l as [| a l IH]; intros [| b l'] H; simpl in H;
    try discriminate; [reflexivity |].
  apply andb_true_iff in H. destruct H as [H1 H2].
  apply String.eqb_eq in H1. f_equal; auto.
Qed.

(** Every individual of the pymoo space of a well-formed space decodes, to a
    dictionary with the parameter names as keys. *)
Lemma olympus_sample_individual (space : list Param.t) (sample : dict pyval) :
  wf_space space = true -> individual space sample = true ->
  exists ws, length ws = length space /\
    olympus_sample space sample = Ok (combine (map Param.name space) ws).
Proof.
  unfold wf_space, individual. intros Hwf Hind.
  apply andb_true_iff in Hwf. destruct Hwf as [Hnd Hwf].
  apply andb_true_iff in Hind. destruct Hind as [Hkeys Hvals].
  apply distinct_NoDup in Hnd. apply forallb2_eqb_eq in Hkeys.
  apply forallb2_Forall2 in Hvals.
  assert (Hlen : length (dict_values sample) = length space).
  { symmetry. eapply Forall2_length; eauto. }
  assert (Hws : exists ws,
             Forall2 (fun pv w => olympus_value (fst pv) (snd pv) = Ok (Some w))
                     (combine space (dict_values sample)) ws).
  { rewrite forallb_forall in Hwf. clear - Hvals Hwf.
    induction Hvals as [| p v space vs Hpv _ IH]; simpl; [exists []; constructor |].
    destruct IH as [ws IH]; [intros q Hq; apply Hwf; right; exact Hq |].
    destruct (olympus_value_individual p v) as [w Hw];
      [apply Hwf; left; reflexivity | exact Hpv |].
    exists (w :: ws). constructor; assumption. }
  destruct Hws as [ws Hws]. exists ws. split.
  - apply Forall2_length in Hws. rewrite length_combine in Hws. lia.
  - rewrite (keys_values_combine sample) at 1. rewrite Hkeys.
    apply olympus_sample_ok; assumption.
Qed.

(** ** The batch selector *)

Lemma filter_combine_diag {A} (f : A -> bool) (l : list A) :
  map snd (filter (fun p => f (fst p)) (combine l l)) = filter f l.
Proof.
  induction l as [| a l IH]; simpl; [reflexivity |].
  destruct (f a); simpl; rewrite IH; reflexivity.
Qed.

(** Whatever the batch size, the loop extends the batch by a prefix of the
    unmeasured candidates, in population order. *)
Lemma batch_sample_loop_prefix (params : list (list pyval)) (batch_size : Z) :
  forall zipped batch_samples,
  exists k,
    batch_sample_loop params batch_size zipped batch_samples
      = batch_samples ++
        firstn k (map snd (filter (fun p => unmeasured params (fst p)) zipped)).
Proof.
  induction zipped as [| [sample_arr sample_pvec] rest IH]; intros acc; simpl.
  - exists 0%nat. rewrite app_nil_r. reflexivity.
  - unfold unmeasured at 1. simpl fst.
    destruct (negb (measured params sample_arr)); simpl.
    + destruct (Z.of_nat (length (acc ++ [sample_pvec])) =? batch_size).
      * exists 1%nat. reflexivity.
      * destruct (IH (acc ++ [sample_pvec])) as [k Hk]. exists (S k).
        rewrite Hk, <- app_assoc. reflexivity.
    + destruct (Z.of_nat (length acc) =? batch_size).
      * exists 0%nat. rewrite app_nil_r. reflexivity.
      * apply IH.
Qed.

(** For a positive batch size the loop stops exactly when the batch is full. *)
Lemma batch_sample_loop_firstn (params : list (list pyval)) (batch_size : Z) :
  forall zipped batch_samples,
    Z.of_nat (length batch_samples) < batch_size ->
    batch_sample_loop params batch_size zipped batch_samples
      = batch_samples ++
        firstn (Z.to_nat batch_size - length batch_samples)
          (map snd (filter (fun p => unmeasured params (fst p)) zipped)).
Proof.
  induction zipped as [| [sample_arr sample_pvec] rest IH]; intros acc Hlt; simpl.
  - rewrite firstn_nil, app_nil_r. reflexivity.
  - unfold unmeasured at 1. simpl fst.
    destruct (negb (measured params sample_arr)); simpl.
    + destruct (Z.of_nat (length (acc ++ [sample_pvec])) =? batch_size) eqn:E.
      * apply Z.eqb_eq in E. rewrite length_app in E. simpl in E.
        replace (Z.to_nat batch_size - length acc)%nat with 1%nat by lia.
        reflexivity.
      * apply Z.eqb_neq in E. rewrite length_app in E. simpl in E.
        rewrite IH by (rewrite length_app; simpl; lia).
        rewrite length_app. simpl.
        replace (Z.to_nat batch_size - length acc)%nat
          with (S (Z.to_nat batch_size - (length acc + 1)))%nat by lia.
        rewrite <- app_assoc. reflexivity.
    + replace (Z.of_nat (length acc) =? batch_size) with false
        by (symmetry; apply Z.eqb_neq; lia).
      apply IH. exact Hlt.
Qed.

Lemma _batch_sample_selector_inv (self : PymooGAOptimizer.t) (final_pop : samples)
    (batch : list ParameterVector) :
  _batch_sample_selector self final_pop = Ok batch ->
  exists candidates k,
    _pymoo_to_olympus (PymooGAOptimizer.pymoo_problem self) final_pop
      false true false = Ok (OlympParamVecs candidates) /\
    batch = firstn k (filter (unmeasured (PymooGAOptimizer._params self))
                             candidates).
Proof.
  unfold _batch_sample_selector. intros H.
  apply rbind_ok in H. destruct H as (arr & Harr & H).
  apply rbind_ok in Harr. destruct Harr as (o & Ho & Harr).
  rewrite Ho in H. simpl in H. rewrite Harr in H. simpl in H.
  destruct o as [| candidates |]; simpl in Harr; try discriminate.
  injection Harr as <-. injection H as <-.
  destruct (batch_sample_loop_prefix (PymooGAOptimizer._params self)
              (PymooGAOptimizer.batch_size self) (combine candidates candidates) [])
    as [k Hk].
  exists candidates, k. split; [exact Ho |].
  rewrite Hk. simpl. rewrite filter_combine_diag. reflexivity.
Qed.

Lemma pairwise_distinct_filter (f : ParameterVector -> bool) (l : list ParameterVector) :
  pairwise_distinct l -> pairwise_distinct (filter f l).
Proof.
  unfold pairwise_distinct. induction 1 as [| p l Hp Hl IH]; simpl.
  - constructor.
  - destruct (f p); [| exact IH]. constructor; [| exact IH].
    rewrite Forall_forall in *. intros q Hq. apply Hp.
    apply filter_In in Hq. destruct Hq as [Hq _]. exact Hq.
Qed.

Lemma pairwise_distinct_firstn (k : nat) (l : list ParameterVector) :
  pairwise_distinct l -> pairwise_distinct (firstn k l).
Proof.
  unfold pairwise_distinct. intros H. revert k.
  induction H as [| p l Hp Hl IH]; intros [| k]; simpl; try constructor.
  - rewrite Forall_forall in *. intros q Hq. apply Hp.
    eapply in_firstn; eauto.
  - apply IH.
Qed.

(** The selector never compares the candidates with each other: the batch
    keeps the order and the multiplicity of the decoded population, so it is
    free of duplicates whenever the decoded population is. *)
Lemma selection_keeps_distinctness
    (self : PymooGAOptimizer.t) (final_pop : samples)
    (batch candidates : list ParameterVector) :
  _batch_sample_selector self final_pop = Ok batch ->
  _pymoo_to_olympus (PymooGAOptimizer.pymoo_problem self) final_pop
    false true false = Ok (OlympParamVecs candidates) ->
  pairwise_distinct candidates -> pairwise_distinct batch.
Proof.
  intros H Hdec' Hdist. apply _batch_sample_selector_inv in H.
  destruct H as (candidates' & k & Hdec & ->). rewrite Hdec in Hdec'.
  inversion Hdec'; subst candidates'.
  apply pairwise_distinct_firstn, pairwise_distinct_filter. exact Hdist.
Qed.

(** No entry of the measured array equals the ParameterVector it is compared
    with: unless the array has a row without entries, no candidate counts as
    measured and the filter of the selector keeps every candidate. *)
Lemma measured_nonempty_rows (params : list (list pyval)) (pv : ParameterVector) :
  Forall (fun row => row <> []) params -> measured params pv = false.
Proof.
  unfold measured. induction 1 as [| row params Hrow _ IH]; simpl;
    [reflexivity |].
  rewrite IH. destruct row; [congruence | reflexivity].
Qed.

Lemma filter_unmeasured_all (params : list (list pyval))
    (l : list ParameterVector) :
  Forall (fun row => row <> []) params -> filter (unmeasured params) l = l.
Proof.
  intros H. induction l as [| pv l IH]; simpl; [reflexivity |].
  unfold unmeasured at 1. rewrite (measured_nonempty_rows _ _ H). simpl.
  rewrite IH. reflexivity.
Qed.

(** A non-empty population of individuals of a well-formed space decodes. *)
Lemma _pymoo_to_olympus_individuals (problem : PymooProblemWrapper.t)
    (d : dict pyval) (l : list (dict pyval)) :
  let space := param_space (PymooProblemWrapper.params_obj problem) in
  wf_space space = true ->
  forallb (individual space) (d :: l) = true ->
  exists candidates,
    _pymoo_to_olympus problem (DictSamples (d :: l)) false true false
      = Ok (OlympParamVecs candidates) /\
    length candidates = length (d :: l) /\
    Forall (fun pv => dict_keys (to_dict pv) = map Param.name space) candidates.
Proof.
  intros space Hwf Hind. unfold _pymoo_to_olympus. fold space.
  cbn [as_list_dicts rbind].
  assert (Hall : Forall (fun s => exists ws, length ws = length space /\
                    olympus_sample space s = Ok (combine (map Param.name space) ws))
                  (d :: l)).
  { apply Forall_forall. intros s Hs. rewrite forallb_forall in Hind.
    apply olympus_sample_individual; auto. }
  destruct (mapM_total (olympus_sample space) (d :: l)) as [os Hos].
  { eapply Forall_impl; [| exact Hall]. intros s (ws & _ & Hs). eauto. }
  rewrite Hos. cbn [rbind]. eexists. split; [reflexivity |].
  split; [rewrite length_map; eapply mapM_length; eauto |].
  apply mapM_Forall2 in Hos. apply Forall_forall. intros pv Hpv.
  apply in_map_iff in Hpv. destruct Hpv as (o & <- & Ho). simpl.
  destruct (Forall2_In_r _ _ _ o Hos Ho) as (s & Hs & Hso).
  rewrite Forall_forall in Hall. destruct (Hall s Hs) as (ws & Hlen & Hws).
  rewrite Hws in Hso. inversion Hso; subst o.
  unfold dict_keys. clear - Hlen. revert ws Hlen.
  induction space as [| p space IH]; intros [| w ws] Hlen; simpl in *;
    try discriminate; [reflexivity |]. f_equal. apply IH. lia.
Qed.

(** For a batch size of at least one and a non-empty population of
    individuals of the space, the selector raises nothing and returns the
    first batch_size candidates that pass its test, in population order. *)
Lemma selector_on_individuals
    (self : PymooGAOptimizer.t) (d : dict pyval) (l : list (dict pyval)) :
  let space :=
    param_space (PymooProblemWrapper.params_obj
                   (PymooGAOptimizer.pymoo_problem self)) in
  let params := PymooGAOptimizer._params self in
  let batch_size := PymooGAOptimizer.batch_size self in
  1 <= batch_size ->
  wf_space space = true ->
  forallb (individual space) (d :: l) = true ->
  exists candidates,
    _pymoo_to_olympus (PymooGAOptimizer.pymoo_problem self)
      (DictSamples (d :: l)) false true false = Ok (OlympParamVecs candidates) /\
    length candidates = length (d :: l) /\
    _batch_sample_selector self (DictSamples (d :: l)) =
      Ok (firstn (Z.to_nat batch_size) (filter (unmeasured params) candidates)).
Proof.
  intros space params batch_size Hbs Hwf Hind.
  destruct (_pymoo_to_olympus_individuals (PymooGAOptimizer.pymoo_problem self)
              d l Hwf Hind) as (candidates & Hdec & Hlen & _).
  exists candidates. split; [exact Hdec |]. split; [exact Hlen |].
  unfold _batch_sample_selector. rewrite Hdec. cbn [rbind param_vecs].
  rewrite batch_sample_loop_firstn by (simpl; lia).
  simpl. rewrite Nat.sub_0_r, filter_combine_diag. reflexivity.
Qed.

(** What [_optimize] returns is the selection from the final population of
    the search, after one call of [minimize]. *)
Lemma _optimize_returns_selection (self : PymooGAOptimizer.t) :
  outcome (_optimize self) =
    _batch_sample_selector self
      (pop (minimize (PymooGAOptimizer.pymoo_problem self)
              (PymooGAOptimizer.algorithm self) (PymooGAOptimizer.num_gen self)
              (PymooGAOptimizer.verbose self)
              (PymooGAOptimizer.save_history self))) /\
  In EvMinimize (trace (_optimize self)).
Proof.
  unfold _optimize.
  destruct (_batch_sample_selector self _) as [batch | e]; simpl; auto.
Qed.

(** ** Encoding and decoding a parameter vector (C7) *)

Lemma SFcompare_self (x y : spec_float) (c : comparison) :
  SFcompare x y = Some c \/ SFcompare y x = Some c -> SFcompare x x = Some Eq.
Proof.
  destruct x as [s | s | | s m e]; simpl.
  - reflexivity.
  - destruct s; reflexivity.
  - intros [H | H]; [discriminate |]. destruct y; discriminate.
  - intros _. destruct s; rewrite Z.compare_refl, Pos.compare_cont_refl;
      reflexivity.
Qed.

Lemma float_leb_self_l (x y : float) :
  PrimFloat.leb x y = true -> PrimFloat.eqb x x = true.
Proof.
  rewrite FloatAxioms.leb_spec, FloatAxioms.eqb_spec. unfold SFleb, SFeqb.
  destruct (SFcompare (Prim2SF x) (Prim2SF y)) as [c |] eqn:E; [| discriminate].
  intros _. rewrite (SFcompare_self _ _ c (or_introl E)). reflexivity.
Qed.

Lemma float_eqb_self_l (x y : float) :
  PrimFloat.eqb x y = true -> PrimFloat.eqb x x = true.
Proof.
  rewrite !FloatAxioms.eqb_spec. unfold SFeqb.
  destruct (SFcompare (Prim2SF x) (Prim2SF y)) as [c |] eqn:E; [| discriminate].
  intros _. rewrite (SFcompare_self _ _ c (or_introl E)). reflexivity.
Qed.

Lemma py_index_found (l : list pyval) (x : pyval) :
  py_in x l = true ->
  exists i o,
    py_index l x = Ok i /\ 0 <= i < Z.of_nat (length l) /\
    nth_error l (Z.to_nat i) = Some o /\ py_eq o x = true.
Proof.
  unfold py_in. induction l as [| item l IH]; simpl; [discriminate |].
  destruct (py_eq item x) eqn:E; simpl.
  - intros _. exists 0, item. repeat split; auto; lia.
  - intros H. destruct (IH H) as (i & o & Hi & Hr & Hn & Ho).
    exists (i + 1), o. rewrite Hi. simpl. repeat split; auto; try lia.
    replace (Z.to_nat (i + 1)) with (S (Z.to_nat i)) by lia. exact Hn.
Qed.

(** One parameter: the stored pymoo value decodes to a value of the domain
    that is [==] to the original one. *)
Lemma entry_roundtrip (param : Param.t) (x : pyval) :
  wf_param param = true -> in_domain param x = true ->
  exists w d,
    pymoo_entry x param = Ok w /\
    olympus_value param w = Ok (Some d) /\
    py_eq d x = true /\ in_domain param d = true.
Proof.
  unfold wf_param, in_domain, pymoo_entry, olympus_value, recognized_type.
  intros Hwf Hdom. apply andb_true_iff in Hwf. destruct Hwf as [Hrec Hopt].
  destruct (String.eqb (Param.type param) "continuous") eqn:Ec.
  - apply String.eqb_eq in Ec. rewrite Ec in *. simpl.
    destruct x as [f | |]; try discriminate. simpl.
    exists (VFloat f), (VFloat f).
    split; [reflexivity |]. split; [reflexivity |]. split; [| exact Hdom].
    apply andb_true_iff in Hdom. destruct Hdom as [_ Hhi].
    simpl. exact (float_leb_self_l _ _ Hhi).
  - destruct (String.eqb (Param.type param) "discrete") eqn:Ed.
    + apply andb_true_iff in Hdom. destruct Hdom as [Hfl Hin].
      destruct (py_index_found _ _ Hin) as (i & o & Hi & Hr & Hn & Ho).
      destruct (py_getitem_in_range (Param.options param) i Hr) as (o' & Hg & Hn').
      rewrite Hn in Hn'. inversion Hn'; subst o'.
      rewrite forallb_forall in Hopt.
      pose proof (Hopt o (nth_error_In _ _ Hn)) as Hof.
      destruct o as [g | |]; try discriminate.
      exists (VInt i), (VFloat g).
      split; [rewrite Hi; reflexivity |].
      split; [rewrite Hg; reflexivity |]. split; [exact Ho |].
      simpl. unfold py_in. apply existsb_exists.
      exists (VFloat g). split; [eapply nth_error_In; eauto |].
      destruct x as [f | |]; try discriminate. simpl in *.
      exact (float_eqb_self_l _ _ Ho).
    + simpl in Hrec. rewrite Hrec in *.
      destruct x as [| | s]; try discriminate. simpl.
      exists (VStr s), (VStr s).
      split; [reflexivity |]. split; [reflexivity |]. split; [| exact Hdom].
      simpl. apply String.eqb_refl.
Qed.

Lemma entries_roundtrip (space : list Param.t) (v : list pyval) :
  forallb wf_param space = true ->
  Forall2 (fun p x => in_domain p x = true) space v ->
  exists ws ds,
    Forall2 (fun ep w => pymoo_entry (fst ep) (snd ep) = Ok w) (combine v space) ws /\
    Forall2 (fun pw d => olympus_value (fst pw) (snd pw) = Ok (Some d))
            (combine space ws) ds /\
    Forall2 (fun d x => py_eq d x = true) ds v /\
    Forall2 (fun p d => in_domain p d = true) space ds /\
    length ws = length space.
Proof.
  intros Hwf Hdom. induction Hdom as [| p x space v Hpx _ IH]; simpl.
  - exists [], []. repeat split; constructor.
  - simpl in Hwf. apply andb_true_iff in Hwf. destruct Hwf as [Hp Hwf].
    destruct (IH Hwf) as (ws & ds & H1 & H2 & H3 & H4 & H5).
    destruct (entry_roundtrip p x Hp Hpx) as (w & d & Hw & Hd & He & Hi).
    exists (w :: ws), (d :: ds). simpl.
    repeat split; try constructor; auto.
Qed.

Lemma length_store_put (h : store) (r : nat) (d : dict pyval) :
  length (store_put h r d) = length h.
Proof.
  revert r. induction h as [| x h IH]; intros [| r]; simpl; auto.
Qed.

Lemma store_get_put (h : store) (r : nat) (d : dict pyval) :
  (r < length h)%nat -> store_get (store_put h r d) r = d.
Proof.
  unfold store_get. revert r. induction h as [| x h IH]; intros [| r] Hr;
    simpl in *; try lia; [reflexivity |]. apply IH. lia.
Qed.

Lemma store_put_put (h : store) (r : nat) (d d' : dict pyval) :
  store_put (store_put h r d) r d' = store_put h r d'.
Proof.
  revert r. induction h as [| x h IH]; intros [| r]; simpl; auto.
  f_equal. apply IH.
Qed.

Lemma store_put_get (h : store) (r : nat) : store_put h r (store_get h r) = h.
Proof.
  unfold store_get. revert r. induction h as [| x h IH]; intros [| r]; simpl;
    auto. f_equal. apply IH.
Qed.

(** The inner loop fills the one dictionary behind [pop_dict] and appends a
    reference to it at every step. *)
Lemma population_sample_loop_ok :
  forall (zipped : list (pyval * Param.t)) (ws : list pyval)
         (pop_dict : nat) (h : store) (pop_list_dicts : list nat),
    (pop_dict < length h)%nat ->
    Forall2 (fun ep w => pymoo_entry (fst ep) (snd ep) = Ok w) zipped ws ->
    population_sample_loop zipped pop_dict h pop_list_dicts
      = Ok (store_put h pop_dict
              (fold_left
                 (fun d epw => dict_set d (Param.name (snd (fst epw))) (snd epw))
                 (combine zipped ws) (store_get h pop_dict)),
            pop_list_dicts ++ repeat pop_dict (length zipped)).
Proof.
  intros zipped ws r h pl Hr Hws. revert h pl Hr.
  induction Hws as [| [elem param] w zipped ws Hw _ IH]; intros h pl Hr; simpl.
  - rewrite store_put_get, app_nil_r. reflexivity.
  - simpl in Hw. rewrite Hw. simpl.
    rewrite IH by (rewrite length_store_put; exact Hr).
    rewrite store_put_put, store_get_put by exact Hr.
    rewrite <- app_assoc. reflexivity.
Qed.

Lemma map_fst_combine {A B} (l : list A) (l' : list B) :
  length l = length l' -> map fst (combine l l') = l.
Proof.
  revert l'. induction l as [| a l IH]; intros [| b l'] H; simpl in *;
    try discriminate; [reflexivity |]. f_equal. apply IH. lia.
Qed.

Lemma map_snd_combine {A B} (l : list A) (l' : list B) :
  length l = length l' -> map snd (combine l l') = l'.
Proof.
  revert l'. induction l as [| a l IH]; intros [| b l'] H; simpl in *;
    try discriminate; [reflexivity |]. f_equal. apply IH. lia.
Qed.

(** The population generated for one raw sample: as many references to its
    encoding as the space has parameters. *)
Lemma gen_initial_population_one (space : list Param.t) (v ws : list pyval) :
  NoDup (map Param.name space) ->
  length v = length space ->
  Forall2 (fun ep w => pymoo_entry (fst ep) (snd ep) = Ok w) (combine v space) ws ->
  gen_initial_population [v] space
    = Ok (repeat (combine (map Param.name space) ws) (length space)).
Proof.
  intros Hnd Hlen Hws. unfold gen_initial_population. simpl.
  rewrite (population_sample_loop_ok _ ws 0%nat [[]] []) by (simpl; auto).
  simpl. f_equal.
  assert (Hlws : length ws = length space).
  { apply Forall2_length in Hws. rewrite length_combine in Hws. lia. }
  rewrite length_combine, Hlen, Nat.min_id.
  rewrite (dict_build_nodup (fun epw => Param.name (snd (fst epw))) snd).
  - simpl. rewrite map_repeat. f_equal. unfold store_get. simpl.
    clear Hnd Hws. revert v ws Hlen Hlws.
    induction space as [| p space IH]; intros [| x v] [| w ws] Hv Hw;
      simpl in *; try discriminate; [reflexivity |].
    f_equal. apply IH; lia.
  - replace (map (fun epw => Param.name (snd (fst epw)))
               (combine (combine v space) ws))
      with (map Param.name space); [exact Hnd |].
    clear Hnd Hws. revert v ws Hlen Hlws.
    induction space as [| p space IH]; intros [| x v] [| w ws] Hv Hw;
      simpl in *; try discriminate; [reflexivity |].
    f_equal. apply IH; lia.
  - intros a _ [].
Qed.

Lemma mapM_repeat {A B} (f : A -> result B) (a : A) (b : B) (n : nat) :
  f a = Ok b -> mapM f (repeat a n) = Ok (repeat b n).
Proof.
  intros H. induction n as [| n IH]; simpl; [reflexivity |].
  rewrite H, IH. reflexivity.
Qed.

(** C7: the population generated from a valid vector v of a well-formed,
    non-empty space decodes without error, and every decoded entry carries
    the parameter names as keys, is [==] to v in each dimension, and has each
    value in the declared domain of its parameter. *)
Theorem decode_encode_roundtrip (self : PymooProblemWrapper.t) (v : list pyval) :
  let space := param_space (PymooProblemWrapper.params_obj self) in
  space <> [] ->
  wf_space space = true ->
  valid_vector space v = true ->
  exists population decoded,
    gen_initial_population [v] space = Ok population /\
    _pymoo_to_olympus self (DictSamples population) false false false
      = Ok (OlympDicts decoded) /\
    decoded <> [] /\
    Forall (fun d =>
              dict_keys d = map Param.name space /\
              Forall2 (fun w x => py_eq w x = true) (dict_values d) v /\
              Forall2 (fun p w => in_domain p w = true) space (dict_values d))
           decoded.
Proof.
  intros space Hne Hwf Hvalid. unfold wf_space in Hwf.
  apply andb_true_iff in Hwf. destruct Hwf as [Hnd Hwf].
  apply distinct_NoDup in Hnd.
  apply forallb2_Forall2 in Hvalid.
  destruct (entries_roundtrip space v Hwf Hvalid)
    as (ws & ds & Henc & Hdec & Heq & Hdom & Hlws).
  assert (Hlv : length v = length space)
    by (symmetry; eapply Forall2_length; eauto).
  assert (Hlds : length ds = length space)
    by (symmetry; eapply Forall2_length; eauto).
  exists (repeat (combine (map Param.name space) ws) (length space)).
  exists (repeat (combine (map Param.name space) ds) (length space)).
  split; [apply gen_initial_population_one; assumption |].
  split; [| split].
  - unfold _pymoo_to_olympus. fold space.
    destruct space as [| p space']; [contradiction |].
    change (length (p :: space')) with (S (length space')).
    cbn [repeat as_list_dicts rbind].
    change (?d :: repeat ?d ?n) with (repeat d (S n)).
    rewrite (mapM_repeat _ _ (combine (map Param.name (p :: space')) ds));
      [reflexivity |].
    apply olympus_sample_ok; auto.
  - destruct space; [contradiction | discriminate].
  - apply Forall_forall. intros d Hd. apply repeat_spec in Hd. subst d.
    unfold dict_keys, dict_values.
    rewrite map_fst_combine, map_snd_combine by (rewrite length_map; lia).
    auto.
Qed.

(** ** Further properties of the pymoo optimizer *)

Lemma set_pymoo_param_space_loop_error (space : list Param.t) :
  forall pymoo_space xl xu e,
    set_pymoo_param_space_loop space pymoo_space xl xu = Raise e ->
    e = ValueError /\ exists param, In param space /\ recognized_type param = false.
Proof.
  induction space as [| param rest IH]; simpl; intros ps xl xu e H;
    [discriminate |].
  destruct (recognized_type param) eqn:Hrec.
  - assert (Hrest : exists ps' xl' xu',
              set_pymoo_param_space_loop rest ps' xl' xu' = Raise e).
    { unfold recognized_type in Hrec.
      destruct (String.eqb (Param.type param) "continuous"); [eauto |].
      destruct (String.eqb (Param.type param) "discrete"); [eauto |].
      destruct (String.eqb (Param.type param) "categorical"); [eauto |].
      discriminate. }
    destruct Hrest as (ps' & xl' & xu' & Hrest).
    destruct (IH _ _ _ _ Hrest) as (He & p & Hp & Hu).
    split; [exact He |]. exists p. split; [right; exact Hp | exact Hu].
  - assert (Hrec' := Hrec). unfold recognized_type in Hrec.
    destruct (String.eqb (Param.type param) "continuous"); [discriminate |].
    destruct (String.eqb (Param.type param) "discrete"); [discriminate |].
    destruct (String.eqb (Param.type param) "categorical"); [discriminate |].
    injection H as <-. split; [reflexivity |].
    exists param. split; [left; reflexivity | exact Hrec'].
Qed.

(** X1: [_set_pymoo_param_space] raises exactly when some parameter has a
    type that is none of continuous, discrete and categorical, and then the
    error is a ValueError. *)
Theorem set_pymoo_param_space_raises_iff_unrecognized (space : list Param.t) :
  (_set_pymoo_param_space space = Raise ValueError <->
   exists param, In param space /\ recognized_type param = false) /\
  (forall e, _set_pymoo_param_space space = Raise e -> e = ValueError).
Proof.
  unfold _set_pymoo_param_space. split; [split |].
  - intros H. apply set_pymoo_param_space_loop_error in H. apply H.
  - intros (param & Hin & Hu).
    apply set_pymoo_param_space_loop_unrecognized.
    destruct (forallb recognized_type space) eqn:E; [| reflexivity].
    rewrite forallb_forall in E. rewrite (E param Hin) in Hu. discriminate.
  - intros e H. apply set_pymoo_param_space_loop_error in H. apply H.
Qed.

Lemma dict_set_keys_NoDup {V} (d : dict V) (k : string) (v : V) :
  NoDup (dict_keys d) -> NoDup (dict_keys (dict_set d k v)).
Proof.
  unfold dict_keys. induction d as [| [k' v'] d IH]; simpl; intros Hnd.
  - constructor; [intros [] | constructor].
  - inversion Hnd as [| ? ? Hnotin Hnd']; subst.
    destruct (String.eqb k' k) eqn:E; simpl; [constructor; assumption |].
    constructor; [| auto].
    intros Hin. apply Hnotin. clear - Hin E.
    induction d as [| [k0 v0] d IH]; simpl in *.
    + destruct Hin as [Hin | []]. subst k. rewrite String.eqb_refl in E.
      discriminate.
    + destruct (String.eqb k0 k); simpl in Hin; destruct Hin as [Hin | Hin];
        auto.
Qed.

Lemma dict_set_length {V} (d : dict V) (k : string) (v : V) :
  (length (dict_set d k v) <= S (length d))%nat.
Proof.
  induction d as [| [k' v'] d IH]; simpl; [lia |].
  destruct (String.eqb k' k); simpl; lia.
Qed.

Lemma dict_build_invariants {A V} (key : A -> string) (val : A -> V) (l : list A) :
  forall d : dict V,
    NoDup (dict_keys d) ->
    let d' := fold_left (fun d a => dict_set d (key a) (val a)) l d in
    NoDup (dict_keys d') /\
    (length d' <= length d + length l)%nat /\
    (forall k, ~ In k (map key l) -> dict_get d' k = dict_get d k).
Proof.
  induction l as [| a l IH]; simpl; intros d Hnd.
  - repeat split; auto; lia.
  - destruct (IH (dict_set d (key a) (val a)) (dict_set_keys_NoDup _ _ _ Hnd))
      as (H1 & H2 & H3).
    split; [exact H1 |]. split.
    + pose proof (dict_set_length d (key a) (val a)). lia.
    + intros k Hk. rewrite H3 by (intros Hin; apply Hk; right; exact Hin).
      apply dict_get_set_other. intros Heq. apply Hk. left. exact Heq.
Qed.

(** X2: when parameters share a name, the variable of the last one is the
    one kept under that name, the dictionary still has pairwise distinct
    keys and at most one variable per parameter, while the two bound arrays
    keep one entry for every parameter. *)
Theorem set_pymoo_param_space_last_name_wins
    (before after : list Param.t) (param : Param.t)
    (pymoo_space : dict pymoo_var) (xl xu : list pyval) :
  _set_pymoo_param_space (before ++ param :: after) = Ok (pymoo_space, xl, xu) ->
  ~ In (Param.name param) (map Param.name after) ->
  dict_get pymoo_space (Param.name param) = Ok (param_variable param) /\
  NoDup (dict_keys pymoo_space) /\
  (length pymoo_space <= length (before ++ param :: after))%nat /\
  xl = map param_xl (before ++ param :: after) /\
  xu = map param_xu (before ++ param :: after).
Proof.
  intros H Hlast. unfold _set_pymoo_param_space in H.
  destruct (forallb recognized_type (before ++ param :: after)) eqn:Hrec.
  2:{ rewrite (set_pymoo_param_space_loop_unrecognized _ Hrec) in H.
      discriminate. }
  rewrite (set_pymoo_param_space_loop_ok _ Hrec) in H.
  injection H as <- <- <-. simpl.
  rewrite fold_left_app. simpl.
  set (d0 := fold_left
               (fun d a => dict_set d (Param.name a) (param_variable a))
               before []).
  destruct (dict_build_invariants Param.name param_variable before []) as (Hn0 & _);
    [constructor |]. fold d0 in Hn0.
  destruct (dict_build_invariants Param.name param_variable after
              (dict_set d0 (Param.name param) (param_variable param))
              (dict_set_keys_NoDup _ _ _ Hn0)) as (Hn & _ & Hget).
  destruct (dict_build_invariants Param.name param_variable
              (before ++ param :: after) []) as (_ & Hlen & _); [constructor |].
  rewrite fold_left_app in Hlen. simpl in Hlen. fold d0 in Hlen.
  split; [| split; [exact Hn | split; [exact Hlen | split; reflexivity]]].
  cbv zeta in Hget. rewrite (Hget _ Hlast). apply dict_get_set_same.
Qed.

(** X3: an optimizer that was constructed has a batch size below its
    population size and a space of recognized types; its problem wrapper
    shares the batch size, the parameters, the acquisition function and the
    known constraints, declares one variable and one pair of bounds per
    parameter, and the algorithm has the configured population size. *)
Theorem constructed_optimizer_invariants
    (params_obj : Parameters) (acquisition_type : string)
    (acqf : AcquisitionFunction) (kc : KnownConstraints) (batch_size : Z)
    (params : list (list pyval)) (cfg : PymooConfig)
    (t : list event) (o : PymooGAOptimizer.t) :
  PymooGAOptimizer_init params_obj acquisition_type acqf kc batch_size params cfg
    = (t, Ok o) ->
  let problem := PymooGAOptimizer.pymoo_problem o in
  let n := length (param_space params_obj) in
  t = [] /\
  PymooGAOptimizer.batch_size o < PymooGAOptimizer.pop_size o /\
  forallb recognized_type (param_space params_obj) = true /\
  PymooGAOptimizer.batch_size o = batch_size /\
  PymooGAOptimizer._params o = params /\
  PymooGAOptimizer.kind o = "pymoo"%string /\
  ga_pop_size (PymooGAOptimizer.algorithm o) = PymooGAOptimizer.pop_size o /\
  PymooProblemWrapper.batch_size problem = batch_size /\
  PymooProblemWrapper.params_obj problem = params_obj /\
  PymooProblemWrapper.acqf problem = acqf /\
  PymooProblemWrapper.known_constraints problem = kc /\
  PymooProblemWrapper.n_vars problem = n /\
  length (PymooProblemWrapper.xl problem) = n /\
  length (PymooProblemWrapper.xu problem) = n /\
  PymooProblemWrapper.n_constr problem = (if is_empty kc then 0 else 1).
Proof.
  unfold PymooGAOptimizer_init. intros H.
  destruct (batch_size <? cfg_pop_size cfg) eqn:Hb; simpl in H;
    [| discriminate].
  apply Z.ltb_lt in Hb. unfold _set_pymoo_param_space in H.
  destruct (forallb recognized_type (param_space params_obj)) eqn:Hrec.
  2:{ rewrite (set_pymoo_param_space_loop_unrecognized _ Hrec) in H.
      discriminate. }
  rewrite (set_pymoo_param_space_loop_ok _ Hrec) in H. simpl in H.
  injection H as <- <-. simpl.
  rewrite !length_map. destruct (is_empty kc); repeat split; auto.
Qed.

(** X4: with no candidate at all, decoding, evaluating and selecting raise
    IndexError; the evaluation records nothing, so the acquisition function
    is not called. *)
Theorem empty_candidates_raise_IndexError
    (problem : PymooProblemWrapper.t) (self : PymooGAOptimizer.t) (X : samples)
    (out : dict ndarray) (forward_transform return_param_vec return_expanded : bool) :
  samples_is_empty X = true ->
  _pymoo_to_olympus problem X forward_transform return_param_vec return_expanded
    = Raise IndexError /\
  _evaluate problem X out = ([], Raise IndexError) /\
  _batch_sample_selector self X = Raise IndexError.
Proof.
  intros HX.
  destruct X as [[| d l] | [| row l]]; simpl in HX; try discriminate;
    repeat split; reflexivity.
Qed.


(** ** Further properties of the batch selector *)

(** Once the batch is longer than the batch size, the test for a full batch
    is never met again. *)
Lemma batch_sample_loop_overfull (params : list (list pyval)) (batch_size : Z) :
  forall zipped batch_samples,
    batch_size < Z.of_nat (length batch_samples) ->
    batch_sample_loop params batch_size zipped batch_samples
      = batch_samples ++
        map snd (filter (fun p => unmeasured params (fst p)) zipped).
Proof.
  induction zipped as [| [sample_arr sample_pvec] rest IH]; intros acc Hlt; simpl.
  - rewrite app_nil_r. reflexivity.
  - unfold unmeasured at 1. simpl fst.
    destruct (negb (measured params sample_arr)); simpl.
    + replace (Z.of_nat (length (acc ++ [sample_pvec])) =? batch_size) with false
        by (symmetry; apply Z.eqb_neq; rewrite length_app; simpl; lia).
      rewrite IH by (rewrite length_app; simpl; lia).
      rewrite <- app_assoc. reflexivity.
    + replace (Z.of_nat (length acc) =? batch_size) with false
        by (symmetry; apply Z.eqb_neq; lia).
      apply IH. exact Hlt.
Qed.

(** With a batch size below 1 the test for a full batch is met at most
    before anything was appended. *)
Lemma nonpositive_batch_size_loop
    (self : PymooGAOptimizer.t) (final_pop : samples)
    (candidates : list ParameterVector) :
  let params := PymooGAOptimizer._params self in
  _pymoo_to_olympus (PymooGAOptimizer.pymoo_problem self) final_pop
    false true false = Ok (OlympParamVecs candidates) ->
  PymooGAOptimizer.batch_size self <= 0 ->
  _batch_sample_selector self final_pop =
    Ok (match candidates with
        | first :: _ =>
            if (PymooGAOptimizer.batch_size self =? 0) && measured params first
            then []
            else filter (unmeasured params) candidates
        | [] => []
        end).
Proof.
  intros params Hdec Hbs. unfold _batch_sample_selector.
  rewrite Hdec. cbn [rbind param_vecs]. f_equal. fold params.
  destruct candidates as [| first rest]; [reflexivity |].
  cbn [combine batch_sample_loop]. unfold unmeasured at 1.
  destruct (measured params first) eqn:Hm; cbn [negb].
  - rewrite andb_true_r. simpl length.
    destruct (PymooGAOptimizer.batch_size self =? 0) eqn:E0.
    + apply Z.eqb_eq in E0. rewrite E0. reflexivity.
    + apply Z.eqb_neq in E0.
      replace (Z.of_nat 0 =? PymooGAOptimizer.batch_size self) with false
        by (symmetry; apply Z.eqb_neq; simpl; lia).
      rewrite batch_sample_loop_overfull by (simpl; lia).
      simpl. rewrite filter_combine_diag. rewrite Hm. reflexivity.
  - rewrite andb_false_r.
    replace (Z.of_nat (length ([] ++ [first])) =? PymooGAOptimizer.batch_size self)
      with false by (symmetry; apply Z.eqb_neq; simpl; lia).
    rewrite batch_sample_loop_overfull by (simpl; lia).
    simpl. rewrite filter_combine_diag. rewrite Hm. reflexivity.
Qed.

(** X6: a batch size below 1 does not bound the batch: when the measured
    array has no row without entries, the selector returns every candidate
    of the population, whether it was measured or not. *)
Theorem nonpositive_batch_size_selection
    (self : PymooGAOptimizer.t) (final_pop : samples)
    (candidates : list ParameterVector) :
  _pymoo_to_olympus (PymooGAOptimizer.pymoo_problem self) final_pop
    false true false = Ok (OlympParamVecs candidates) ->
  PymooGAOptimizer.batch_size self <= 0 ->
  Forall (fun row => row <> []) (PymooGAOptimizer._params self) ->
  _batch_sample_selector self final_pop = Ok candidates.
Proof.
  intros Hdec Hbs Hrows.
  rewrite (nonpositive_batch_size_loop self final_pop candidates Hdec Hbs).
  cbv zeta. destruct candidates as [| first rest]; [reflexivity |].
  rewrite (measured_nonempty_rows _ first Hrows), andb_false_r.
  rewrite (filter_unmeasured_all _ _ Hrows). reflexivity.
Qed.

(** X7: for batch sizes of at least one, a smaller batch size selects a
    prefix of what a larger one selects from the same population, over the
    same parameter space and with the same measured set. *)
Theorem smaller_batch_is_prefix
    (small large : PymooGAOptimizer.t) (final_pop : samples)
    (candidates : list ParameterVector) :
  param_space (PymooProblemWrapper.params_obj (PymooGAOptimizer.pymoo_problem small))
    = param_space
        (PymooProblemWrapper.params_obj (PymooGAOptimizer.pymoo_problem large)) ->
  PymooGAOptimizer._params small = PymooGAOptimizer._params large ->
  1 <= PymooGAOptimizer.batch_size small <= PymooGAOptimizer.batch_size large ->
  _pymoo_to_olympus (PymooGAOptimizer.pymoo_problem large) final_pop
    false true false = Ok (OlympParamVecs candidates) ->
  exists batch,
    _batch_sample_selector large final_pop = Ok batch /\
    _batch_sample_selector small final_pop =
      Ok (firstn (Z.to_nat (PymooGAOptimizer.batch_size small)) batch).
Proof.
  intros Hspace Hparams [H1 H2] Hdec.
  assert (Hdec' : _pymoo_to_olympus (PymooGAOptimizer.pymoo_problem small)
                    final_pop false true false = Ok (OlympParamVecs candidates)).
  { unfold _pymoo_to_olympus in *. rewrite Hspace. exact Hdec. }
  unfold _batch_sample_selector.
  rewrite Hdec, Hdec', Hparams. cbn [rbind param_vecs].
  rewrite !batch_sample_loop_firstn by (simpl; lia).
  simpl. rewrite !Nat.sub_0_r, filter_combine_diag.
  eexists. split; [reflexivity |]. f_equal.
  rewrite firstn_firstn. f_equal. lia.
Qed.

(** X8: on a constructed optimizer with a batch size of at least one over a
    well-formed space, when the search ends with a non-empty population of
    individuals and the measured array has no row without entries,
    [_optimize] logs, searches once, logs, and returns the first batch_size
    points of the decoded population, in order, whether they were measured
    or not. *)
Theorem optimize_on_constructed_optimizer
    (params_obj : Parameters) (acquisition_type : string)
    (acqf : AcquisitionFunction) (kc : KnownConstraints) (batch_size : Z)
    (params : list (list pyval)) (cfg : PymooConfig)
    (t : list event) (o : PymooGAOptimizer.t)
    (d : dict pyval) (l : list (dict pyval)) :
  PymooGAOptimizer_init params_obj acquisition_type acqf kc batch_size params cfg
    = (t, Ok o) ->
  1 <= batch_size ->
  wf_space (param_space params_obj) = true ->
  Forall (fun row => row <> []) params ->
  let res :=
    minimize (PymooGAOptimizer.pymoo_problem o) (PymooGAOptimizer.algorithm o)
      (cfg_num_gen cfg) (cfg_verbose cfg) (cfg_save_history cfg) in
  pop res = DictSamples (d :: l) ->
  forallb (individual (param_space params_obj)) (d :: l) = true ->
  exists candidates,
    _pymoo_to_olympus (PymooGAOptimizer.pymoo_problem o) (DictSamples (d :: l))
      false true false = Ok (OlympParamVecs candidates) /\
    length candidates = length (d :: l) /\
    _optimize o =
      ([EvLog "Optimizing acquisition function with pymoo GA..." "INFO";
        EvMinimize;
        EvLog ("Completed in " ++ str_of_float (py_round (exec_time res) 3)
               ++ " sec")%string "INFO"],
       Ok (firstn (Z.to_nat batch_size) candidates)).
Proof.
  intros Hinit Hbs Hwf Hrows res Hpop Hind.
  unfold PymooGAOptimizer_init in Hinit.
  destruct (batch_size <? cfg_pop_size cfg) eqn:Hb; simpl in Hinit;
    [| discriminate].
  destruct (_set_pymoo_param_space (param_space params_obj))
    as [[[ps xl] xu] | e]; simpl in Hinit; [| discriminate].
  injection Hinit as <- <-.
  unfold _optimize. cbn [PymooGAOptimizer.pymoo_problem PymooGAOptimizer.algorithm
    PymooGAOptimizer.num_gen PymooGAOptimizer.verbose
    PymooGAOptimizer.save_history].
  cbn [PymooGAOptimizer.pymoo_problem PymooGAOptimizer.algorithm] in res.
  fold res. rewrite Hpop.
  set (o := PymooGAOptimizer.mk _ _ _ _ _ _ _ _ _ _ _ _ _ _ _ _ _ _).
  destruct (selector_on_individuals o d l Hbs Hwf Hind)
    as (candidates & Hdec & Hlen & Hsel).
  exists candidates. split; [exact Hdec |]. split; [exact Hlen |].
  rewrite Hsel. unfold o at 1 2.
  cbn [PymooGAOptimizer._params PymooGAOptimizer.batch_size].
  rewrite (filter_unmeasured_all _ _ Hrows). reflexivity.
Qed.
(** ** Further properties of the planner *)

(** X9: past the initial design, once the regression surrogate is built and
    its INFO line logged, EI with a sequential batch of more than one point
    and QEI with a batch of at most one point end in a FATAL error before
    any optimizer is constructed. *)
Theorem ask_rejects_batch_size (self : BoTorchPlanner.t) (model : gp_model) :
  in_initial_design self = false ->
  regression_gp_class self = Ok model ->
  (BoTorchPlanner.acquisition_type self = "ei"%string /\
   1 < BoTorchPlanner.batch_size self /\
   BoTorchPlanner.batched_strategy self = "sequential"%string ->
   _ask self = ([regression_log self model; EvLog sequential_message "FATAL"],
                Raise (FatalError sequential_message))) /\
  (BoTorchPlanner.acquisition_type self = "qei"%string /\
   BoTorchPlanner.batch_size self <= 1 ->
   _ask self = ([regression_log self model; EvLog qei_message "FATAL"],
                Raise (FatalError qei_message))).
Proof.
  intros Hinit Hmodel. rewrite (_ask_with_model _ _ Hinit Hmodel).
  unfold ask_with_model. cbv zeta. split.
  - intros (Ht & Hb & Hs). unfold get_aqcf_min_max, select_acqf.
    rewrite Ht, Hs. cbn [String.eqb Ascii.eqb Bool.eqb andb].
    rewrite bind_lift_ok. apply Z.ltb_lt in Hb. rewrite Hb. reflexivity.
  - intros (Ht & Hb). unfold get_aqcf_min_max, select_acqf.
    rewrite Ht. cbn [String.eqb Ascii.eqb Bool.eqb andb].
    rewrite bind_lift_ok.
    replace (1 <? BoTorchPlanner.batch_size self) with false
      by (symmetry; apply Z.ltb_ge; lia).
    reflexivity.
Qed.

(** X10: with fewer observations than the initial design asks for, or with
    only NaN observations (in particular with none), [_ask] returns the
    initial design and records nothing, whatever the acquisition type and
    the optimizer kind are. *)
Theorem ask_initial_design (self : BoTorchPlanner.t) :
  Z.of_nat (length (BoTorchPlanner._values self))
    < BoTorchPlanner.num_init_design self \/
  Forall (fun v => PrimFloat.is_nan v = true) (BoTorchPlanner._values self) ->
  _ask self = ([], Ok (initial_design self)).
Proof.
  intros H. unfold _ask.
  replace (in_initial_design self) with true; [reflexivity |].
  symmetry. unfold in_initial_design. apply orb_true_iff.
  destruct H as [H | H]; [left; apply Z.ltb_lt; exact H |].
  right. apply forallb_forall. rewrite Forall_forall in H. exact H.
Qed.

(** X11: past the initial design, with a supported problem type, a
    recognized acquisition type that passes the batch checks, the pymoo
    kind, a batch size below the default population size of 200 and
    recognized parameter types, [_ask] logs the fit of the regression
    surrogate, constructs the optimizer without logging, enters the search
    exactly once, and returns what the selector returns on the final
    population. *)
Theorem ask_pymoo_searches_once (self : BoTorchPlanner.t) (model : gp_model) :
  in_initial_design self = false ->
  regression_gp_class self = Ok model ->
  recognized_acquisition (BoTorchPlanner.acquisition_type self) = true ->
  batch_checks_pass self = true ->
  BoTorchPlanner.acquisition_optimizer_kind self = "pymoo"%string ->
  BoTorchPlanner.batch_size self < 200 ->
  forallb recognized_type (param_space (BoTorchPlanner.params_obj self)) = true ->
  let sur := train_surrogates self model in
  exists mm o,
    get_aqcf_min_max self sur = Ok mm /\
    PymooGAOptimizer_init (BoTorchPlanner.params_obj self)
      (BoTorchPlanner.acquisition_type self)
      (feasibility_aware (acqf_class_of (BoTorchPlanner.acquisition_type self))
         self sur mm)
      (BoTorchPlanner.known_constraints self) (BoTorchPlanner.batch_size self)
      (BoTorchPlanner._params self) default_config = ([], Ok o) /\
    let res :=
      minimize (PymooGAOptimizer.pymoo_problem o) (PymooGAOptimizer.algorithm o)
        5000 false false in
    _ask self =
      ([regression_log self model;
        EvOptimize "pymoo";
        EvLog "Optimizing acquisition function with pymoo GA..." "INFO";
        EvMinimize;
        EvLog ("Completed in " ++ str_of_float (py_round (exec_time res) 3)
               ++ " sec")%string "INFO"],
       _batch_sample_selector o (pop res)).
Proof.
  intros Hinit Hmodel Hrec Hpass Hkind Hbs Hspace sur.
  destruct (get_aqcf_min_max_recognized self sur Hrec) as [mm Hmm].
  destruct (PymooGAOptimizer_init_ok (BoTorchPlanner.params_obj self)
              (BoTorchPlanner.acquisition_type self)
              (feasibility_aware
                 (acqf_class_of (BoTorchPlanner.acquisition_type self))
                 self sur mm)
              (BoTorchPlanner.known_constraints self)
              (BoTorchPlanner.batch_size self) (BoTorchPlanner._params self)
              default_config Hbs Hspace) as (o & Ho & Hg & Hv & Hs).
  exists mm, o. split; [exact Hmm |]. split; [exact Ho |].
  cbv zeta. rewrite (_ask_with_model _ _ Hinit Hmodel).
  unfold ask_with_model. cbv zeta. fold sur. rewrite Hmm, bind_lift_ok.
  rewrite (select_acqf_accepted _ _ _ Hrec Hpass), bind_returned.
  unfold select_optimizer. rewrite Hkind.
  cbn [String.eqb Ascii.eqb Bool.eqb getattr_acqf]. rewrite bind_lift_ok.
  rewrite Ho, bind_returned. cbn [ret trace outcome app fst snd].
  rewrite bind_returned. cbn [ret trace outcome app fst snd optimize].
  pose proof (_optimize_unfold o) as Hopt. cbv zeta in Hopt.
  rewrite Hg, Hv, Hs in Hopt. cbn [default_config cfg_num_gen cfg_verbose
    cfg_save_history] in Hopt.
  rewrite Hopt. reflexivity.
Qed.

(** X12: the type "ucbv2" is known to [get_aqcf_min_max] but not to [_ask]:
    past the initial design, after the fit of the regression surrogate is
    logged, the range of the acquisition function is estimated, and then
    the call ends in the FATAL error for a type that is not understood. *)
Theorem ask_rejects_ucbv2 (self : BoTorchPlanner.t) (model : gp_model) :
  in_initial_design self = false ->
  regression_gp_class self = Ok model ->
  BoTorchPlanner.acquisition_type self = "ucbv2"%string ->
  get_aqcf_min_max self (train_surrogates self model)
    = Ok (sampled_min_max self (train_surrogates self model) MeanSigma) /\
  _ask self =
    ([regression_log self model;
      EvLog "Acquisition function type ucbv2 not understood!" "FATAL"],
     Raise (FatalError "Acquisition function type ucbv2 not understood!")).
Proof.
  intros Hinit Hmodel Ht. rewrite (_ask_with_model _ _ Hinit Hmodel).
  unfold ask_with_model, get_aqcf_min_max, select_acqf.
  rewrite Ht. split; reflexivity.
Qed.

(** X13: [get_aqcf_min_max] returns for exactly seven acquisition types; for
    any other type its local [acqf] is read before it was assigned, and for
    "general" the range is (0.0, 1.0) without any sampling. *)
Theorem get_aqcf_min_max_types (self : BoTorchPlanner.t) (sur : Surrogates) :
  ((exists mm, get_aqcf_min_max self sur = Ok mm) <->
   min_max_acquisition (BoTorchPlanner.acquisition_type self) = true) /\
  (forall e, get_aqcf_min_max self sur = Raise e -> e = UnboundLocalError "acqf") /\
  (BoTorchPlanner.acquisition_type self = "general"%string ->
   get_aqcf_min_max self sur = Ok (MinMax 0%float 1%float)).
Proof.
  unfold get_aqcf_min_max, min_max_acquisition. simpl existsb.
  split; [| split].
  - destruct (String.eqb (BoTorchPlanner.acquisition_type self) "ei");
    destruct (String.eqb (BoTorchPlanner.acquisition_type self) "qei");
    destruct (String.eqb (BoTorchPlanner.acquisition_type self) "ucb");
    destruct (String.eqb (BoTorchPlanner.acquisition_type self) "lcb");
    destruct (String.eqb (BoTorchPlanner.acquisition_type self) "ucbv2");
    destruct (String.eqb (BoTorchPlanner.acquisition_type self) "variance");
    destruct (String.eqb (BoTorchPlanner.acquisition_type self) "general");
    simpl; split; eauto; try discriminate; intros [mm H]; discriminate.
  - intros e.
    destruct (String.eqb (BoTorchPlanner.acquisition_type self) "ei");
    destruct (String.eqb (BoTorchPlanner.acquisition_type self) "qei");
    destruct (String.eqb (BoTorchPlanner.acquisition_type self) "ucb");
    destruct (String.eqb (BoTorchPlanner.acquisition_type self) "lcb");
    destruct (String.eqb (BoTorchPlanner.acquisition_type self) "ucbv2");
    destruct (String.eqb (BoTorchPlanner.acquisition_type self) "variance");
    destruct (String.eqb (BoTorchPlanner.acquisition_type self) "general");
    simpl; intros H; try discriminate; injection H as <-; reflexivity.
  - intros ->. reflexivity.
Qed.

(** X14: the constructor never fails, it keeps every attribute but the
    acquisition type, it leaves a planner whose acquisition type is "general"
    whenever general parameters are given, and running it again on its own
    result changes nothing and logs nothing. *)
Theorem init_is_idempotent (self : BoTorchPlanner.t) :
  exists t self',
    BoTorchPlanner_init self = (t, Ok self') /\
    set_acquisition_type self' (BoTorchPlanner.acquisition_type self) = self /\
    (BoTorchPlanner.general_parameters self' <> None ->
     BoTorchPlanner.acquisition_type self' = "general"%string) /\
    BoTorchPlanner_init self' = ([], Ok self').
Proof.
  unfold BoTorchPlanner_init.
  destruct (BoTorchPlanner.general_parameters self) as [g |] eqn:G.
  - destruct (String.eqb (BoTorchPlanner.acquisition_type self) "general") eqn:E.
    + apply String.eqb_eq in E. exists [], self. rewrite G, E. simpl.
      repeat split; auto. destruct self; simpl in *. subst. reflexivity.
    + eexists. eexists. split; [reflexivity |]. simpl. rewrite G.
      repeat split; auto. destruct self; reflexivity.
  - exists [], self. rewrite G. repeat split; auto.
    + destruct self; reflexivity.
    + intros H. contradiction.
Qed.

(** X15: the acquisition type the test driver [run_mixed_cat_disc] picks for
    a batch size passes both batch checks of [_ask], whatever the batched
    strategy: the acquisition function is built and no FATAL is logged. *)
Theorem run_mixed_cat_disc_type_accepted (self : BoTorchPlanner.t)
    (sur : Surrogates) (mm : acqf_min_max) :
  BoTorchPlanner.acquisition_type self
    = run_mixed_cat_disc_acquisition_type (BoTorchPlanner.batch_size self) ->
  recognized_acquisition (BoTorchPlanner.acquisition_type self) = true /\
  (exists mm', get_aqcf_min_max self sur = Ok mm') /\
  select_acqf self sur mm =
    ([], Ok (Some (feasibility_aware
                     (acqf_class_of (BoTorchPlanner.acquisition_type self))
                     self sur mm))).
Proof.
  intros Ht. unfold run_mixed_cat_disc_acquisition_type in Ht.
  assert (Hrec : recognized_acquisition (BoTorchPlanner.acquisition_type self)
                 = true).
  { rewrite Ht. destruct (1 <? BoTorchPlanner.batch_size self); reflexivity. }
  split; [exact Hrec |]. split; [apply get_aqcf_min_max_recognized; exact Hrec |].
  apply select_acqf_accepted; [exact Hrec |].
  unfold batch_checks_pass. rewrite Ht.
  destruct (1 <? BoTorchPlanner.batch_size self); reflexivity.
Qed.

(** X16: with descriptors every supported problem type is fitted with a
    SingleTaskGP; without them a fully categorical space gets the
    categorical kernel and a mixed categorical one the mixed model; the
    call raises NotImplementedError exactly for a problem type that is none
    of the four names and does not contain "mixed_cat_". *)
Theorem regression_model_choice (problem_type : string) (has_descriptors : bool)
    (cat_dims : list Z) :
  let supported :=
    existsb (String.eqb problem_type)
      ["fully_continuous"; "fully_discrete"; "mixed_disc_cont";
       "fully_categorical"]%string
    || py_contains "mixed_cat_" problem_type in
  let built := build_train_regression_gp problem_type has_descriptors cat_dims in
  (built = Raise NotImplementedError <-> supported = false) /\
  (has_descriptors = true -> supported = true -> built = Ok SingleTaskGP) /\
  (built = Ok CategoricalSingleTaskGP ->
   has_descriptors = false /\ problem_type = "fully_categorical"%string) /\
  (forall dims, built = Ok (MixedSingleTaskGP dims) ->
   has_descriptors = false /\ dims = cat_dims /\
   py_contains "mixed_cat_" problem_type = true).
Proof.
  unfold build_train_regression_gp. simpl existsb.
  destruct (String.eqb problem_type "fully_continuous");
  destruct (String.eqb problem_type "fully_discrete");
  destruct (String.eqb problem_type "mixed_disc_cont");
  destruct (String.eqb problem_type "fully_categorical") eqn:Ecat;
  destruct (py_contains "mixed_cat_" problem_type);
  destruct has_descriptors; simpl;
  repeat split; intros; try discriminate; try reflexivity;
    try (apply String.eqb_eq; assumption); try congruence.
Qed.

(** X23: past the initial design the regression surrogate comes first: for
    a problem type that is none of the four names and does not contain
    "mixed_cat_", [_ask] raises NotImplementedError with nothing logged,
    whatever the acquisition type, the optimizer kind and the batch size
    are. *)
Theorem ask_unsupported_problem_type (self : BoTorchPlanner.t) :
  in_initial_design self = false ->
  existsb (String.eqb (BoTorchPlanner.problem_type self))
    ["fully_continuous"; "fully_discrete"; "mixed_disc_cont";
     "fully_categorical"]%string = false ->
  py_contains "mixed_cat_" (BoTorchPlanner.problem_type self) = false ->
  _ask self = ([], Raise NotImplementedError).
Proof.
  intros Hinit Hnames Hmixed. unfold _ask, train_regression_gp.
  rewrite Hinit. unfold build_train_regression_gp.
  simpl existsb in *. apply orb_false_iff in Hnames. destruct Hnames as [H1 Hn].
  apply orb_false_iff in Hn. destruct Hn as [H2 Hn].
  apply orb_false_iff in Hn. destruct Hn as [H3 Hn].
  apply orb_false_iff in Hn. destruct Hn as [H4 _].
  rewrite H1, H2, H3, H4, Hmixed. reflexivity.
Qed.

(** ** Further properties of the decoding *)

Lemma olympus_entry_eq (sample olymp_sample : dict pyval) (elem : string)
    (param : Param.t) (v : pyval) :
  dict_get sample elem = Ok v ->
  olympus_entry sample olymp_sample elem param =
    match olympus_value param v with
    | Ok (Some w) => Ok (dict_set olymp_sample (Param.name param) w)
    | Ok None => Ok olymp_sample
    | Raise e => Raise e
    end.
Proof.
  unfold olympus_entry, olympus_value. intros Hget. rewrite Hget.
  destruct (String.eqb (Param.type param) "discrete").
  { simpl. destruct (py_getitem _ v) as [o |]; simpl; [| reflexivity].
    destruct (py_float o); reflexivity. }
  destruct (String.eqb (Param.type param) "continuous").
  { simpl. destruct (py_float v); reflexivity. }
  destruct (String.eqb (Param.type param) "categorical"); reflexivity.
Qed.

(** What a successful step of the loop did to the decoded sample. *)
Lemma olympus_entry_inv (sample olymp_sample d : dict pyval) (elem : string)
    (param : Param.t) :
  olympus_entry sample olymp_sample elem param = Ok d ->
  (recognized_type param = true /\
   exists w, d = dict_set olymp_sample (Param.name param) w) \/
  (recognized_type param = false /\ d = olymp_sample).
Proof.
  unfold olympus_entry, recognized_type.
  destruct (String.eqb (Param.type param) "discrete").
  { rewrite orb_true_r. simpl. intros H.
    apply rbind_ok in H. destruct H as (i & _ & H).
    apply rbind_ok in H. destruct H as (o & _ & H).
    apply rbind_ok in H. destruct H as (f & _ & H).
    injection H as <-. left. eauto. }
  destruct (String.eqb (Param.type param) "continuous").
  { simpl. intros H.
    apply rbind_ok in H. destruct H as (v & _ & H).
    apply rbind_ok in H. destruct H as (f & _ & H).
    injection H as <-. left. eauto. }
  destruct (String.eqb (Param.type param) "categorical").
  { simpl. intros H.
    apply rbind_ok in H. destruct H as (v & _ & H).
    injection H as <-. left. eauto. }
  simpl. intros H. injection H as <-. right. auto.
Qed.

Lemma dict_set_keys_in {V} (d : dict V) (k k0 : string) (v : V) :
  In k0 (dict_keys (dict_set d k v)) -> k0 = k \/ In k0 (dict_keys d).
Proof.
  unfold dict_keys. induction d as [| [k' v'] d IH]; simpl.
  - intros [H | []]. left. symmetry. exact H.
  - destruct (String.eqb k' k); simpl; intros [H | H]; auto.
    destruct (IH H); auto.
Qed.

Lemma olympus_sample_loop_keys (sample : dict pyval) :
  forall (zipped : list (string * Param.t)) (acc d : dict pyval),
    olympus_sample_loop sample zipped acc = Ok d ->
    NoDup (dict_keys acc) ->
    NoDup (dict_keys d) /\
    (length d <= length acc + length zipped)%nat /\
    forall k, In k (dict_keys d) ->
      In k (dict_keys acc) \/
      exists param, In param (map snd zipped) /\ Param.name param = k /\
                    recognized_type param = true.
Proof.
  induction zipped as [| [elem param] rest IH]; simpl; intros acc d H Hnd.
  - injection H as <-. repeat split; auto; lia.
  - apply rbind_ok in H. destruct H as (acc' & Hstep & H).
    apply olympus_entry_inv in Hstep.
    destruct Hstep as [(Hrec & w & ->) | (Hrec & ->)].
    + destruct (IH _ _ H (dict_set_keys_NoDup _ _ _ Hnd)) as (H1 & H2 & H3).
      split; [exact H1 |]. split.
      * pose proof (dict_set_length acc (Param.name param) w). lia.
      * intros k Hk. destruct (H3 k Hk) as [Hin | (p & Hp & Hn & Hr)].
        -- apply dict_set_keys_in in Hin. destruct Hin as [-> | Hin]; [| auto].
           right. exists param. auto.
        -- right. exists p. auto.
    + destruct (IH _ _ H Hnd) as (H1 & H2 & H3).
      split; [exact H1 |]. split; [lia |].
      intros k Hk. destruct (H3 k Hk) as [Hin | (p & Hp & Hn & Hr)]; [auto |].
      right. exists p. auto.
Qed.

(** X17: whatever the candidates are, every sample that [_pymoo_to_olympus]
    decodes has pairwise distinct keys, each of them the name of a parameter
    of a recognized type, and at most one entry per parameter; one sample is
    returned per candidate. *)
Theorem decoded_samples_keys (self : PymooProblemWrapper.t) (X : samples)
    (decoded : list (dict pyval)) :
  let space := param_space (PymooProblemWrapper.params_obj self) in
  _pymoo_to_olympus self X false false false = Ok (OlympDicts decoded) ->
  (exists Xd, as_list_dicts space X = Ok Xd /\ length decoded = length Xd) /\
  Forall (fun d =>
            NoDup (dict_keys d) /\
            (length d <= length space)%nat /\
            forall k, In k (dict_keys d) ->
              exists param, In param space /\ Param.name param = k /\
                            recognized_type param = true)
         decoded.
Proof.
  intros space H. unfold _pymoo_to_olympus in H. fold space in H.
  apply rbind_ok in H. destruct H as (Xd & HX & H).
  apply rbind_ok in H. destruct H as (os & Hos & H).
  injection H as <-. split.
  - exists Xd. split; [exact HX | eapply mapM_length; eauto].
  - apply mapM_Forall2 in Hos. apply Forall_forall. intros d Hd.
    destruct (Forall2_In_r _ _ _ d Hos Hd) as (sample & _ & Hs).
    unfold olympus_sample in Hs.
    destruct (olympus_sample_loop_keys _ _ _ _ Hs) as (H1 & H2 & H3);
      [constructor |].
    split; [exact H1 |]. split.
    + simpl in H2. rewrite length_combine in H2. lia.
    + intros k Hk. destruct (H3 k Hk) as [[] | (p & Hp & Hn & Hr)].
      exists p. split; [| auto].
      apply in_map_iff in Hp. destruct Hp as ([e q] & Heq & Hin).
      simpl in Heq. subst q. eapply in_combine_r; eauto.
Qed.

Lemma olympus_sample_loop_recognized (sample : dict pyval) :
  forall (space : list Param.t) (elems : list string) (acc d : dict pyval),
    length elems = length space ->
    NoDup (map Param.name space) ->
    (forall p, In p space -> ~ In (Param.name p) (dict_keys acc)) ->
    olympus_sample_loop sample (combine elems space) acc = Ok d ->
    dict_keys d = dict_keys acc ++ map Param.name (filter recognized_type space).
Proof.
  induction space as [| p space IH]; intros elems acc d Hlen Hnd Hfresh H.
  - destruct elems; simpl in H; injection H as <-; simpl;
      rewrite app_nil_r; reflexivity.
  - destruct elems as [| elem elems]; [discriminate |]. simpl in H.
    apply rbind_ok in H. destruct H as (acc' & Hstep & H).
    inversion Hnd as [| ? ? Hnotin Hnd']; subst.
    apply olympus_entry_inv in Hstep. simpl filter.
    destruct Hstep as [(Hrec & w & ->) | (Hrec & ->)]; rewrite Hrec.
    + rewrite dict_set_fresh in H by (apply Hfresh; left; reflexivity).
      rewrite (IH elems (acc ++ [(Param.name p, w)]) d); auto.
      * unfold dict_keys. rewrite map_app. simpl. rewrite <- app_assoc.
        reflexivity.
      * intros q Hq. unfold dict_keys. rewrite map_app, in_app_iff. simpl.
        intros [Hin | [Heq | []]].
        -- apply (Hfresh q); [right; exact Hq | exact Hin].
        -- apply Hnotin. rewrite Heq. apply in_map. exact Hq.
    + apply (IH elems acc d); auto.
      intros q Hq. apply Hfresh. right. exact Hq.
Qed.

(** X18: a parameter whose type is none of the three is left out of the
    decoded sample without any error: for samples keyed by the (pairwise
    distinct) parameter names, the keys of a decoded sample are the names of
    the parameters of a recognized type, in order - while
    [_set_pymoo_param_space] raises ValueError for the same space. *)
Theorem unrecognized_types_are_dropped (self : PymooProblemWrapper.t)
    (population decoded : list (dict pyval)) :
  let space := param_space (PymooProblemWrapper.params_obj self) in
  NoDup (map Param.name space) ->
  Forall (fun sample => dict_keys sample = map Param.name space) population ->
  _pymoo_to_olympus self (DictSamples population) false false false
    = Ok (OlympDicts decoded) ->
  Forall (fun d => dict_keys d = map Param.name (filter recognized_type space))
         decoded /\
  (forallb recognized_type space = false ->
   _set_pymoo_param_space space = Raise ValueError).
Proof.
  intros space Hnd Hkeys H. split.
  - unfold _pymoo_to_olympus in H. fold space in H.
    apply rbind_ok in H. destruct H as (Xd & HX & H).
    apply rbind_ok in H. destruct H as (os & Hos & H).
    injection H as <-.
    assert (Xd = population) as ->.
    { destruct population; simpl in HX; [discriminate |].
      injection HX as <-. reflexivity. }
    apply mapM_Forall2 in Hos. apply Forall_forall. intros d Hd.
    destruct (Forall2_In_r _ _ _ d Hos Hd) as (sample & Hin & Hs).
    rewrite Forall_forall in Hkeys. unfold olympus_sample in Hs.
    rewrite (Hkeys sample Hin) in Hs.
    apply olympus_sample_loop_recognized in Hs; auto.
    apply length_map.
  - intros Hrec. apply set_pymoo_param_space_loop_unrecognized. exact Hrec.
Qed.

Lemma py_getitem_bounds {A} (l : list A) (z : Z) :
  if (- Z.of_nat (length l) <=? z) && (z <? Z.of_nat (length l))
  then exists a, py_getitem l (VInt z) = Ok a
  else py_getitem l (VInt z) = Raise IndexError.
Proof.
  unfold py_getitem.
  destruct (- Z.of_nat (length l) <=? z) eqn:Hlo;
    destruct (z <? Z.of_nat (length l)) eqn:Hhi; simpl;
    destruct (z <? 0) eqn:Hneg;
    try apply Z.leb_le in Hlo; try apply Z.leb_gt in Hlo;
    try apply Z.ltb_lt in Hhi; try apply Z.ltb_ge in Hhi;
    try apply Z.ltb_lt in Hneg; try apply Z.ltb_ge in Hneg; try lia.
  - replace ((0 <=? z + Z.of_nat (length l))
             && (z + Z.of_nat (length l) <? Z.of_nat (length l))) with true
      by (symmetry; apply andb_true_iff; split;
          [apply Z.leb_le | apply Z.ltb_lt]; lia).
    destruct (nth_error l (Z.to_nat (z + Z.of_nat (length l)))) eqn:E; [eauto |].
    apply nth_error_None in E. lia.
  - replace ((0 <=? z) && (z <? Z.of_nat (length l))) with true
      by (symmetry; apply andb_true_iff; split;
          [apply Z.leb_le | apply Z.ltb_lt]; lia).
    destruct (nth_error l (Z.to_nat z)) eqn:E; [eauto |].
    apply nth_error_None in E. lia.
  - replace ((0 <=? z) && (z <? Z.of_nat (length l))) with false
      by (symmetry; apply andb_false_iff; right; apply Z.ltb_ge; lia).
    reflexivity.
  - replace ((0 <=? z + Z.of_nat (length l))
             && (z + Z.of_nat (length l) <? Z.of_nat (length l))) with false
      by (symmetry; apply andb_false_iff; left; apply Z.leb_gt; lia).
    reflexivity.
Qed.

Lemma py_getitem_In {A} (l : list A) (i : pyval) (a : A) :
  py_getitem l i = Ok a -> In a l.
Proof.
  unfold py_getitem. destruct i as [| z |]; try discriminate.
  destruct (_ && _); [| discriminate].
  destruct (nth_error l _) eqn:E; [| discriminate].
  intros H. injection H as <-. eapply nth_error_In; eauto.
Qed.

Lemma olympus_value_typed (param : Param.t) (v : pyval) :
  wf_param param = true -> typed_value param v = true ->
  if index_in_range param v
  then exists w, olympus_value param v = Ok (Some w)
  else olympus_value param v = Raise IndexError.
Proof.
  unfold wf_param, typed_value, index_in_range, olympus_value, recognized_type.
  intros Hwf Hty. apply andb_true_iff in Hwf. destruct Hwf as [Hrec Hopt].
  destruct (String.eqb (Param.type param) "discrete") eqn:Ed.
  - destruct (String.eqb (Param.type param) "continuous") eqn:Ec.
    { apply String.eqb_eq in Ec. rewrite Ec in Ed. discriminate. }
    destruct v as [| z |]; try discriminate.
    pose proof (py_getitem_bounds (Param.options param) z) as Hb.
    destruct (_ && _).
    + destruct Hb as [o Ho]. rewrite Ho. simpl.
      rewrite forallb_forall in Hopt.
      pose proof (Hopt o (py_getitem_In _ _ _ Ho)) as Hf.
      destruct o; try discriminate. simpl. eauto.
    + rewrite Hb. reflexivity.
  - destruct (String.eqb (Param.type param) "continuous").
    + destruct v; try discriminate. simpl. eauto.
    + rewrite orb_false_l in Hrec. simpl in Hrec. rewrite Hrec. eauto.
Qed.

Lemma olympus_sample_loop_typed (sample : dict pyval) :
  forall (space : list Param.t) (vs : list pyval) (acc : dict pyval),
    Forall2 (fun p v => dict_get sample (Param.name p) = Ok v) space vs ->
    forallb wf_param space = true ->
    forallb2 typed_value space vs = true ->
    if forallb2 index_in_range space vs
    then exists d,
        olympus_sample_loop sample (combine (map Param.name space) space) acc = Ok d
    else olympus_sample_loop sample (combine (map Param.name space) space) acc
         = Raise IndexError.
Proof.
  intros space vs acc Hget. revert acc.
  induction Hget as [| p v space vs Hv _ IH]; intros acc Hwf Hty; simpl.
  - eauto.
  - simpl in Hwf, Hty. apply andb_true_iff in Hwf, Hty.
    destruct Hwf as [Hp Hwf]. destruct Hty as [Htv Hty].
    rewrite (olympus_entry_eq sample acc _ p v Hv).
    pose proof (olympus_value_typed p v Hp Htv) as Hval.
    destruct (index_in_range p v); simpl.
    + destruct Hval as [w ->]. simpl. apply IH; assumption.
    + rewrite Hval. reflexivity.
Qed.

Lemma mapM_all_or_error {A B} (f : A -> result B) (good : A -> bool) (err : exn)
    (l : list A) :
  (forall a, In a l ->
     if good a then exists b, f a = Ok b else f a = Raise err) ->
  if forallb good l then exists bs, mapM f l = Ok bs /\ length bs = length l
  else mapM f l = Raise err.
Proof.
  induction l as [| a l IH]; simpl; intros H; [eauto |].
  pose proof (H a (or_introl eq_refl)) as Ha.
  destruct (good a); simpl.
  - destruct Ha as [b ->]. simpl.
    specialize (IH (fun x Hx => H x (or_intror Hx))).
    destruct (forallb good l).
    + destruct IH as (bs & -> & Hlen). simpl. eexists. split; [reflexivity |].
      simpl. f_equal. exact Hlen.
    + rewrite IH. reflexivity.
  - rewrite Ha. reflexivity.
Qed.

Lemma Forall2_map_left {A B C} (f : A -> B) (R : B -> C -> Prop)
    (l : list A) (l' : list C) :
  Forall2 R (map f l) l' -> Forall2 (fun a c => R (f a) c) l l'.
Proof.
  revert l'. induction l as [| a l IH]; intros l' H; inversion H; subst;
    constructor; auto.
Qed.

(** X19: for a well-formed space and a non-empty population whose samples
    hold a float under every continuous parameter and an int under every
    discrete one, decoding succeeds exactly when every such int lies in
    -n .. n-1 for the n options of its parameter (negative indices count
    from the end), and raises IndexError otherwise. *)
Theorem decode_index_bounds (self : PymooProblemWrapper.t)
    (d : dict pyval) (l : list (dict pyval)) :
  let space := param_space (PymooProblemWrapper.params_obj self) in
  wf_space space = true ->
  forallb (typed_sample space) (d :: l) = true ->
  if forallb (indices_in_range space) (d :: l)
  then exists candidates,
      _pymoo_to_olympus self (DictSamples (d :: l)) false true false
        = Ok (OlympParamVecs candidates) /\
      length candidates = length (d :: l)
  else _pymoo_to_olympus self (DictSamples (d :: l)) false true false
       = Raise IndexError.
Proof.
  intros space Hwf Hty. unfold wf_space in Hwf.
  apply andb_true_iff in Hwf. destruct Hwf as [Hnd Hwf].
  apply distinct_NoDup in Hnd.
  pose proof (mapM_all_or_error (olympus_sample space) (indices_in_range space)
                IndexError (d :: l)) as HM.
  assert (Hall : forall a, In a (d :: l) ->
            if indices_in_range space a
            then exists b, olympus_sample space a = Ok b
            else olympus_sample space a = Raise IndexError).
  { intros sample Hin. rewrite forallb_forall in Hty.
    pose proof (Hty sample Hin) as Hs. unfold typed_sample in Hs.
    apply andb_true_iff in Hs. destruct Hs as [Hkeys Hvals].
    apply forallb2_eqb_eq in Hkeys.
    assert (Hlen : length (dict_values sample) = length space).
    { symmetry. eapply Forall2_length. apply forallb2_Forall2. exact Hvals. }
    unfold olympus_sample, indices_in_range. rewrite Hkeys.
    apply olympus_sample_loop_typed; auto.
    pose proof (dict_get_combine (map Param.name space) (dict_values sample) Hnd)
      as Hg.
    rewrite length_map in Hg. specialize (Hg (eq_sym Hlen)).
    replace (combine (map Param.name space) (dict_values sample)) with sample
      in Hg by (rewrite <- Hkeys; apply keys_values_combine).
    exact (Forall2_map_left Param.name
             (fun k v => dict_get sample k = Ok v) _ _ Hg). }
  specialize (HM Hall). unfold _pymoo_to_olympus. fold space.
  cbn [as_list_dicts rbind].
  destruct (forallb (indices_in_range space) (d :: l)).
  - destruct HM as (bs & -> & Hlen). cbn [rbind].
    eexists. split; [reflexivity |]. rewrite length_map. exact Hlen.
  - rewrite HM. reflexivity.
Qed.

Lemma combine_keys_NoDup {V} (names : list string) (row : list V) :
  NoDup names -> NoDup (map fst (combine names row)).
Proof.
  intros Hnd. revert row.
  induction Hnd as [| k names Hnotin _ IH]; intros [| v row]; simpl;
    try constructor; auto.
  intros Hin. apply Hnotin. apply in_map_iff in Hin.
  destruct Hin as ([k' v'] & Hk & Hin). simpl in Hk. subst k'.
  eapply in_combine_l; eauto.
Qed.

Lemma dict_of_pairs_combine {V} (names : list string) (row : list V) :
  NoDup names -> dict_of_pairs (combine names row) = combine names row.
Proof.
  intros Hnd. unfold dict_of_pairs.
  rewrite (dict_build_nodup fst snd (combine names row) []).
  - simpl. induction (combine names row) as [| [k v] c IH]; simpl;
      [reflexivity | f_equal; exact IH].
  - apply combine_keys_NoDup. exact Hnd.
  - intros a _ [].
Qed.

Lemma values_combine {A B} (l : list A) (l' : list B) :
  map snd (combine l l') = firstn (length l) l'.
Proof.
  revert l'. induction l as [| a l IH]; intros [| b l']; simpl; auto.
  f_equal. apply IH.
Qed.

(** X20: with pairwise distinct parameter names, a population given as rows
    is handled as the population of dictionaries that pair the names with
    the row values in order; entries of a row beyond the number of
    parameters are dropped, so the known constraints are evaluated on the
    first len(space) values of each row, and decoding the rows is decoding
    these dictionaries. *)
Theorem rows_are_keyed_by_names (self : PymooProblemWrapper.t)
    (X : list (list pyval))
    (forward_transform return_param_vec return_expanded : bool) :
  let space := param_space (PymooProblemWrapper.params_obj self) in
  let names := map Param.name space in
  NoDup names ->
  _X_to_list_dicts space X = map (combine names) X /\
  map dict_values (_X_to_list_dicts space X) = map (firstn (length space)) X /\
  _known_constraints_wrapper self (_X_to_list_dicts space X) =
    map (fun row =>
           if forallb (fun kc => kc (firstn (length space) row))
                (constraints (PymooProblemWrapper.known_constraints self))
           then -2 else 2) X /\
  _pymoo_to_olympus self (ArraySamples X) forward_transform return_param_vec
    return_expanded =
  _pymoo_to_olympus self (DictSamples (map (combine names) X)) forward_transform
    return_param_vec return_expanded.
Proof.
  intros space names Hnd.
  assert (H1 : _X_to_list_dicts space X = map (combine names) X).
  { unfold _X_to_list_dicts. apply map_ext. intros row.
    apply dict_of_pairs_combine. exact Hnd. }
  assert (H2 : map dict_values (map (combine names) X)
               = map (firstn (length space)) X).
  { rewrite map_map. apply map_ext. intros row. unfold dict_values, names.
    rewrite values_combine, length_map. reflexivity. }
  split; [exact H1 |]. split; [rewrite H1; exact H2 |]. split.
  - rewrite H1. unfold _known_constraints_wrapper. rewrite map_map.
    apply map_ext. intros row. unfold dict_values, names.
    rewrite values_combine, length_map.
    induction (constraints (PymooProblemWrapper.known_constraints self))
      as [| kc kcs IH]; simpl; [reflexivity |].
    destruct (kc (firstn (length space) row)); simpl; [exact IH | reflexivity].
  - unfold _pymoo_to_olympus. fold space. destruct X as [| row X];
      [reflexivity |].
    cbn [as_list_dicts]. rewrite H1. reflexivity.
Qed.

(** ** Further properties of [gen_initial_population] *)

Lemma store_put_last (h : store) (x d : dict pyval) :
  store_put (h ++ [x]) (length h) d = h ++ [d].
Proof. induction h as [| y h IH]; simpl; [| rewrite IH]; reflexivity. Qed.

Lemma store_get_last (h : store) (x : dict pyval) (rest : store) :
  store_get (h ++ x :: rest) (length h) = x.
Proof. unfold store_get. apply nth_middle. Qed.

(** The encoding of one raw sample, as the inner loop builds it. *)
Lemma population_loop_ok (space : list Param.t) :
  forall (samples_raw : list (list pyval)) (encs : list (dict pyval))
         (h : store) (pop_list_dicts : list nat),
    Forall2 (fun sample enc =>
               length sample = length space /\
               exists ws,
                 Forall2 (fun ep w => pymoo_entry (fst ep) (snd ep) = Ok w)
                         (combine sample space) ws /\
                 enc = fold_left
                         (fun d epw =>
                            dict_set d (Param.name (snd (fst epw))) (snd epw))
                         (combine (combine sample space) ws) [])
            samples_raw encs ->
    population_loop space samples_raw h pop_list_dicts
      = Ok (h ++ encs,
            pop_list_dicts ++
            flat_map (fun r => repeat r (length space))
                     (seq (length h) (length samples_raw))).
Proof.
  intros samples_raw encs h pl H. revert h pl.
  induction H as [| sample enc samples_raw encs (Hlen & ws & Hws & Henc) _ IH];
    intros h pl; simpl.
  - rewrite !app_nil_r. reflexivity.
  - rewrite (population_sample_loop_ok _ ws)
      by (rewrite ?length_app; simpl; auto; lia).
    cbn [rbind fst snd].
    rewrite store_get_last, store_put_last, <- Henc.
    rewrite IH. rewrite length_app. simpl.
    rewrite length_combine, Hlen, Nat.min_id.
    rewrite <- !app_assoc. simpl.
    replace (length h + 1)%nat with (S (length h)) by lia. reflexivity.
Qed.

Lemma deref_population (n : nat) (encs : list (dict pyval)) :
  forall h : store,
    map (store_get (h ++ encs))
        (flat_map (fun r => repeat r n) (seq (length h) (length encs)))
      = flat_map (fun enc => repeat enc n) encs.
Proof.
  induction encs as [| enc encs IH]; intros h; simpl; [reflexivity |].
  rewrite map_app, map_repeat, store_get_last. f_equal.
  specialize (IH (h ++ [enc])). rewrite length_app in IH. simpl in IH.
  rewrite <- app_assoc in IH. simpl in IH.
  replace (length h + 1)%nat with (S (length h)) in IH by lia. exact IH.
Qed.

Lemma encoding_keys (space : list Param.t) (sample ws : list pyval) :
  NoDup (map Param.name space) ->
  length sample = length space -> length ws = length space ->
  fold_left (fun d epw => dict_set d (Param.name (snd (fst epw))) (snd epw))
    (combine (combine sample space) ws) []
    = combine (map Param.name space) ws.
Proof.
  intros Hnd Hs Hw.
  rewrite (dict_build_nodup (fun epw => Param.name (snd (fst epw))) snd).
  - simpl. clear Hnd. revert sample ws Hs Hw.
    induction space as [| p space IH]; intros [| x v] [| w ws] Hv Hw;
      simpl in *; try discriminate; [reflexivity |].
    f_equal. apply IH; lia.
  - replace (map (fun epw => Param.name (snd (fst epw)))
               (combine (combine sample space) ws))
      with (map Param.name space); [exact Hnd |].
    clear Hnd. revert sample ws Hs Hw.
    induction space as [| p space IH]; intros [| x v] [| w ws] Hv Hw;
      simpl in *; try discriminate; [reflexivity |].
    f_equal. apply IH; lia.
  - intros a _ [].
Qed.

(** X21: for a well-formed space and valid raw samples, the
    population holds the encoding of every sample once per parameter of the
    space, in sample order: the population of several samples is the
    concatenation of the populations of the single samples, it has
    len(samples) * len(space) entries, and it is empty for an empty space. *)
Theorem gen_initial_population_repeats
    (space : list Param.t) (samples_raw : list (list pyval)) :
  wf_space space = true ->
  forallb (valid_vector space) samples_raw = true ->
  exists encs,
    gen_initial_population samples_raw space
      = Ok (flat_map (fun enc => repeat enc (length space)) encs) /\
    Forall2 (fun sample enc =>
               gen_initial_population [sample] space
                 = Ok (repeat enc (length space)) /\
               dict_keys enc = map Param.name space)
            samples_raw encs /\
    length (flat_map (fun enc => repeat enc (length space)) encs)
      = (length samples_raw * length space)%nat.
Proof.
  intros Hwf Hvalid. unfold wf_space in Hwf.
  apply andb_true_iff in Hwf. destruct Hwf as [Hnd Hwf].
  apply distinct_NoDup in Hnd.
  assert (Hencs : exists encs,
            Forall2 (fun sample enc =>
               length sample = length space /\
               exists ws, length ws = length space /\
                 Forall2 (fun ep w => pymoo_entry (fst ep) (snd ep) = Ok w)
                         (combine sample space) ws /\
                 enc = combine (map Param.name space) ws)
              samples_raw encs).
  { induction samples_raw as [| sample rest IH]; [exists []; constructor |].
    simpl in Hvalid. apply andb_true_iff in Hvalid.
    destruct Hvalid as [Hv Hrest]. destruct (IH Hrest) as [encs Hencs].
    apply forallb2_Forall2 in Hv.
    destruct (entries_roundtrip space sample Hwf Hv)
      as (ws & ds & Henc & _ & _ & _ & Hlws).
    exists (combine (map Param.name space) ws :: encs). constructor; [| exact Hencs].
    split; [symmetry; eapply Forall2_length; eauto |].
    exists ws. auto. }
  destruct Hencs as [encs Hencs]. exists encs. split; [| split].
  - unfold gen_initial_population.
    rewrite (population_loop_ok space samples_raw encs [] []).
    + cbn [rbind fst snd app length]. f_equal.
      rewrite (Forall2_length Hencs).
      apply (deref_population (length space) encs []).
    + eapply Forall2_impl; [| exact Hencs].
      intros sample enc (Hlen & ws & Hlws & Hws & ->).
      split; [exact Hlen |]. exists ws. split; [exact Hws |].
      symmetry. apply encoding_keys; assumption.
  - eapply Forall2_impl; [| exact Hencs].
    intros sample enc (Hlen & ws & Hlws & Hws & ->). split.
    + apply gen_initial_population_one; assumption.
    + unfold dict_keys. apply map_fst_combine. rewrite length_map. lia.
  - rewrite (Forall2_length Hencs). clear.
    induction encs as [| enc encs IH]; simpl; [reflexivity |].
    rewrite length_app, repeat_length, IH. reflexivity.
Qed.

Lemma py_index_in (l : list pyval) (x : pyval) (i : Z) :
  py_index l x = Ok i -> py_in x l = true.
Proof.
  unfold py_in. revert i. induction l as [| item l IH]; simpl; intros i H;
    [discriminate |].
  destruct (py_eq item x); [reflexivity |]. simpl.
  destruct (py_index l x) as [j |]; [eauto | discriminate].
Qed.

Lemma population_sample_loop_inv :
  forall (zipped : list (pyval * Param.t)) (pop_dict : nat) (h : store)
         (pop_list_dicts : list nat) (st : store * list nat),
    population_sample_loop zipped pop_dict h pop_list_dicts = Ok st ->
    Forall (fun ep => exists w, pymoo_entry (fst ep) (snd ep) = Ok w) zipped.
Proof.
  induction zipped as [| [elem param] rest IH]; simpl; intros r h pl st H;
    [constructor |].
  apply rbind_ok in H. destruct H as (w & Hw & H).
  constructor; [simpl; eauto | eapply IH; eauto].
Qed.

Lemma population_loop_inv (space : list Param.t) :
  forall (samples_raw : list (list pyval)) (h : store)
         (pop_list_dicts : list nat) (st : store * list nat),
    population_loop space samples_raw h pop_list_dicts = Ok st ->
    Forall (fun sample =>
              Forall (fun ep => exists w, pymoo_entry (fst ep) (snd ep) = Ok w)
                     (combine sample space))
           samples_raw.
Proof.
  induction samples_raw as [| sample rest IH]; simpl; intros h pl st H;
    [constructor |].
  apply rbind_ok in H. destruct H as (st' & Hs & H).
  constructor; [eapply population_sample_loop_inv; eauto | eapply IH; eauto].
Qed.

(** X22: [gen_initial_population] returns only if every raw value that sits
    at a discrete parameter is one of the options of that parameter and
    every raw value at a continuous parameter converts to a float;
    [options.index] and [float] raise otherwise. *)
Theorem gen_initial_population_requires_options
    (space : list Param.t) (samples_raw : list (list pyval))
    (population : list (dict pyval)) :
  gen_initial_population samples_raw space = Ok population ->
  forall sample x param,
    In sample samples_raw -> In (x, param) (combine sample space) ->
    (Param.type param = "discrete"%string ->
     py_in x (Param.options param) = true) /\
    (Param.type param = "continuous"%string -> exists f, py_float x = Ok f).
Proof.
  unfold gen_initial_population. intros H sample x param Hs Hx.
  apply rbind_ok in H. destruct H as (st & Hloop & _).
  apply population_loop_inv in Hloop. rewrite Forall_forall in Hloop.
  specialize (Hloop sample Hs). rewrite Forall_forall in Hloop.
  destruct (Hloop (x, param) Hx) as [w Hw]. simpl in Hw.
  unfold pymoo_entry in Hw. split; intros Ht; rewrite Ht in Hw; simpl in Hw.
  - apply rbind_ok in Hw. destruct Hw as (i & Hi & _).
    eapply py_index_in; eauto.
  - apply rbind_ok in Hw. destruct Hw as (f & Hf & _). eauto.
Qed.

End Atlas.

(** ** The statements on the example campaign *)

Import Example.

Lemma known_constraints_margin_witness :
  nth_error [ind1; ind2] 1 = Some ind2 /\
  exists g,
    nth_error (_known_constraints_wrapper (problem 1 one_constraint) [ind1; ind2]) 1
      = Some g /\
    (g <= -2 <->
     Forall (fun kc => kc (dict_values ind2) = true) (constraints one_constraint)).
Proof.
  split; [reflexivity |].
  destruct (known_constraints_margin (problem 1 one_constraint) [ind1; ind2] 1
              ind2 eq_refl) as (_ & g & Hg & Hle & _).
  exists g. split; [exact Hg | exact Hle].
Defined.

Lemma evaluate_negated_batched_acqf_witness :
  0 <= PymooProblemWrapper.batch_size (problem 2 one_constraint) /\
  exists tr out' X_torch,
    _evaluate float_of_str float32 (problem 2 one_constraint)
      (DictSamples [ind1; ind2]) [] = (tr, Ok out') /\
    nth_error X_torch 0 = Some [[0.5; 2; 0]; [0.5; 2; 0]]%float /\
    dict_get out' "F" = Ok (FloatArray (map PrimFloat.opp (acqf X_torch))).
Proof.
  split; [simpl; lia |].
  destruct (evaluate_negated_batched_acqf float_of_str float32
              (problem 2 one_constraint) (DictSamples [ind1; ind2]) [])
    as [Htotal Hdone].
  destruct (Htotal _ eq_refl) as (tr & out' & Hrun); [simpl; lia |].
  destruct (Hdone tr out' Hrun)
    as (expanded & X_torch & Hexp & _ & Hrow & HF & _).
  exists tr, out', X_torch. split; [exact Hrun |]. split; [| exact HF].
  vm_compute in Hexp. injection Hexp as <-.
  exact (Hrow 0%nat _ eq_refl).
Defined.

Lemma constraint_output_iff_constraints_witness :
  (constraints no_constraints = [] /\
   PymooProblemWrapper.n_constr (problem 2 no_constraints) = 0) /\
  (constraints one_constraint <> [] /\
   PymooProblemWrapper.n_constr (problem 2 one_constraint) = 1).
Proof.
  pose proof (constraint_output_iff_constraints float_of_str float32 params_obj
                pymoo_space bounds acqf 2 no_constraints) as [H0 _].
  pose proof (constraint_output_iff_constraints float_of_str float32 params_obj
                pymoo_space bounds acqf 2 one_constraint) as [_ H1].
  split; split.
  - reflexivity.
  - exact (proj1 (H0 eq_refl)).
  - discriminate.
  - refine (proj1 (H1 _)). discriminate.
Defined.

Lemma set_pymoo_param_space_encoding_witness :
  NoDup (map Param.name space) /\
  forallb recognized_type space = true /\
  exists pymoo_space xl xu,
    _set_pymoo_param_space space = Ok (pymoo_space, xl, xu) /\
    dict_keys pymoo_space = map Param.name space.
Proof.
  assert (Hnd : NoDup (map Param.name space))
    by (apply distinct_NoDup; vm_compute; reflexivity).
  split; [exact Hnd |]. split; [reflexivity |].
  destruct (set_pymoo_param_space_encoding space Hnd eq_refl)
    as (ps & xl & xu & Hset & Hkeys & _).
  exists ps, xl, xu. split; assumption.
Defined.

Lemma init_requires_batch_below_pop_witness :
  (cfg_pop_size default_config <= 200 /\
   PymooGAOptimizer_init params_obj "ucb" acqf no_constraints 200 [] default_config
     = ([EvLog pop_size_message "FATAL"], Raise (FatalError pop_size_message))) /\
  (3 < cfg_pop_size default_config /\
   trace (PymooGAOptimizer_init params_obj "ucb" acqf no_constraints 3 []
            default_config) = []).
Proof.
  split; split.
  - vm_compute. discriminate.
  - apply (proj1 (init_requires_batch_below_pop params_obj "ucb" acqf
                    no_constraints 200 [] default_config)).
    vm_compute. discriminate.
  - reflexivity.
  - apply (proj2 (init_requires_batch_below_pop params_obj "ucb" acqf
                    no_constraints 3 [] default_config)).
    reflexivity.
Defined.

Lemma init_overrides_acquisition_type_witness :
  BoTorchPlanner.general_parameters (planner "ei" "pymoo" (Some [0]) space)
    <> None /\
  BoTorchPlanner.acquisition_type (planner "ei" "pymoo" (Some [0]) space)
    <> "general"%string /\
  outcome (BoTorchPlanner_init (planner "ei" "pymoo" (Some [0]) space))
    = Ok (planner "general" "pymoo" (Some [0]) space).
Proof.
  assert (H1 : BoTorchPlanner.general_parameters
                 (planner "ei" "pymoo" (Some [0]) space) <> None)
    by discriminate.
  assert (H2 : BoTorchPlanner.acquisition_type
                 (planner "ei" "pymoo" (Some [0]) space) <> "general"%string)
    by discriminate.
  split; [exact H1 |]. split; [exact H2 |].
  destruct (proj1 (init_overrides_acquisition_type
                     (planner "ei" "pymoo" (Some [0]) space)) H1 H2) as [H _].
  rewrite H. reflexivity.
Defined.

Lemma misconfiguration_aborts_before_search_witness :
  let ask :=
    _ask float_of_str str_of_float minimize py_round get_cat_dims gp_train_time
      unit train_surrogates initial_design sampled_min_max feasibility_aware
      unit unit other_init other_init other_optimize other_optimize in
  let fitted :=
    EvLog "Regression surrogate GP trained in 0.0 sec" "INFO" in
  in_initial_design (planner "ucb" "pymoo" None odd_space) = false /\
  forallb recognized_type odd_space = false /\
  ask (planner "ucb" "pymoo" None odd_space) = ([fitted], Raise ValueError) /\
  ask (planner "ucbv2" "pymoo" None space)
    = ([fitted;
        EvLog "Acquisition function type ucbv2 not understood!" "FATAL"],
       Raise (FatalError "Acquisition function type ucbv2 not understood!")) /\
  (exists e, outcome (ask (planner "ucb" "simplex" None space)) = Raise e) /\
  no_search (trace (ask (planner "ucb" "simplex" None space))) /\
  no_search (trace (ask (planner "thompson" "gradient" None space))).
Proof.
  intros ask fitted. split; [reflexivity |]. split; [reflexivity |].
  split; [| split; [| split; [| split]]].
  - destruct (misconfiguration_aborts_before_search float_of_str str_of_float
                minimize py_round get_cat_dims gp_train_time unit
                train_surrogates initial_design sampled_min_max
                feasibility_aware unit unit other_init other_init
                other_optimize other_optimize
                (planner "ucb" "pymoo" None odd_space) eq_refl
                (or_intror (or_intror (conj eq_refl eq_refl))))
      as (_ & _ & Hvalue & _).
    exact (Hvalue (MixedSingleTaskGP [2]) eq_refl eq_refl eq_refl eq_refl
             eq_refl eq_refl).
  - destruct (misconfiguration_aborts_before_search float_of_str str_of_float
                minimize py_round get_cat_dims gp_train_time unit
                train_surrogates initial_design sampled_min_max
                feasibility_aware unit unit other_init other_init
                other_optimize other_optimize
                (planner "ucbv2" "pymoo" None space) eq_refl
                (or_introl eq_refl))
      as (_ & _ & _ & Hfatal).
    exact (Hfatal (MixedSingleTaskGP [2]) (MinMax 0%float 1%float) eq_refl
             eq_refl eq_refl).
  - destruct (misconfiguration_aborts_before_search float_of_str str_of_float
                minimize py_round get_cat_dims gp_train_time unit
                train_surrogates initial_design sampled_min_max
                feasibility_aware unit unit other_init other_init
                other_optimize other_optimize
                (planner "ucb" "simplex" None space) eq_refl
                (or_intror (or_introl eq_refl)))
      as (Hraise & _).
    exact Hraise.
  - destruct (misconfiguration_aborts_before_search float_of_str str_of_float
                minimize py_round get_cat_dims gp_train_time unit
                train_surrogates initial_design sampled_min_max
                feasibility_aware unit unit other_init other_init
                other_optimize other_optimize
                (planner "ucb" "simplex" None space) eq_refl
                (or_intror (or_introl eq_refl)))
      as (_ & Hns & _).
    exact Hns.
  - destruct (misconfiguration_aborts_before_search float_of_str str_of_float
                minimize py_round get_cat_dims gp_train_time unit
                train_surrogates initial_design sampled_min_max
                feasibility_aware unit unit other_init other_init
                other_optimize other_optimize
                (planner "thompson" "gradient" None space) eq_refl
                (or_introl eq_refl))
      as (_ & Hns & _).
    exact Hns.
Defined.

(** C5, as stated, fails in the initial design: a planner with an
    unrecognized acquisition type, an unrecognized optimizer kind and a
    parameter of an unknown type, which has fewer observations than its
    initial design asks for, returns the initial design; nothing is
    reported and nothing is raised. *)
Lemma misconfiguration_unreported_in_initial_design :
  let ask :=
    _ask float_of_str str_of_float minimize py_round get_cat_dims gp_train_time
      unit train_surrogates initial_design sampled_min_max feasibility_aware
      unit unit other_init other_init other_optimize other_optimize in
  recognized_acquisition (BoTorchPlanner.acquisition_type unchecked_planner)
    = false /\
  recognized_optimizer (BoTorchPlanner.acquisition_optimizer_kind unchecked_planner)
    = false /\
  forallb recognized_type
    (param_space (BoTorchPlanner.params_obj unchecked_planner)) = false /\
  ask unchecked_planner = ([], Ok (initial_design unchecked_planner)) /\
  ~ exists e, outcome (ask unchecked_planner) = Raise e.
Proof.
  intros ask. split; [reflexivity |]. split; [reflexivity |].
  split; [reflexivity |]. split; [reflexivity |].
  intros [e He]. discriminate.
Qed.

(** C1: the selector compares the measured array with the ParameterVector
    itself, so the test never matches: with the point (0.25, 1.0, 'a')
    measured, a batch of two from a population of two holds that point. *)
Theorem selector_returns_measured_point :
  In [VFloat 0.25; VFloat 1; VStr "a"]
     (PymooGAOptimizer._params (optimizer 2 [[VFloat 0.25; VFloat 1; VStr "a"]])) /\
  _batch_sample_selector float_of_str
    (optimizer 2 [[VFloat 0.25; VFloat 1; VStr "a"]])
    (DictSamples [ind1; ind2]) = Ok [point1; point2] /\
  row_eqb [VFloat 0.25; VFloat 1; VStr "a"] (to_array point2) = true.
Proof.
  split; [left; reflexivity |]. split; reflexivity.
Qed.

(** C2: with a batch size of one the selector does not skip the measured
    first candidate for the unmeasured second one: it returns the measured
    point. *)
Theorem selector_keeps_measured_candidate :
  wf_space space = true /\
  forallb (individual space) [ind2; ind1; ind2] = true /\
  row_eqb [VFloat 0.25; VFloat 1; VStr "a"] (to_array point2) = true /\
  existsb (fun row => row_eqb row (to_array point1))
    [[VFloat 0.25; VFloat 1; VStr "a"]] = false /\
  _pymoo_to_olympus float_of_str
    (PymooGAOptimizer.pymoo_problem
       (optimizer 1 [[VFloat 0.25; VFloat 1; VStr "a"]]))
    (DictSamples [ind2; ind1; ind2]) false true false
    = Ok (OlympParamVecs [point2; point1; point2]) /\
  _batch_sample_selector float_of_str
    (optimizer 1 [[VFloat 0.25; VFloat 1; VStr "a"]])
    (DictSamples [ind2; ind1; ind2]) = Ok [point2].
Proof.
  repeat split; reflexivity.
Qed.

Lemma decode_encode_roundtrip_witness :
  space <> [] /\ wf_space space = true /\ valid_vector space vector = true /\
  exists population decoded,
    gen_initial_population float_of_str str_of_float str_of_int [vector] space
      = Ok population /\
    _pymoo_to_olympus float_of_str (problem 1 no_constraints)
      (DictSamples population) false false false = Ok (OlympDicts decoded) /\
    Forall (fun d => Forall2 (fun w x => py_eq w x = true) (dict_values d) vector)
           decoded.
Proof.
  split; [discriminate |]. split; [reflexivity |]. split; [reflexivity |].
  destruct (decode_encode_roundtrip float_of_str str_of_float str_of_int
              (problem 1 no_constraints) vector)
    as (population & decoded & Hgen & Hdec & _ & Hall);
    [discriminate | reflexivity | reflexivity |].
  exists population, decoded. split; [exact Hgen |]. split; [exact Hdec |].
  eapply Forall_impl; [| exact Hall]. intros d (_ & Heq & _). exact Heq.
Defined.

(** The selector does not compare the candidates with each other: a
    population that holds one individual twice yields a batch that holds
    the same point twice. *)
Lemma batch_repeats_duplicate_candidate :
  _batch_sample_selector float_of_str (optimizer 2 [])
    (DictSamples [ind1; ind1]) = Ok [point1; point1] /\
  pv_eqb point1 point1 = true /\
  ~ pairwise_distinct [point1; point1].
Proof.
  split; [reflexivity |]. split; [reflexivity |].
  intros H. inversion H as [| p l Hp _]; subst.
  inversion Hp as [| q l' Hq _]; subst. vm_compute in Hq. discriminate.
Qed.

(** With a batch size of 0 the test for a full batch is never met once a
    point has been appended, and an empty population makes the decoding
    raise. *)
Lemma batch_size_zero_and_empty_population :
  (_batch_sample_selector float_of_str (optimizer 0 [])
     (DictSamples [ind1; ind2]) = Ok [point1; point2] /\
   ~ Z.of_nat (length [point1; point2]) <= 0) /\
  _batch_sample_selector float_of_str (optimizer 2 []) (DictSamples [])
    = Raise IndexError.
Proof.
  split; [split; [reflexivity | simpl; lia] | reflexivity].
Qed.

(** A well-configured planner does reach the search. *)
Lemma well_configured_ask_searches :
  let ask :=
    _ask float_of_str str_of_float minimize py_round get_cat_dims gp_train_time unit train_surrogates
      initial_design sampled_min_max feasibility_aware unit unit
      other_init other_init other_optimize other_optimize in
  ask (planner "ucb" "pymoo" None space) =
    ([EvLog "Regression surrogate GP trained in 0.0 sec" "INFO";
      EvOptimize "pymoo";
      EvLog "Optimizing acquisition function with pymoo GA..." "INFO";
      EvMinimize;
      EvLog "Completed in 0.0 sec" "INFO"],
     Ok [point1]).
Proof. reflexivity. Qed.

(** ** The further properties on the example campaign *)

Lemma set_pymoo_param_space_raises_iff_unrecognized_witness :
  (exists param, In param odd_space /\ recognized_type param = false) /\
  _set_pymoo_param_space odd_space = Raise ValueError.
Proof.
  assert (H : exists param, In param odd_space /\ recognized_type param = false).
  { exists (Param.mk "t" "ordinal" 0%float 0%float []).
    split; [right; left; reflexivity | reflexivity]. }
  split; [exact H |].
  exact (proj2 (proj1 (set_pymoo_param_space_raises_iff_unrecognized odd_space)) H).
Defined.

Lemma set_pymoo_param_space_last_name_wins_witness :
  exists pymoo_space xl xu,
    _set_pymoo_param_space dup_space = Ok (pymoo_space, xl, xu) /\
    dict_get pymoo_space "x" = Ok (Integer (0, 1)) /\
    length pymoo_space = 1%nat /\
    length xl = 2%nat.
Proof.
  destruct (_set_pymoo_param_space dup_space) as [[[ps xl] xu] | e] eqn:Hset;
    [| vm_compute in Hset; discriminate].
  destruct (set_pymoo_param_space_last_name_wins
              [Param.mk "x" "continuous" 0%float 1%float []] []
              (Param.mk "x" "discrete" 1%float 2%float [VFloat 1; VFloat 2])
              ps xl xu Hset (fun H => H)) as (Hget & _ & _ & Hxl & _).
  exists ps, xl, xu. split; [reflexivity |]. split; [exact Hget |].
  vm_compute in Hset. injection Hset as <- <- <-.
  split; reflexivity.
Defined.

Lemma constructed_optimizer_invariants_witness :
  exists o,
    PymooGAOptimizer_init params_obj "ucb" acqf one_constraint 3 [] default_config
      = ([], Ok o) /\
    PymooGAOptimizer.batch_size o < PymooGAOptimizer.pop_size o /\
    length (PymooProblemWrapper.xl (PymooGAOptimizer.pymoo_problem o)) = 3%nat /\
    PymooProblemWrapper.n_constr (PymooGAOptimizer.pymoo_problem o) = 1.
Proof.
  eexists. split; [reflexivity |].
  destruct (constructed_optimizer_invariants params_obj "ucb" acqf one_constraint
              3 [] default_config [] _ eq_refl)
    as (_ & Hlt & _ & _ & _ & _ & _ & _ & _ & _ & _ & _ & Hxl & _ & Hn).
  split; [exact Hlt |]. split; [exact Hxl | exact Hn].
Defined.

Lemma empty_candidates_raise_IndexError_witness :
  samples_is_empty (ArraySamples []) = true /\
  _evaluate float_of_str float32 (problem 2 one_constraint) (ArraySamples []) []
    = ([], Raise IndexError) /\
  _batch_sample_selector float_of_str (optimizer 2 []) (ArraySamples [])
    = Raise IndexError.
Proof.
  split; [reflexivity |].
  destruct (empty_candidates_raise_IndexError float_of_str float32
              (problem 2 one_constraint) (optimizer 2 []) (ArraySamples []) []
              true true true eq_refl) as (_ & Hev & Hsel).
  split; [exact Hev | exact Hsel].
Defined.

Lemma nonpositive_batch_size_selection_witness :
  PymooGAOptimizer.batch_size
    (optimizer 0 [[VFloat 0.5; VFloat 2; VStr "b"]]) <= 0 /\
  Forall (fun row => row <> []) [[VFloat 0.5; VFloat 2; VStr "b"]] /\
  row_eqb [VFloat 0.5; VFloat 2; VStr "b"] (to_array point1) = true /\
  _batch_sample_selector float_of_str
    (optimizer 0 [[VFloat 0.5; VFloat 2; VStr "b"]])
    (DictSamples [ind1; ind2; ind2]) = Ok [point1; point2; point2].
Proof.
  assert (Hrows : Forall (fun row : list pyval => row <> [])
                    [[VFloat 0.5; VFloat 2; VStr "b"]])
    by (constructor; [discriminate | constructor]).
  split; [simpl; lia |]. split; [exact Hrows |]. split; [reflexivity |].
  apply (nonpositive_batch_size_selection float_of_str
           (optimizer 0 [[VFloat 0.5; VFloat 2; VStr "b"]])
           (DictSamples [ind1; ind2; ind2]) [point1; point2; point2] eq_refl);
    [simpl; lia | exact Hrows].
Defined.

Lemma smaller_batch_is_prefix_witness :
  1 <= PymooGAOptimizer.batch_size (optimizer 1 [])
    <= PymooGAOptimizer.batch_size (optimizer 2 []) /\
  _batch_sample_selector float_of_str (optimizer 2 [])
    (DictSamples [ind2; ind1; ind2]) = Ok [point2; point1] /\
  _batch_sample_selector float_of_str (optimizer 1 [])
    (DictSamples [ind2; ind1; ind2]) = Ok (firstn 1 [point2; point1]).
Proof.
  assert (Hb : 1 <= PymooGAOptimizer.batch_size (optimizer 1 [])
                 <= PymooGAOptimizer.batch_size (optimizer 2 []))
    by (simpl; lia).
  split; [exact Hb |].
  destruct (smaller_batch_is_prefix float_of_str (optimizer 1 []) (optimizer 2 [])
              (DictSamples [ind2; ind1; ind2]) [point2; point1; point2]
              eq_refl eq_refl Hb eq_refl) as (batch & Hlarge & Hsmall).
  assert (Hbatch : batch = [point2; point1]).
  { vm_compute in Hlarge. injection Hlarge as <-. reflexivity. }
  subst batch. split; [exact Hlarge | exact Hsmall].
Defined.

Lemma optimize_on_constructed_optimizer_witness :
  exists o,
    PymooGAOptimizer_init params_obj "ucb" acqf no_constraints 1
      [[VFloat 0.5; VFloat 2; VStr "b"]] default_config = ([], Ok o) /\
    wf_space (param_space params_obj) = true /\
    forallb (individual (param_space params_obj)) [ind1; ind2] = true /\
    _optimize float_of_str str_of_float minimize py_round o =
      ([EvLog "Optimizing acquisition function with pymoo GA..." "INFO";
        EvMinimize;
        EvLog "Completed in 0.0 sec" "INFO"],
       Ok [point1]).
Proof.
  destruct (PymooGAOptimizer_init params_obj "ucb" acqf no_constraints 1
              [[VFloat 0.5; VFloat 2; VStr "b"]] default_config)
    as [t [o | e]] eqn:Hinit; [| vm_compute in Hinit; discriminate].
  assert (Ht : t = []) by (vm_compute in Hinit; congruence).
  subst t.
  destruct (optimize_on_constructed_optimizer float_of_str str_of_float minimize
              py_round params_obj "ucb" acqf no_constraints 1
              [[VFloat 0.5; VFloat 2; VStr "b"]] default_config [] o ind1 [ind2]
              Hinit)
    as (candidates & Hdec & _ & Hopt);
    [lia | reflexivity | constructor; [discriminate | constructor]
    | reflexivity | reflexivity |].
  exists o. split; [reflexivity |]. split; [reflexivity |].
  split; [reflexivity |]. rewrite Hopt.
  vm_compute in Hinit. injection Hinit as <-.
  vm_compute in Hdec. injection Hdec as <-. reflexivity.
Defined.

Lemma ask_rejects_batch_size_witness :
  let ask :=
    _ask float_of_str str_of_float minimize py_round get_cat_dims gp_train_time
      unit train_surrogates initial_design sampled_min_max feasibility_aware
      unit unit other_init other_init other_optimize other_optimize in
  let fitted :=
    EvLog "Regression surrogate GP trained in 0.0 sec" "INFO" in
  in_initial_design (batch_planner "ei") = false /\
  1 < BoTorchPlanner.batch_size (batch_planner "ei") /\
  ask (batch_planner "ei")
    = ([fitted; EvLog sequential_message "FATAL"],
       Raise (FatalError sequential_message)) /\
  BoTorchPlanner.batch_size (planner "qei" "pymoo" None space) <= 1 /\
  ask (planner "qei" "pymoo" None space)
    = ([fitted; EvLog qei_message "FATAL"], Raise (FatalError qei_message)).
Proof.
  intros ask fitted. split; [reflexivity |]. split; [reflexivity |].
  split; [| split].
  - apply (proj1 (ask_rejects_batch_size float_of_str str_of_float minimize
                    py_round get_cat_dims gp_train_time unit train_surrogates
                    initial_design sampled_min_max feasibility_aware unit unit
                    other_init other_init other_optimize other_optimize
                    (batch_planner "ei") (MixedSingleTaskGP [2]) eq_refl
                    eq_refl)).
    split; [reflexivity |]. split; reflexivity.
  - simpl; lia.
  - apply (proj2 (ask_rejects_batch_size float_of_str str_of_float minimize
                    py_round get_cat_dims gp_train_time unit train_surrogates
                    initial_design sampled_min_max feasibility_aware unit unit
                    other_init other_init other_optimize other_optimize
                    (planner "qei" "pymoo" None space) (MixedSingleTaskGP [2])
                    eq_refl eq_refl)).
    split; [reflexivity | simpl; lia].
Defined.

Lemma ask_initial_design_witness :
  let ask :=
    _ask float_of_str str_of_float minimize py_round get_cat_dims gp_train_time unit train_surrogates
      initial_design sampled_min_max feasibility_aware unit unit
      other_init other_init other_optimize other_optimize in
  Forall (fun v => PrimFloat.is_nan v = true) (BoTorchPlanner._values fresh_planner) /\
  ask fresh_planner = ([], Ok (initial_design fresh_planner)).
Proof.
  intros ask.
  assert (H : Forall (fun v => PrimFloat.is_nan v = true)
                (BoTorchPlanner._values fresh_planner)) by constructor.
  split; [exact H |].
  exact (ask_initial_design float_of_str str_of_float minimize py_round get_cat_dims gp_train_time unit
           train_surrogates initial_design sampled_min_max feasibility_aware
           unit unit other_init other_init other_optimize other_optimize
           fresh_planner (or_intror H)).
Defined.

Lemma ask_pymoo_searches_once_witness :
  let ask :=
    _ask float_of_str str_of_float minimize py_round get_cat_dims gp_train_time
      unit train_surrogates initial_design sampled_min_max feasibility_aware
      unit unit other_init other_init other_optimize other_optimize in
  in_initial_design (planner "variance" "pymoo" None space) = false /\
  batch_checks_pass (planner "variance" "pymoo" None space) = true /\
  BoTorchPlanner.batch_size (planner "variance" "pymoo" None space) < 200 /\
  trace (ask (planner "variance" "pymoo" None space))
    = [EvLog "Regression surrogate GP trained in 0.0 sec" "INFO";
       EvOptimize "pymoo";
       EvLog "Optimizing acquisition function with pymoo GA..." "INFO";
       EvMinimize;
       EvLog "Completed in 0.0 sec" "INFO"] /\
  outcome (ask (planner "variance" "pymoo" None space)) = Ok [point1].
Proof.
  intros ask. split; [reflexivity |]. split; [reflexivity |].
  split; [reflexivity |].
  destruct (ask_pymoo_searches_once float_of_str str_of_float minimize py_round
              get_cat_dims gp_train_time unit train_surrogates initial_design
              sampled_min_max feasibility_aware unit unit other_init other_init
              other_optimize other_optimize
              (planner "variance" "pymoo" None space) (MixedSingleTaskGP [2])
              eq_refl eq_refl eq_refl eq_refl eq_refl eq_refl eq_refl)
    as (mm & o & _ & Hinit & Hask).
  unfold ask. rewrite Hask.
  vm_compute in Hinit. injection Hinit as <-. split; reflexivity.
Defined.

Lemma ask_rejects_ucbv2_witness :
  let ask :=
    _ask float_of_str str_of_float minimize py_round get_cat_dims gp_train_time
      unit train_surrogates initial_design sampled_min_max feasibility_aware
      unit unit other_init other_init other_optimize other_optimize in
  in_initial_design (planner "ucbv2" "pymoo" None space) = false /\
  get_aqcf_min_max unit sampled_min_max (planner "ucbv2" "pymoo" None space) tt
    = Ok (MinMax 0%float 1%float) /\
  ask (planner "ucbv2" "pymoo" None space)
    = ([EvLog "Regression surrogate GP trained in 0.0 sec" "INFO";
        EvLog "Acquisition function type ucbv2 not understood!" "FATAL"],
       Raise (FatalError "Acquisition function type ucbv2 not understood!")).
Proof.
  intros ask. split; [reflexivity |].
  destruct (ask_rejects_ucbv2 float_of_str str_of_float minimize py_round
              get_cat_dims gp_train_time unit train_surrogates initial_design
              sampled_min_max feasibility_aware unit unit other_init other_init
              other_optimize other_optimize
              (planner "ucbv2" "pymoo" None space) (MixedSingleTaskGP [2])
              eq_refl eq_refl eq_refl)
    as [Hmm Hask].
  split; [exact Hmm | exact Hask].
Defined.

Lemma get_aqcf_min_max_types_witness :
  min_max_acquisition
    (BoTorchPlanner.acquisition_type (planner "thompson" "pymoo" None space)) = false /\
  get_aqcf_min_max unit sampled_min_max (planner "thompson" "pymoo" None space) tt
    = Raise (UnboundLocalError "acqf") /\
  get_aqcf_min_max unit sampled_min_max (planner "general" "pymoo" None space) tt
    = Ok (MinMax 0%float 1%float).
Proof.
  destruct (get_aqcf_min_max_types unit sampled_min_max
              (planner "thompson" "pymoo" None space) tt) as (_ & Herr & _).
  destruct (get_aqcf_min_max_types unit sampled_min_max
              (planner "general" "pymoo" None space) tt) as (_ & _ & Hgen).
  split; [reflexivity |]. split; [| exact (Hgen eq_refl)].
  destruct (get_aqcf_min_max unit sampled_min_max
              (planner "thompson" "pymoo" None space) tt) as [mm | e] eqn:Hrun;
    [vm_compute in Hrun; discriminate |].
  rewrite (Herr e eq_refl). reflexivity.
Defined.

Lemma init_is_idempotent_witness :
  exists self',
    outcome (BoTorchPlanner_init (planner "ei" "pymoo" (Some [0]) space))
      = Ok self' /\
    BoTorchPlanner.acquisition_type self' = "general"%string /\
    BoTorchPlanner_init self' = ([], Ok self').
Proof.
  destruct (init_is_idempotent (planner "ei" "pymoo" (Some [0]) space))
    as (t & self' & Hinit & _ & Hgen & Hagain).
  exists self'. rewrite Hinit. split; [reflexivity |].
  split; [| exact Hagain].
  apply Hgen. vm_compute in Hinit. injection Hinit as _ <-. discriminate.
Defined.

Lemma run_mixed_cat_disc_type_accepted_witness :
  BoTorchPlanner.acquisition_type (batch_planner "qei")
    = run_mixed_cat_disc_acquisition_type
        (BoTorchPlanner.batch_size (batch_planner "qei")) /\
  BoTorchPlanner.acquisition_type (planner "ei" "pymoo" None space)
    = run_mixed_cat_disc_acquisition_type
        (BoTorchPlanner.batch_size (planner "ei" "pymoo" None space)) /\
  trace (select_acqf unit feasibility_aware (batch_planner "qei") tt
           (MinMax 0%float 1%float)) = [] /\
  trace (select_acqf unit feasibility_aware (planner "ei" "pymoo" None space) tt
           (MinMax 0%float 1%float)) = [].
Proof.
  destruct (run_mixed_cat_disc_type_accepted unit sampled_min_max
              feasibility_aware (batch_planner "qei") tt (MinMax 0%float 1%float)
              eq_refl) as (_ & _ & Hq).
  destruct (run_mixed_cat_disc_type_accepted unit sampled_min_max
              feasibility_aware (planner "ei" "pymoo" None space) tt
              (MinMax 0%float 1%float) eq_refl) as (_ & _ & He).
  split; [reflexivity |]. split; [reflexivity |].
  rewrite Hq, He. split; reflexivity.
Defined.

Lemma regression_model_choice_witness :
  build_train_regression_gp "mixed_cat_disc" false [2] = Ok (MixedSingleTaskGP [2]) /\
  build_train_regression_gp "mixed_cat_disc" true [2] = Ok SingleTaskGP /\
  build_train_regression_gp "fully_ordinal" true [] = Raise NotImplementedError.
Proof.
  split; [reflexivity |]. split.
  - apply (proj1 (proj2 (regression_model_choice "mixed_cat_disc" true [2])));
      reflexivity.
  - apply (proj1 (regression_model_choice "fully_ordinal" true [])).
    reflexivity.
Defined.

Lemma ask_unsupported_problem_type_witness :
  in_initial_design (ordinal_planner "ucb" "pymoo") = false /\
  py_contains "mixed_cat_"
    (BoTorchPlanner.problem_type (ordinal_planner "ucb" "pymoo")) = false /\
  _ask float_of_str str_of_float minimize py_round get_cat_dims gp_train_time
    unit train_surrogates initial_design sampled_min_max feasibility_aware
    unit unit other_init other_init other_optimize other_optimize
    (ordinal_planner "ucb" "pymoo") = ([], Raise NotImplementedError).
Proof.
  split; [reflexivity |]. split; [reflexivity |].
  exact (ask_unsupported_problem_type float_of_str str_of_float minimize
           py_round get_cat_dims gp_train_time unit train_surrogates
           initial_design sampled_min_max feasibility_aware unit unit
           other_init other_init other_optimize other_optimize
           (ordinal_planner "ucb" "pymoo") eq_refl eq_refl eq_refl).
Defined.

Lemma decoded_samples_keys_witness :
  exists decoded,
    _pymoo_to_olympus float_of_str odd_problem (DictSamples [odd_ind])
      false false false = Ok (OlympDicts decoded) /\
    length decoded = 1%nat /\
    Forall (fun d => NoDup (dict_keys d) /\ (length d <= 2)%nat) decoded.
Proof.
  destruct (_pymoo_to_olympus float_of_str odd_problem (DictSamples [odd_ind])
              false false false) as [[decoded | pvs | arr] | e] eqn:Hdec;
    try (vm_compute in Hdec; discriminate).
  destruct (decoded_samples_keys float_of_str odd_problem (DictSamples [odd_ind])
              decoded Hdec) as [(Xd & HXd & Hlen) Hall].
  exists decoded. split; [reflexivity |]. split.
  - rewrite Hlen. vm_compute in HXd. injection HXd as <-. reflexivity.
  - eapply Forall_impl; [| exact Hall].
    intros d (Hnd & Hle & _). split; [exact Hnd | exact Hle].
Defined.

Lemma unrecognized_types_are_dropped_witness :
  NoDup (map Param.name odd_space) /\
  dict_keys odd_ind = map Param.name odd_space /\
  _pymoo_to_olympus float_of_str odd_problem (DictSamples [odd_ind])
    false false false = Ok (OlympDicts [[("x"%string, VFloat 0.5)]]) /\
  _set_pymoo_param_space odd_space = Raise ValueError.
Proof.
  assert (Hnd : NoDup (map Param.name odd_space))
    by (apply distinct_NoDup; vm_compute; reflexivity).
  assert (Hdec : _pymoo_to_olympus float_of_str odd_problem (DictSamples [odd_ind])
                   false false false = Ok (OlympDicts [[("x"%string, VFloat 0.5)]]))
    by reflexivity.
  assert (Hkeys : Forall (fun sample => dict_keys sample = map Param.name odd_space)
                     [odd_ind])
    by (constructor; [reflexivity | constructor]).
  split; [exact Hnd |]. split; [reflexivity |]. split; [exact Hdec |].
  destruct (unrecognized_types_are_dropped float_of_str odd_problem [odd_ind] _
              Hnd Hkeys Hdec) as [_ Hraise].
  apply Hraise. reflexivity.
Defined.

Lemma decode_index_bounds_witness :
  wf_space space = true /\
  forallb (typed_sample space) [ind1; ind_last] = true /\
  forallb (indices_in_range space) [ind1; ind_last] = true /\
  exists candidates,
    _pymoo_to_olympus float_of_str (problem 1 no_constraints)
      (DictSamples [ind1; ind_last]) false true false
      = Ok (OlympParamVecs candidates) /\
    length candidates = 2%nat.
Proof.
  assert (Hin : forallb (indices_in_range space) [ind1; ind_last] = true)
    by reflexivity.
  split; [reflexivity |]. split; [reflexivity |]. split; [exact Hin |].
  pose proof (decode_index_bounds float_of_str (problem 1 no_constraints) ind1
                [ind_last] eq_refl eq_refl) as H.
  cbv zeta in H.
  change (param_space (PymooProblemWrapper.params_obj (problem 1 no_constraints)))
    with space in H.
  rewrite Hin in H. exact H.
Defined.

Lemma rows_are_keyed_by_names_witness :
  NoDup (map Param.name space) /\
  _known_constraints_wrapper (problem 1 one_constraint)
    (_X_to_list_dicts space
       [[VFloat 0.5; VInt 1; VStr "b"; VFloat 9]; [VFloat 1; VInt 0; VStr "a"]])
    = [-2; 2] /\
  _pymoo_to_olympus float_of_str (problem 1 one_constraint)
    (ArraySamples [[VFloat 0.5; VInt 1; VStr "b"; VFloat 9]]) false true false
    = Ok (OlympParamVecs [point1]).
Proof.
  assert (Hnd : NoDup (map Param.name space))
    by (apply distinct_NoDup; vm_compute; reflexivity).
  split; [exact Hnd |].
  destruct (rows_are_keyed_by_names float_of_str (problem 1 one_constraint)
              [[VFloat 0.5; VInt 1; VStr "b"; VFloat 9]; [VFloat 1; VInt 0; VStr "a"]]
              false true false Hnd) as (_ & _ & Hkc & _).
  destruct (rows_are_keyed_by_names float_of_str (problem 1 one_constraint)
              [[VFloat 0.5; VInt 1; VStr "b"; VFloat 9]]
              false true false Hnd) as (_ & _ & _ & Hdec).
  split.
  - etransitivity; [exact Hkc | reflexivity].
  - etransitivity; [exact Hdec | reflexivity].
Defined.

Lemma gen_initial_population_repeats_witness :
  wf_space space = true /\
  forallb (valid_vector space) [vector; vector2] = true /\
  gen_initial_population float_of_str str_of_float str_of_int [vector; vector2]
    space
    = Ok [ind1; ind1; ind1;
          [("x", VFloat 0.25); ("d", VInt 2); ("c", VStr "a")]%string;
          [("x", VFloat 0.25); ("d", VInt 2); ("c", VStr "a")]%string;
          [("x", VFloat 0.25); ("d", VInt 2); ("c", VStr "a")]%string].
Proof.
  split; [reflexivity |]. split; [reflexivity |].
  destruct (gen_initial_population_repeats float_of_str str_of_float str_of_int
              space [vector; vector2] eq_refl eq_refl) as (encs & Hgen & _ & _).
  rewrite Hgen. f_equal. vm_compute in Hgen. injection Hgen as Hgen.
  symmetry. exact Hgen.
Defined.

Lemma gen_initial_population_requires_options_witness :
  gen_initial_population float_of_str str_of_float str_of_int [vector] space
    = Ok [ind1; ind1; ind1] /\
  py_in (VFloat 2) [VFloat 1; VFloat 2; VFloat 3] = true /\
  gen_initial_population float_of_str str_of_float str_of_int
    [[VFloat 0.5; VFloat 4; VStr "b"]] space = Raise ValueError.
Proof.
  assert (Hgen : gen_initial_population float_of_str str_of_float str_of_int
                   [vector] space = Ok [ind1; ind1; ind1]) by reflexivity.
  split; [exact Hgen |]. split; [| reflexivity].
  apply (proj1 (gen_initial_population_requires_options float_of_str str_of_float
                  str_of_int space [vector] _ Hgen vector (VFloat 2)
                  (Param.mk "d" "discrete" 1%float 3%float
                     [VFloat 1; VFloat 2; VFloat 3])
                  (or_introl eq_refl) (or_intror (or_introl eq_refl)))).
  reflexivity.
Defined.
